(** * G'DAY daily water balance (pygday): shallow embedding and checked properties

    The embedded code is [src/utilities.py] (tolerant comparisons, [clip]) and
    [src/water_balance.py] (classes [WaterBalance], [SoilMoisture],
    [PenmanMonteith], [Penman], [PriestleyTaylor]).

    Modelling conventions.
    - A Python float is a real number: rounding, overflow, infinities and NaN
      are not represented.  What Python 2 arithmetic raises on finite floats
      is kept: [x / 0.0] raises [ZeroDivisionError], [math.sqrt] and
      [math.log] raise [ValueError] outside their domain, [x ** y] raises as
      float [pow] does, arithmetic on [None] raises [TypeError].  The
      comparisons of [utilities.py] are given a second time on binary64
      numbers, to run them at concrete inputs.
    - The objects [control], [params], [state] and [fluxes] are shared by
      reference between [WaterBalance] and [SoilMoisture] and mutated in place;
      they live in one [Store], threaded through a state-and-exception monad in
      which the store keeps every write made before an exception.
    - The module [constants] is not part of the embedded sources: its values
      are the fields of a [Constants] record passed to the code that reads
      them. *)

From Stdlib Require Import Reals Lra Lia ZArith String List Bool Floats.
Import ListNotations.
Open Scope string_scope.
Open Scope R_scope.

(** ** Python values and exceptions *)

Module Py.

Inductive exn : Type :=
| ZeroDivisionError
| ValueError
| TypeError
| UnboundLocalError
| KeyError
| IndexError
| SystemExit.

Inductive result (A : Type) : Type :=
| Ok (a : A)
| Raise (e : exn).
Arguments Ok {A} a.
Arguments Raise {A} e.

Definition bind {A B : Type} (r : result A) (k : A -> result B) : result B :=
  match r with
  | Ok a => k a
  | Raise e => Raise e
  end.

(** Comparisons of floats, as booleans. *)
Definition ltb (x y : R) : bool := if Rlt_dec x y then true else false.
Definition gtb (x y : R) : bool := ltb y x.
Definition eqb (x y : R) : bool := if Req_dec_T x y then true else false.

(** [x / y] *)
Definition div (x y : R) : result R :=
  if eqb y 0 then Raise ZeroDivisionError else Ok (x / y).

(** A value used as a number: [None] in an arithmetic operation raises. *)
Definition as_float (x : option R) : result R :=
  match x with
  | None => Raise TypeError
  | Some v => Ok v
  end.

(** [math.sqrt(x)] *)
Definition sqrt (x : R) : result R :=
  if ltb x 0 then Raise ValueError else Ok (R_sqrt.sqrt x).

(** [math.log(x)] *)
Definition log (x : R) : result R :=
  if ltb 0 x then Ok (ln x) else Raise ValueError.

(** [math.asin(x)] *)
Definition asin (x : R) : result R :=
  if ltb x (-1) || ltb 1 x then Raise ValueError else Ok (Ratan.asin x).

(** [y] holds an integral value *)
Definition is_integer (y : R) : bool := eqb (IZR (Int_part y)) y.

(** [x ** y] on floats (float_pow of CPython 2): the exponent zero gives one
    whatever the base, zero to a negative power and a negative base to a
    fractional power raise. *)
Definition pow (x y : R) : result R :=
  if eqb y 0 then Ok 1
  else if eqb x 0 then
    if ltb y 0 then Raise ZeroDivisionError else Ok 0
  else if ltb x 0 then
    if is_integer y then Ok (powerRZ x (Int_part y)) else Raise ValueError
  else Ok (Rpower x y).

(** [min(a, b)] and [max(a, b)]: the first argument is kept on ties. *)
Definition min (a b : R) : R := if ltb b a then b else a.
Definition max (a b : R) : R := if gtb b a then b else a.

End Py.

Import Py.

Declare Scope py_scope.
Delimit Scope py_scope with py.
Notation "x <~ r ;; k" := (Py.bind r (fun x => k))
  (at level 61, r at next level, right associativity) : py_scope.
Open Scope py_scope.

(** ** utilities.py *)

Module Utilities.

(** Default of the keyword argument [tol]. *)
Definition default_tol : R := 1E-14.

(** [float_eq(arg1, arg2, tol=1E-14)] *)
Definition float_eq (arg1 arg2 tol : R) : bool :=
  ltb (Rabs (arg1 - arg2)) (tol + tol * Rabs arg2).

(** [float_lt(arg1, arg2, tol=1E-14)] *)
Definition float_lt (arg1 arg2 tol : R) : bool :=
  gtb (arg2 - arg1) (Rabs arg1 * tol).

(** [float_le(arg1, arg2, tol=1E-14)]: forwards to [float_lt] without [tol]. *)
Definition float_le (arg1 arg2 tol : R) : bool :=
  float_lt arg1 arg2 default_tol.

(** [float_gt(arg1, arg2, tol=1E-14)] *)
Definition float_gt (arg1 arg2 tol : R) : bool :=
  gtb (arg1 - arg2) (Rabs arg1 * tol).

(** [clip(value, min=None, max=None)] *)
Definition clip (value : R) (min max : option R) : R :=
  let value :=
    match min with
    | Some m => if ltb value m then m else value
    | None => value
    end in
  let value :=
    match max with
    | Some m => if gtb value m then m else value
    | None => value
    end in
  value.

(** [float_ne(arg1, arg2, tol=1E-14)]: calls [float_eq] without [tol]. *)
Definition float_ne (arg1 arg2 tol : R) : bool :=
  negb (float_eq arg1 arg2 default_tol).

(** [float_ge(arg1, arg2, tol=1E-14)]: forwards to [float_gt] without [tol]. *)
Definition float_ge (arg1 arg2 tol : R) : bool :=
  float_gt arg1 arg2 default_tol.

(** [day_length(doy, yr_days, latitude)], with [pi] the real number. *)
Definition day_length (doy yr_days : Z) (latitude : R) : result R :=
  let deg2rad := PI / 180.0 in
  let latr := latitude * deg2rad in
  q <~ div (2.0 * PI * (IZR doy + 10.0)) (IZR yr_days) ;;
  let sindec := - sin (23.5 * deg2rad) * cos q in
  let a := sin latr * sindec in
  dec <~ Py.asin sindec ;;
  let b := cos latr * cos dec in
  r <~ div a b ;;
  h <~ Py.asin r ;;
  let dayl := 12.0 * (1.0 + (2.0 / PI) * h) in
  Ok dayl.

(** [[f(d) for d in xrange(n)]], the first exception ending the loop. *)
Fixpoint comprehension {A : Type} (f : Z -> result A) (ds : list Z)
  : result (list A) :=
  match ds with
  | [] => Ok []
  | d :: ds' =>
      v <~ f d ;;
      vs <~ comprehension f ds' ;;
      Ok (v :: vs)
  end.

(** [xrange(n)] *)
Definition xrange (n : Z) : list Z :=
  List.map Z.of_nat (List.seq 0 (Z.to_nat n)).

(** [calculate_daylength(yr_days, latitude)] *)
Definition calculate_daylength (yr_days : Z) (latitude : R)
  : result (list R) :=
  comprehension (fun d => day_length (d + 1) yr_days latitude)
    (xrange yr_days).

(** [uniq(inlist)], over items whose equality is decidable. *)
Section Uniq.

Context {A : Type} (eq_dec : forall x y : A, {x = y} + {x <> y}).

Definition uniq_step (uniques : list A) (item : A) : list A :=
  if in_dec eq_dec item uniques then uniques else (uniques ++ [item])%list.

Definition uniq (inlist : list A) : list A :=
  fold_left uniq_step inlist [].

End Uniq.

(** The values [str2boolean] tells apart. *)
Inductive value : Type :=
| VBool (b : bool)
| VInt (z : Z)
| VStr (s : string)
| VFloat (r : R)
| VNone.

(** [str.lower()] on ASCII letters. *)
Definition lower_ascii (c : Ascii.ascii) : Ascii.ascii :=
  let n := Ascii.nat_of_ascii c in
  if ((65 <=? n) && (n <=? 90))%nat then Ascii.ascii_of_nat (n + 32) else c.

Fixpoint lower (s : string) : string :=
  match s with
  | EmptyString => EmptyString
  | String c s' => String (lower_ascii c) (lower s')
  end.

Fixpoint str_in (s : string) (l : list string) : bool :=
  match l with
  | [] => false
  | x :: l' => String.eqb s x || str_in s l'
  end.

(** [str2boolean(value)].  [value is 0] and [value is 1] hold for the
    integers 0 and 1 (CPython shares the small integers); a non-empty string
    outside the six spellings reaches the end of the function, which returns
    [None]. *)
Definition str2boolean (v : value) : result value :=
  match v with
  | VBool _ => Ok v
  | VInt 0 => Ok v
  | VInt 1 => Ok v
  | VStr (String _ _ as s) =>
      if str_in (lower s) ["true"; "t"; "1"] then Ok (VBool true)
      else if str_in (lower s) ["false"; "f"; "0"] then Ok (VBool false)
      else Ok VNone
  | _ => Raise ValueError
  end.

End Utilities.

Import Utilities.

(** [class SimpleMovingAverage]: [data] is the deque, oldest item first. *)
Module SimpleMovingAverage.

Record t : Type := {
  window_size : Z;
  data : list R
}.

(** [__init__(window_size, previous_state=None)]; [None] stands for the
    failed [assert] on a window that is not positive. *)
Definition init (window_size : Z) (previous_state : option R) : option t :=
  if (0 <? window_size)%Z then
    Some {| window_size := window_size;
            data := match previous_state with
                    | Some p => List.repeat p (Z.to_nat window_size)
                    | None => []
                    end |}
  else None.

(** [sum(data)] *)
Definition sum (l : list R) : R := fold_left Rplus l 0.

(** [__call__(n)]: the average returned and the object afterwards. *)
Definition call (self : t) (n : R) : R * t :=
  let data := (data self ++ [n])%list in
  let data_length := Z.of_nat (List.length data) in
  let '(data, data_length) :=
    if (window_size self <? data_length)%Z
    then (List.tl data, (data_length - 1)%Z)
    else (data, data_length) in
  let average :=
    if (data_length =? 0)%Z then 0.0 else sum data / IZR data_length in
  (average, {| window_size := window_size self; data := data |}).

Definition reset_stream (self : t) : t :=
  {| window_size := window_size self; data := [] |}.

(** The object after a stream of calls. *)
Definition feed (self : t) (ns : list R) : t :=
  fold_left (fun o n => snd (call o n)) ns self.

End SimpleMovingAverage.

(** The comparisons of [utilities.py] on IEEE binary64 numbers, the
    representation of a Python float. *)
Module Binary64.

Set Warnings "-inexact-float".

Definition default_tol : float := 1e-14%float.

Definition float_eq (arg1 arg2 tol : float) : bool :=
  PrimFloat.ltb (PrimFloat.abs (arg1 - arg2))
    (tol + tol * PrimFloat.abs arg2)%float.

Definition float_lt (arg1 arg2 tol : float) : bool :=
  PrimFloat.ltb (PrimFloat.abs arg1 * tol)%float (arg2 - arg1)%float.

Definition float_le (arg1 arg2 tol : float) : bool :=
  float_lt arg1 arg2 default_tol.

Definition float_gt (arg1 arg2 tol : float) : bool :=
  PrimFloat.ltb (PrimFloat.abs arg1 * tol)%float (arg1 - arg2)%float.

Set Warnings "+inexact-float".

End Binary64.

(** ** Data model: the objects shared between the classes *)

(** The flags read from [control]. *)
Record Control : Type := {
  trans_model : Z;
  assim_model : string;
  sw_stress_model : Z;
  calc_sw_params : bool
}.

(** The attributes read from, or written to, [params].  The four
    Landsberg-Waring attributes may hold [None]. *)
Record Params : Type := {
  albedo : R;
  intercep_frac : R;
  max_intercep_lai : R;
  dz0v_dh : R;
  displace_ratio : R;
  z0h_z0m : R;
  g1 : R;
  fractup_soil : R;
  qs : R;
  topsoil_type : string;
  rootsoil_type : string;
  topsoil_depth : R;
  rooting_depth : R;
  wcapac_topsoil : R;
  wcapac_root : R;
  theta_sat_topsoil : R;
  theta_sat_root : R;
  b_topsoil : R;
  b_root : R;
  psi_sat_topsoil : R;
  psi_sat_root : R;
  ctheta_topsoil : option R;
  ntheta_topsoil : option R;
  ctheta_root : option R;
  ntheta_root : option R
}.

Record State : Type := {
  pawater_topsoil : R;
  pawater_root : R;
  wtfac_topsoil : R;
  wtfac_root : R;
  lai : R;
  canht : R;
  delta_sw_store : R
}.

Record Fluxes : Type := {
  transpiration : R;
  soil_evap : R;
  interception : R;
  erain : R;
  et : R;
  runoff : R;
  gs_mol_m2_sec : R;
  ga_mol_m2_sec : R;
  omega : R;
  gpp_gCm2 : R;
  gpp_am : R;
  gpp_pm : R;
  wue : R
}.

(** The names of module [constants] that the code reads. *)
Record Constants : Type := {
  DEG_TO_KELVIN : R;
  MM_TO_M : R;
  RGAS : R;
  GRAMS_C_TO_MOL_C : R;
  MOL_TO_UMOL : R;
  WATT_HR_TO_MJ : R
}.

Record Store : Type := {
  control : Control;
  params : Params;
  state : State;
  fluxes : Fluxes
}.

(** *** Attribute assignment *)

Definition set_pawater_topsoil (v : R) (st : State) : State :=
  {| pawater_topsoil := v; pawater_root := pawater_root st;
     wtfac_topsoil := wtfac_topsoil st; wtfac_root := wtfac_root st;
     lai := lai st; canht := canht st; delta_sw_store := delta_sw_store st |}.

Definition set_pawater_root (v : R) (st : State) : State :=
  {| pawater_topsoil := pawater_topsoil st; pawater_root := v;
     wtfac_topsoil := wtfac_topsoil st; wtfac_root := wtfac_root st;
     lai := lai st; canht := canht st; delta_sw_store := delta_sw_store st |}.

Definition set_delta_sw_store (v : R) (st : State) : State :=
  {| pawater_topsoil := pawater_topsoil st; pawater_root := pawater_root st;
     wtfac_topsoil := wtfac_topsoil st; wtfac_root := wtfac_root st;
     lai := lai st; canht := canht st; delta_sw_store := v |}.

Definition set_transpiration (v : R) (f : Fluxes) : Fluxes :=
  {| transpiration := v; soil_evap := soil_evap f;
     interception := interception f; erain := erain f; et := et f;
     runoff := runoff f; gs_mol_m2_sec := gs_mol_m2_sec f;
     ga_mol_m2_sec := ga_mol_m2_sec f; omega := omega f;
     gpp_gCm2 := gpp_gCm2 f; gpp_am := gpp_am f; gpp_pm := gpp_pm f;
     wue := wue f |}.

Definition set_soil_evap (v : R) (f : Fluxes) : Fluxes :=
  {| transpiration := transpiration f; soil_evap := v;
     interception := interception f; erain := erain f; et := et f;
     runoff := runoff f; gs_mol_m2_sec := gs_mol_m2_sec f;
     ga_mol_m2_sec := ga_mol_m2_sec f; omega := omega f;
     gpp_gCm2 := gpp_gCm2 f; gpp_am := gpp_am f; gpp_pm := gpp_pm f;
     wue := wue f |}.

Definition set_interception (v : R) (f : Fluxes) : Fluxes :=
  {| transpiration := transpiration f; soil_evap := soil_evap f;
     interception := v; erain := erain f; et := et f;
     runoff := runoff f; gs_mol_m2_sec := gs_mol_m2_sec f;
     ga_mol_m2_sec := ga_mol_m2_sec f; omega := omega f;
     gpp_gCm2 := gpp_gCm2 f; gpp_am := gpp_am f; gpp_pm := gpp_pm f;
     wue := wue f |}.

Definition set_erain (v : R) (f : Fluxes) : Fluxes :=
  {| transpiration := transpiration f; soil_evap := soil_evap f;
     interception := interception f; erain := v; et := et f;
     runoff := runoff f; gs_mol_m2_sec := gs_mol_m2_sec f;
     ga_mol_m2_sec := ga_mol_m2_sec f; omega := omega f;
     gpp_gCm2 := gpp_gCm2 f; gpp_am := gpp_am f; gpp_pm := gpp_pm f;
     wue := wue f |}.

Definition set_et (v : R) (f : Fluxes) : Fluxes :=
  {| transpiration := transpiration f; soil_evap := soil_evap f;
     interception := interception f; erain := erain f; et := v;
     runoff := runoff f; gs_mol_m2_sec := gs_mol_m2_sec f;
     ga_mol_m2_sec := ga_mol_m2_sec f; omega := omega f;
     gpp_gCm2 := gpp_gCm2 f; gpp_am := gpp_am f; gpp_pm := gpp_pm f;
     wue := wue f |}.

Definition set_runoff (v : R) (f : Fluxes) : Fluxes :=
  {| transpiration := transpiration f; soil_evap := soil_evap f;
     interception := interception f; erain := erain f; et := et f;
     runoff := v; gs_mol_m2_sec := gs_mol_m2_sec f;
     ga_mol_m2_sec := ga_mol_m2_sec f; omega := omega f;
     gpp_gCm2 := gpp_gCm2 f; gpp_am := gpp_am f; gpp_pm := gpp_pm f;
     wue := wue f |}.

Definition set_gs_mol_m2_sec (v : R) (f : Fluxes) : Fluxes :=
  {| transpiration := transpiration f; soil_evap := soil_evap f;
     interception := interception f; erain := erain f; et := et f;
     runoff := runoff f; gs_mol_m2_sec := v;
     ga_mol_m2_sec := ga_mol_m2_sec f; omega := omega f;
     gpp_gCm2 := gpp_gCm2 f; gpp_am := gpp_am f; gpp_pm := gpp_pm f;
     wue := wue f |}.

Definition set_ga_mol_m2_sec (v : R) (f : Fluxes) : Fluxes :=
  {| transpiration := transpiration f; soil_evap := soil_evap f;
     interception := interception f; erain := erain f; et := et f;
     runoff := runoff f; gs_mol_m2_sec := gs_mol_m2_sec f;
     ga_mol_m2_sec := v; omega := omega f;
     gpp_gCm2 := gpp_gCm2 f; gpp_am := gpp_am f; gpp_pm := gpp_pm f;
     wue := wue f |}.

Definition set_omega (v : R) (f : Fluxes) : Fluxes :=
  {| transpiration := transpiration f; soil_evap := soil_evap f;
     interception := interception f; erain := erain f; et := et f;
     runoff := runoff f; gs_mol_m2_sec := gs_mol_m2_sec f;
     ga_mol_m2_sec := ga_mol_m2_sec f; omega := v;
     gpp_gCm2 := gpp_gCm2 f; gpp_am := gpp_am f; gpp_pm := gpp_pm f;
     wue := wue f |}.

(** The attributes of [params] that [SoilMoisture.initialise_parameters]
    assigns: one layer's hydraulic values, and one layer's stress pair. *)
Definition set_hydraulics_topsoil (theta_sat b psi_sat : R) (p : Params)
  : Params :=
  {| albedo := albedo p; intercep_frac := intercep_frac p;
     max_intercep_lai := max_intercep_lai p; dz0v_dh := dz0v_dh p;
     displace_ratio := displace_ratio p; z0h_z0m := z0h_z0m p; g1 := g1 p;
     fractup_soil := fractup_soil p; qs := qs p;
     topsoil_type := topsoil_type p; rootsoil_type := rootsoil_type p;
     topsoil_depth := topsoil_depth p; rooting_depth := rooting_depth p;
     wcapac_topsoil := wcapac_topsoil p; wcapac_root := wcapac_root p;
     theta_sat_topsoil := theta_sat; theta_sat_root := theta_sat_root p;
     b_topsoil := b; b_root := b_root p;
     psi_sat_topsoil := psi_sat; psi_sat_root := psi_sat_root p;
     ctheta_topsoil := ctheta_topsoil p; ntheta_topsoil := ntheta_topsoil p;
     ctheta_root := ctheta_root p; ntheta_root := ntheta_root p |}.

Definition set_hydraulics_root (theta_sat b psi_sat : R) (p : Params)
  : Params :=
  {| albedo := albedo p; intercep_frac := intercep_frac p;
     max_intercep_lai := max_intercep_lai p; dz0v_dh := dz0v_dh p;
     displace_ratio := displace_ratio p; z0h_z0m := z0h_z0m p; g1 := g1 p;
     fractup_soil := fractup_soil p; qs := qs p;
     topsoil_type := topsoil_type p; rootsoil_type := rootsoil_type p;
     topsoil_depth := topsoil_depth p; rooting_depth := rooting_depth p;
     wcapac_topsoil := wcapac_topsoil p; wcapac_root := wcapac_root p;
     theta_sat_topsoil := theta_sat_topsoil p; theta_sat_root := theta_sat;
     b_topsoil := b_topsoil p; b_root := b;
     psi_sat_topsoil := psi_sat_topsoil p; psi_sat_root := psi_sat;
     ctheta_topsoil := ctheta_topsoil p; ntheta_topsoil := ntheta_topsoil p;
     ctheta_root := ctheta_root p; ntheta_root := ntheta_root p |}.

Definition set_wcapac_topsoil (v : R) (p : Params) : Params :=
  {| albedo := albedo p; intercep_frac := intercep_frac p;
     max_intercep_lai := max_intercep_lai p; dz0v_dh := dz0v_dh p;
     displace_ratio := displace_ratio p; z0h_z0m := z0h_z0m p; g1 := g1 p;
     fractup_soil := fractup_soil p; qs := qs p;
     topsoil_type := topsoil_type p; rootsoil_type := rootsoil_type p;
     topsoil_depth := topsoil_depth p; rooting_depth := rooting_depth p;
     wcapac_topsoil := v; wcapac_root := wcapac_root p;
     theta_sat_topsoil := theta_sat_topsoil p;
     theta_sat_root := theta_sat_root p;
     b_topsoil := b_topsoil p; b_root := b_root p;
     psi_sat_topsoil := psi_sat_topsoil p; psi_sat_root := psi_sat_root p;
     ctheta_topsoil := ctheta_topsoil p; ntheta_topsoil := ntheta_topsoil p;
     ctheta_root := ctheta_root p; ntheta_root := ntheta_root p |}.

Definition set_wcapac_root (v : R) (p : Params) : Params :=
  {| albedo := albedo p; intercep_frac := intercep_frac p;
     max_intercep_lai := max_intercep_lai p; dz0v_dh := dz0v_dh p;
     displace_ratio := displace_ratio p; z0h_z0m := z0h_z0m p; g1 := g1 p;
     fractup_soil := fractup_soil p; qs := qs p;
     topsoil_type := topsoil_type p; rootsoil_type := rootsoil_type p;
     topsoil_depth := topsoil_depth p; rooting_depth := rooting_depth p;
     wcapac_topsoil := wcapac_topsoil p; wcapac_root := v;
     theta_sat_topsoil := theta_sat_topsoil p;
     theta_sat_root := theta_sat_root p;
     b_topsoil := b_topsoil p; b_root := b_root p;
     psi_sat_topsoil := psi_sat_topsoil p; psi_sat_root := psi_sat_root p;
     ctheta_topsoil := ctheta_topsoil p; ntheta_topsoil := ntheta_topsoil p;
     ctheta_root := ctheta_root p; ntheta_root := ntheta_root p |}.

Definition set_stress_topsoil (c n : R) (p : Params) : Params :=
  {| albedo := albedo p; intercep_frac := intercep_frac p;
     max_intercep_lai := max_intercep_lai p; dz0v_dh := dz0v_dh p;
     displace_ratio := displace_ratio p; z0h_z0m := z0h_z0m p; g1 := g1 p;
     fractup_soil := fractup_soil p; qs := qs p;
     topsoil_type := topsoil_type p; rootsoil_type := rootsoil_type p;
     topsoil_depth := topsoil_depth p; rooting_depth := rooting_depth p;
     wcapac_topsoil := wcapac_topsoil p; wcapac_root := wcapac_root p;
     theta_sat_topsoil := theta_sat_topsoil p;
     theta_sat_root := theta_sat_root p;
     b_topsoil := b_topsoil p; b_root := b_root p;
     psi_sat_topsoil := psi_sat_topsoil p; psi_sat_root := psi_sat_root p;
     ctheta_topsoil := Some c; ntheta_topsoil := Some n;
     ctheta_root := ctheta_root p; ntheta_root := ntheta_root p |}.

Definition set_stress_root (c n : R) (p : Params) : Params :=
  {| albedo := albedo p; intercep_frac := intercep_frac p;
     max_intercep_lai := max_intercep_lai p; dz0v_dh := dz0v_dh p;
     displace_ratio := displace_ratio p; z0h_z0m := z0h_z0m p; g1 := g1 p;
     fractup_soil := fractup_soil p; qs := qs p;
     topsoil_type := topsoil_type p; rootsoil_type := rootsoil_type p;
     topsoil_depth := topsoil_depth p; rooting_depth := rooting_depth p;
     wcapac_topsoil := wcapac_topsoil p; wcapac_root := wcapac_root p;
     theta_sat_topsoil := theta_sat_topsoil p;
     theta_sat_root := theta_sat_root p;
     b_topsoil := b_topsoil p; b_root := b_root p;
     psi_sat_topsoil := psi_sat_topsoil p; psi_sat_root := psi_sat_root p;
     ctheta_topsoil := ctheta_topsoil p; ntheta_topsoil := ntheta_topsoil p;
     ctheta_root := Some c; ntheta_root := Some n |}.

Definition set_control (c : Control) (s : Store) : Store :=
  {| control := c; params := params s; state := state s;
     fluxes := fluxes s |}.

Definition with_params (f : Params -> Params) (s : Store) : Store :=
  {| control := control s; params := f (params s); state := state s;
     fluxes := fluxes s |}.

Definition with_state (f : State -> State) (s : Store) : Store :=
  {| control := control s; params := params s; state := f (state s);
     fluxes := fluxes s |}.

Definition with_fluxes (f : Fluxes -> Fluxes) (s : Store) : Store :=
  {| control := control s; params := params s; state := state s;
     fluxes := f (fluxes s) |}.

(** *** Methods that mutate the shared objects

    A method is a function of the store that returns a value or an exception
    together with the store as the method left it. *)

Definition M (A : Type) : Type := Store -> result A * Store.

Definition mret {A : Type} (a : A) : M A := fun s => (Ok a, s).

Definition mbind {A B : Type} (m : M A) (k : A -> M B) : M B :=
  fun s =>
    match m s with
    | (Ok a, s') => k a s'
    | (Raise e, s') => (Raise e, s')
    end.

(** A computation that only reads the store. *)
Definition reads {A : Type} (f : Store -> result A) : M A :=
  fun s => (f s, s).

Definition gets {A : Type} (f : Store -> A) : M A :=
  fun s => (Ok (f s), s).

Definition modify (f : Store -> Store) : M unit :=
  fun s => (Ok tt, f s).

Notation "x <- m ;; k" := (mbind m (fun x => k))
  (at level 61, m at next level, right associativity) : py_scope.
Notation "m ;;; k" := (mbind m (fun _ => k))
  (at level 61, right associativity) : py_scope.

(** *** Meteorological forcing: a dictionary of per-day series *)

Definition MetData : Type := list (string * option (list R)).

Fixpoint dict_find (k : string) (d : MetData) : option (option (list R)) :=
  match d with
  | [] => None
  | (k', v) :: d' => if String.eqb k k' then Some v else dict_find k d'
  end.

(** [seq[i]] on a list, negative indices counting from the end. *)
Definition getitem (l : list R) (i : Z) : result R :=
  let n := Z.of_nat (List.length l) in
  let j := if (i <? 0)%Z then (i + n)%Z else i in
  if ((0 <=? j) && (j <? n))%Z then
    match nth_error l (Z.to_nat j) with
    | Some v => Ok v
    | None => Raise IndexError
    end
  else Raise IndexError.

(** [met_data[key][day]] *)
Definition met_lookup (d : MetData) (key : string) (day : Z) : result R :=
  match dict_find key d with
  | None => Raise KeyError
  | Some None => Raise TypeError
  | Some (Some series) => getitem series day
  end.

(** ** water_balance.py: the evaporation classes *)

Module PenmanMonteith.

(** The attributes set by [__init__]. *)
Record t : Type := {
  cp : R;
  vk : R;
  epsilon : R;
  zele_sea : R;
  J_TO_MJ : R;
  C_TO_K : R;
  dz0v_dh : R;
  displace_ratio : R;
  z0h_z0m : R
}.

(** [__init__(cp=1.013E-3, vk=0.41, epsilon=0.6222, zele_sea=125.0,
    dz0v_dh=0.1, displace_ratio=0.67, z0h_z0m=1.0)] *)
Definition init (cp vk epsilon zele_sea dz0v_dh displace_ratio z0h_z0m : R)
  : t :=
  {| cp := cp; vk := vk; epsilon := epsilon; zele_sea := zele_sea;
     J_TO_MJ := 1.0E-6; C_TO_K := 273.15; dz0v_dh := dz0v_dh;
     displace_ratio := displace_ratio; z0h_z0m := z0h_z0m |}.

(** The object built when every argument is left to its default, as in
    [Penman()] and [PriestleyTaylor()]. *)
Definition default : t := init 1.013E-3 0.41 0.6222 125.0 0.1 0.67 1.0.

Definition calc_latent_heat_of_vapourisation (self : t) (tavg : R) : R :=
  2.501 - 0.002361 * tavg.

Definition calc_density_of_air (self : t) (tavg : R) : R :=
  1.292 - (0.00428 * tavg).

Definition calc_pyschrometric_constant (self : t) (lambdax press : R)
  : result R :=
  div (cp self * press) (epsilon self * lambdax).

Definition calc_slope_of_saturation_vapour_pressure_curve (self : t)
  (tavg : R) : result R :=
  let t := tavg + 237.3 in
  q <~ div (17.27 * tavg) t ;;
  let arg1 := 4098.0 * (0.6108 * exp q) in
  arg2 <~ pow t 2 ;;
  div arg1 arg2.

Definition calc_atmos_pressure (self : t) : result R :=
  p <~ pow ((293.0 - 0.0065 * zele_sea self) / 293.0) 5.26 ;;
  Ok (101.3 * p).

Definition canopy_boundary_layer_conductance (self : t) (wind : R)
  (canht : option R) : result R :=
  canht <~ as_float canht ;;
  let z0m := dz0v_dh self * canht in
  let z0h := z0h_z0m self * z0m in
  let d := displace_ratio self * canht in
  v2 <~ pow (vk self) 2 ;;
  let arg1 := v2 * wind in
  q2 <~ div (canht - d) z0m ;;
  arg2 <~ log q2 ;;
  q3 <~ div (canht - d) z0h ;;
  arg3 <~ log q3 ;;
  div arg1 (arg2 * arg3).

(** [if press == None: press = self.calc_atmos_pressure()] *)
Definition resolve_press (self : t) (press : option R) : result R :=
  match press with
  | None => calc_atmos_pressure self
  | Some p => Ok p
  end.

(** Returns the pair [(et, omega)]. *)
Definition calc_evaporation (self : t) (vpd wind gs net_rad tavg : R)
  (press canht ga : option R) : result (R * R) :=
  press <~ resolve_press self press ;;
  let lambdax := calc_latent_heat_of_vapourisation self tavg in
  gamma <~ calc_pyschrometric_constant self lambdax press ;;
  slope <~ calc_slope_of_saturation_vapour_pressure_curve self tavg ;;
  let rho := calc_density_of_air self tavg in
  ga <~ match ga with
        | None => canopy_boundary_layer_conductance self wind canht
        | Some g => Ok g
        end ;;
  if float_gt gs 0.0 default_tol then
    e <~ div slope gamma ;;
    r <~ div ga gs ;;
    omega <~ div (e + 1.0) (e + 1.0 + r) ;;
    let arg1 := (slope * net_rad) + (rho * cp self * vpd * ga) in
    r' <~ div ga gs ;;
    let arg2 := slope + gamma * (1.0 + r') in
    q <~ div arg1 arg2 ;;
    et <~ div q lambdax ;;
    Ok (et, omega)
  else
    Ok (0.0, 0.0).

Definition invert_penman (self : t) (vpd wind net_rad tavg : R)
  (press : option R) (trans ga : R) : result R :=
  press <~ resolve_press self press ;;
  let lambdax := calc_latent_heat_of_vapourisation self tavg in
  gamma <~ calc_pyschrometric_constant self lambdax press ;;
  slope <~ calc_slope_of_saturation_vapour_pressure_curve self tavg ;;
  let rho := calc_density_of_air self tavg in
  let lambda_E := trans * lambdax in
  let arg1 := ga * gamma * lambda_E in
  let arg2 := (slope * net_rad) - (slope + gamma) * lambda_E +
              (ga * rho * cp self * vpd) in
  div arg1 arg2.

End PenmanMonteith.

(** [class Penman(PenmanMonteith)]: the helpers are inherited, only
    [calc_evaporation] is overridden. *)
Module Penman.

Import PenmanMonteith.

Definition calc_evaporation (self : t) (net_rad tavg : R) (press : option R)
  : result R :=
  press <~ resolve_press self press ;;
  let lambdax := calc_latent_heat_of_vapourisation self tavg in
  gamma <~ calc_pyschrometric_constant self lambdax press ;;
  slope <~ calc_slope_of_saturation_vapour_pressure_curve self tavg ;;
  f <~ div slope (slope + gamma) ;;
  div (f * net_rad) lambdax.

End Penman.

(** [class PriestleyTaylor(PenmanMonteith)]: [press] is used as given, so
    [None] reaches the product [self.cp * press]. *)
Module PriestleyTaylor.

Import PenmanMonteith.

Definition default_pt_coeff : R := 1.26.

Definition calc_evaporation (self : t) (net_rad tavg : R) (press : option R)
  (pt_coeff : R) : result R :=
  let lambdax := calc_latent_heat_of_vapourisation self tavg in
  press <~ as_float press ;;
  gamma <~ calc_pyschrometric_constant self lambdax press ;;
  slope <~ calc_slope_of_saturation_vapour_pressure_curve self tavg ;;
  c <~ div pt_coeff lambdax ;;
  f <~ div slope (slope + gamma) ;;
  Ok (c * f * net_rad).

End PriestleyTaylor.

(** ** water_balance.py: class WaterBalance *)

Module WaterBalance.

(** The attributes of a [WaterBalance] object besides the shared objects. *)
Record t : Type := {
  met_data : MetData;
  P : PenmanMonteith.t
}.

(** [__init__(control, params, state, fluxes, met_data)]: the four objects
    are the store [s]; [self.P] is built from the roughness parameters. *)
Definition init (s : Store) (met_data : MetData) : t :=
  {| met_data := met_data;
     P := PenmanMonteith.init 1.013E-3 0.41 0.6222 125.0
            (dz0v_dh (params s)) (displace_ratio (params s))
            (z0h_z0m (params s)) |}.

(** The tuple returned by [get_met_data]. *)
Record MetDay : Type := {
  tair_am : R; tair_pm : R; tair_day : R;
  rain : R;
  sw_rad_am : R; sw_rad_pm : R; sw_rad_day : R;
  vpd_am : R; vpd_pm : R; vpd_day : R;
  wind_am : R; wind_pm : R; wind_day : R;
  ca : R;
  press : option R
}.

Definition get_met_data (self : t) (day : Z) (daylen : R) : result MetDay :=
  let md := met_data self in
  ca <~ met_lookup md "co2" day ;;
  tair_day <~ met_lookup md "tair" day ;;
  tair_am <~ met_lookup md "tam" day ;;
  tair_pm <~ met_lookup md "tpm" day ;;
  sw_rad_day <~ met_lookup md "sw_rad" day ;;
  sw_rad_am <~ met_lookup md "sw_rad_am" day ;;
  sw_rad_pm <~ met_lookup md "sw_rad_pm" day ;;
  rain <~ met_lookup md "rain" day ;;
  vpd_day <~ met_lookup md "vpd_avg" day ;;
  vpd_am <~ met_lookup md "vpd_am" day ;;
  vpd_pm <~ met_lookup md "vpd_pm" day ;;
  wind_am <~ met_lookup md "wind_am" day ;;
  wind_pm <~ met_lookup md "wind_pm" day ;;
  wind_day <~ met_lookup md "wind" day ;;
  press <~ match dict_find "atmos_press" md with
           | Some (Some series) =>
               p <~ getitem series day ;; Ok (Some p)
           | _ => Ok None
           end ;;
  Ok {| tair_am := tair_am; tair_pm := tair_pm; tair_day := tair_day;
        rain := rain; sw_rad_am := sw_rad_am; sw_rad_pm := sw_rad_pm;
        sw_rad_day := sw_rad_day; vpd_am := vpd_am; vpd_pm := vpd_pm;
        vpd_day := vpd_day; wind_am := wind_am; wind_pm := wind_pm;
        wind_day := wind_day; ca := ca; press := press |}.

Definition calc_infiltration (self : t) (rain : R) : M unit :=
  lai_now <- gets (fun s => lai (state s)) ;;
  if gtb lai_now 0.0 then
    intercep_frac <- gets (fun s => intercep_frac (params s)) ;;
    r <- reads (fun s => div lai_now (max_intercep_lai (params s))) ;;
    modify (with_fluxes
              (set_interception (rain * intercep_frac * Py.min 1.0 r))) ;;;
    modify (with_fluxes (fun f => set_erain (rain - interception f) f))
  else
    modify (with_fluxes (set_erain (Py.max 0.0 rain))) ;;;
    modify (with_fluxes (set_interception 0.0)).

Definition calc_transpiration (self : t) : M unit :=
  w <- gets (fun s => wue (fluxes s)) ;;
  if float_gt w 0.0 default_tol then
    q <- reads (fun s => div (gpp_gCm2 (fluxes s)) (wue (fluxes s))) ;;
    modify (with_fluxes (set_transpiration q))
  else
    modify (with_fluxes (set_transpiration 0.0)).

Definition calc_transpiration_priestay (self : t) (net_rad tavg : R)
  (press : option R) : M unit :=
  let P := PenmanMonteith.default in
  e <- reads (fun _ =>
                PriestleyTaylor.calc_evaporation P net_rad tavg press 1.26) ;;
  modify (with_fluxes (set_transpiration e)).

Section WithConstants.

Variable const : Constants.

Definition calc_stomatal_conductance (self : t) (s : Store)
  (vpd ca daylen gpp : R) (press : option R) (temp : R) : result R :=
  DAY_2_SEC <~ div 1.0 (60.0 * 60.0 * daylen) ;;
  let gpp_umol_m2_sec :=
    gpp * GRAMS_C_TO_MOL_C const * MOL_TO_UMOL const * DAY_2_SEC in
  root <~ Py.sqrt vpd ;;
  q <~ div (g1 (params s) * wtfac_root (state s)) root ;;
  let arg1 := 1.6 * (1.0 + q) in
  arg2 <~ div gpp_umol_m2_sec ca ;;
  Ok (arg1 * arg2).

(** [MOL_SEC_2_M_PER_SEC = const.MM_TO_M / (press / (const.RGAS * tk))] *)
Definition mol_sec_2_m_per_sec (press : option R) (tk : R) : result R :=
  p <~ as_float press ;;
  q <~ div p (RGAS const * tk) ;;
  div (MM_TO_M const) q.

(** The call [self.P.canopy_boundary_layer_conductance(wind)] gives one
    argument to a method that takes two: it raises [TypeError], and the
    statements after it are never reached. *)
Definition calc_transpiration_penmon (self : t)
  (vpd net_rad tavg wind ca daylen : R) (press : option R) : M unit :=
  let SEC_2_DAY := 60.0 * 60.0 * daylen in
  DAY_2_SEC <- reads (fun _ => div 1.0 SEC_2_DAY) ;;
  gs_mol_m2_sec <- reads (fun s =>
    calc_stomatal_conductance self s vpd ca daylen (gpp_gCm2 (fluxes s))
      press tavg) ;;
  let tk := tavg + DEG_TO_KELVIN const in
  MOL_SEC_2_M_PER_SEC <- reads (fun _ => mol_sec_2_m_per_sec press tk) ;;
  M_PER_SEC_2_MOL_SEC <- reads (fun _ => div 1.0 MOL_SEC_2_M_PER_SEC) ;;
  let gs_m_per_sec := gs_mol_m2_sec * MOL_SEC_2_M_PER_SEC in
  ga_m_per_sec <- reads (fun _ => (Raise TypeError : result R)) ;;
  r <- reads (fun s =>
    PenmanMonteith.calc_evaporation (P self) vpd wind gs_m_per_sec net_rad
      tavg press (Some (canht (state s))) (Some ga_m_per_sec)) ;;
  let '(transp, omegax) := r in
  modify (with_fluxes (set_gs_mol_m2_sec gs_mol_m2_sec)) ;;;
  modify (with_fluxes
            (set_ga_mol_m2_sec (ga_m_per_sec * M_PER_SEC_2_MOL_SEC))) ;;;
  modify (with_fluxes (set_transpiration (transp * SEC_2_DAY))).

(** Returns [(trans, omegax, gs_mol_m2_hfday, ga_mol_m2_hfday)]. *)
Definition calc_transpiration_penmon_am_pm (self : t) (s : Store)
  (net_rad wind ca daylen : R) (press : option R) (vpd tair gpp : R)
  : result (R * R * R * R) :=
  let canht := canht (state s) in
  let half_day := daylen / 2.0 in
  let SEC_2_HALF_DAY := 60.0 * 60.0 * half_day in
  HALF_DAY_2_SEC <~ div 1.0 SEC_2_HALF_DAY ;;
  let Tk := tair + DEG_TO_KELVIN const in
  MOL_SEC_2_M_PER_SEC <~ mol_sec_2_m_per_sec press Tk ;;
  M_PER_SEC_2_MOL_SEC <~ div 1.0 MOL_SEC_2_M_PER_SEC ;;
  ga_m_per_sec <~
    PenmanMonteith.canopy_boundary_layer_conductance (P self) wind
      (Some canht) ;;
  gs_mol_m2_sec <~
    calc_stomatal_conductance self s vpd ca half_day gpp press tair ;;
  let ga_mol_m2_hfday :=
    ga_m_per_sec * M_PER_SEC_2_MOL_SEC * SEC_2_HALF_DAY in
  let gs_mol_m2_hfday := gs_mol_m2_sec * SEC_2_HALF_DAY in
  let gs_m_per_sec := gs_mol_m2_sec * MOL_SEC_2_M_PER_SEC in
  r <~ PenmanMonteith.calc_evaporation (P self) vpd wind gs_m_per_sec net_rad
         tair press (Some canht) (Some ga_m_per_sec) ;;
  let '(trans, omegax) := r in
  let trans := trans * SEC_2_HALF_DAY in
  Ok (trans, omegax, gs_mol_m2_hfday, ga_mol_m2_hfday).

Definition calc_radiation (self : t) (s : Store) (tavg sw_rad daylen : R)
  : result R :=
  let net_lw := (107.0 - 0.3 * tavg) * daylen * WATT_HR_TO_MJ const in
  let net_rad := Py.max 0.0 (sw_rad * (1.0 - albedo (params s)) - net_lw) in
  tconv <~ div 1.0 (60.0 * 60.0 * daylen) ;;
  Ok (net_rad * tconv).

End WithConstants.

Definition calc_soil_evaporation (self : t) (s : Store)
  (tavg net_rad : R) (press : option R) (daylen sw_rad : R) : result R :=
  let P := PenmanMonteith.default in
  soil_evap <~ Penman.calc_evaporation P net_rad tavg press ;;
  let soil_evap :=
    if float_gt (lai (state s)) 0.0 default_tol
    then soil_evap * exp (-0.398 * lai (state s))
    else soil_evap in
  let soil_evap := soil_evap * wtfac_topsoil (state s) in
  let tconv := 60.0 * 60.0 * daylen in
  Ok (soil_evap * tconv).

(** [update_water_storage(tolerance=1E-08)]: returns the runoff and the store
    after the in-place updates.  Nothing in it can raise. *)
Definition update_water_storage (self : t) (tolerance : R) (s : Store)
  : R * Store :=
  let trans_frac := fractup_soil (params s) * wtfac_topsoil (state s) in
  let s := with_state (fun st =>
             set_pawater_topsoil
               (pawater_topsoil st +
                (erain (fluxes s) - (transpiration (fluxes s) * trans_frac) -
                 soil_evap (fluxes s))) st) s in
  let s := with_state (fun st =>
             set_pawater_topsoil
               (clip (pawater_topsoil st) (Some 0.0)
                  (Some (wcapac_topsoil (params s)))) st) s in
  let previous := pawater_root (state s) in
  let s := with_state (fun st =>
             set_pawater_root
               (pawater_root st +
                (erain (fluxes s) - transpiration (fluxes s) -
                 soil_evap (fluxes s))) st) s in
  let '(runoff, s) :=
    if gtb (pawater_root (state s)) (wcapac_root (params s)) then
      let runoff := pawater_root (state s) - wcapac_root (params s) in
      (runoff,
       with_state (fun st => set_pawater_root (pawater_root st - runoff) st) s)
    else (0.0, s) in
  let s :=
    if float_le (pawater_root (state s)) 0.0 default_tol then
      let s := with_fluxes (set_transpiration 0.0) s in
      let s := with_fluxes (set_soil_evap 0.0) s in
      with_fluxes (fun f => set_et (interception f) f) s
    else s in
  let s := with_state (fun st =>
             set_pawater_root
               (clip (pawater_root st) (Some 0.0)
                  (Some (wcapac_root (params s)))) st) s in
  let s := with_state (fun st =>
             set_delta_sw_store (pawater_root st - previous) st) s in
  (runoff, s).

Section DailyStep.

Variable const : Constants.

(** The branch taken for [trans_model == 1 and assim_model == "MATE"]. *)
Definition transpiration_mate (self : t) (md : MetDay)
  (net_rad_am net_rad_pm daylen : R) : M unit :=
  let penm := calc_transpiration_penmon_am_pm const self in
  gpp_am <- gets (fun s => gpp_am (fluxes s)) ;;
  gpp_pm <- gets (fun s => gpp_pm (fluxes s)) ;;
  am <- reads (fun s => penm s net_rad_am (wind_am md) (ca md) daylen
                          (press md) (vpd_am md) (tair_am md) gpp_am) ;;
  let '(trans_am, omegax_am, gs_mol_m2_hfday_am, ga_mol_m2_hfday_am) := am in
  pm <- reads (fun s => penm s net_rad_pm (wind_pm md) (ca md) daylen
                          (press md) (vpd_pm md) (tair_pm md) gpp_pm) ;;
  let '(trans_pm, omegax_pm, gs_mol_m2_hfday_pm, ga_mol_m2_hfday_pm) := pm in
  DAY_2_SEC <- reads (fun _ => div 1.0 (60.0 * 60.0 * daylen)) ;;
  modify (with_fluxes (set_omega ((omegax_am + omegax_pm) / 2.0))) ;;;
  modify (with_fluxes
            (set_gs_mol_m2_sec
               ((gs_mol_m2_hfday_am + gs_mol_m2_hfday_pm) * DAY_2_SEC))) ;;;
  modify (with_fluxes
            (set_ga_mol_m2_sec
               ((ga_mol_m2_hfday_am + ga_mol_m2_hfday_pm) * DAY_2_SEC))) ;;;
  modify (with_fluxes (set_transpiration (trans_am + trans_pm))).

(** The [if / elif / elif] on [trans_model] and [assim_model]: there is no
    [else], a value matched by no branch passes through. *)
Definition transpiration_step (self : t) (md : MetDay)
  (net_rad_day net_rad_am net_rad_pm daylen : R) : M unit :=
  tm <- gets (fun s => trans_model (control s)) ;;
  if (tm =? 0)%Z then
    calc_transpiration self
  else if (tm =? 1)%Z then
    am <- gets (fun s => assim_model (control s)) ;;
    if String.eqb am "BEWDY" then
      calc_transpiration_penmon const self (vpd_day md) net_rad_day
        (tair_day md) (wind_day md) (ca md) daylen (press md)
    else if String.eqb am "MATE" then
      transpiration_mate self md net_rad_am net_rad_pm daylen
    else mret tt
  else if (tm =? 2)%Z then
    calc_transpiration_priestay self net_rad_day (tair_day md) (press md)
  else mret tt.

(** The statements of [calculate_water_balance] after the branch on
    [trans_model]. *)
Definition soil_and_storage_step (self : t) (md : MetDay)
  (net_rad_day daylen : R) : M unit :=
  calc_infiltration self (rain md) ;;;
  se <- reads (fun s => calc_soil_evaporation self s (tair_day md) net_rad_day
                          (press md) daylen (sw_rad_day md)) ;;
  modify (with_fluxes (set_soil_evap se)) ;;;
  modify (with_fluxes (fun f =>
            set_et (transpiration f + soil_evap f + interception f) f)) ;;;
  r <- (fun s => let '(r, s') := update_water_storage self 1E-08 s in
                 (Ok r, s')) ;;
  modify (with_fluxes (set_runoff r)).

Definition calculate_water_balance (self : t) (day : Z) (daylen : R)
  : M unit :=
  let half_day := daylen / 2.0 in
  md <- reads (fun _ => get_met_data self day daylen) ;;
  net_rad_day <- reads (fun s =>
    calc_radiation const self s (tair_day md) (sw_rad_day md) daylen) ;;
  net_rad_am <- reads (fun s =>
    calc_radiation const self s (tair_am md) (sw_rad_am md) half_day) ;;
  net_rad_pm <- reads (fun s =>
    calc_radiation const self s (tair_pm md) (sw_rad_pm md) half_day) ;;
  transpiration_step self md net_rad_day net_rad_am net_rad_pm daylen ;;;
  soil_and_storage_step self md net_rad_day daylen.

End DailyStep.

End WaterBalance.

(** ** water_balance.py: class SoilMoisture *)

Module SoilMoisture.

(** The attributes of a [SoilMoisture] object besides the shared objects. *)
Record t : Type := {
  silt_index : Z;
  sand_index : Z;
  clay_index : Z
}.

(** [__init__(control, params, state, fluxes)] *)
Definition init (s : Store) : t :=
  {| silt_index := 0; sand_index := 1; clay_index := 2 |}.

(** Landsberg and Waring pairs [(c_theta, n_theta)] by soil type; an unknown
    type prints a message and calls [sys.exit()]. *)
Definition get_soil_params (self : t) (soil_type : string) : result (R * R) :=
  if String.eqb soil_type "clay" then Ok (0.4, 3.0)
  else if String.eqb soil_type "clay_loam" then Ok (0.5, 5.0)
  else if String.eqb soil_type "loam" then Ok (0.55, 6.0)
  else if String.eqb soil_type "loamy_sand" then Ok (0.65, 8.0)
  else if String.eqb soil_type "sand" then Ok (0.7, 9.0)
  else if String.eqb soil_type "sandy_clay" then Ok (0.45, 4.0)
  else if String.eqb soil_type "sandy_clay_loam" then Ok (0.525, 5.5)
  else if String.eqb soil_type "sandy_loam" then Ok (0.6, 7.0)
  else if String.eqb soil_type "silt" then Ok (0.625, 7.5)
  else if String.eqb soil_type "silty_clay" then Ok (0.425, 3.5)
  else if String.eqb soil_type "silty_clay_loam" then Ok (0.475, 4.5)
  else if String.eqb soil_type "silty_loam" then Ok (0.575, 6.5)
  else Raise SystemExit.

(** Fractions of silt, sand and clay, in that order. *)
Definition get_soil_fracs (self : t) (soil_type : string)
  : result (list R) :=
  if String.eqb soil_type "sand" then Ok [0.05; 0.92; 0.03]
  else if String.eqb soil_type "loamy_sand" then Ok [0.12; 0.82; 0.06]
  else if String.eqb soil_type "sandy_loam" then Ok [0.32; 0.58; 0.1]
  else if String.eqb soil_type "loam" then Ok [0.39; 0.43; 0.18]
  else if String.eqb soil_type "silty_loam" then Ok [0.70; 0.17; 0.13]
  else if String.eqb soil_type "sandy_clay_loam" then Ok [0.15; 0.58; 0.27]
  else if String.eqb soil_type "clay_loam" then Ok [0.34; 0.32; 0.34]
  else if String.eqb soil_type "silty_clay_loam" then Ok [0.56; 0.1; 0.34]
  else if String.eqb soil_type "sandy_clay" then Ok [0.06; 0.52; 0.42]
  else if String.eqb soil_type "silty_clay" then Ok [0.47; 0.06; 0.47]
  else if String.eqb soil_type "clay" then Ok [0.2; 0.22; 0.58]
  else Raise SystemExit.

(** Returns [(theta_fc, theta_wp, theta_sp, b, psi_sat_mpa)]. *)
Definition calc_soil_params (self : t) (fsoil : list R)
  : result (R * R * R * R * R) :=
  let pressure_head_wilt := -152.9 in
  let pressure_head_crit := -3.364 in
  clay <~ getitem fsoil (clay_index self) ;;
  sand <~ getitem fsoil (sand_index self) ;;
  let b := 3.1 + 15.7 * clay - 0.3 * sand in
  sand <~ getitem fsoil (sand_index self) ;;
  silt <~ getitem fsoil (silt_index self) ;;
  p10 <~ pow 10.0 (1.54 - 0.95 * sand + 0.63 * silt) ;;
  let psi_sat := 0.01 * - p10 in
  let KPA_2_MPA := 0.001 in
  let METER_OF_HEAD_TO_MPA := 9.81 * KPA_2_MPA in
  let psi_sat_mpa := psi_sat * METER_OF_HEAD_TO_MPA in
  clay <~ getitem fsoil (clay_index self) ;;
  sand <~ getitem fsoil (sand_index self) ;;
  let theta_sp := 0.505 - 0.037 * clay - 0.142 * sand in
  e_wp <~ div 1.0 b ;;
  p_wp <~ pow (psi_sat / pressure_head_wilt) e_wp ;;
  let theta_wp := theta_sp * p_wp in
  e_fc <~ div 1.0 b ;;
  p_fc <~ pow (psi_sat / pressure_head_crit) e_fc ;;
  let theta_fc := theta_sp * p_fc in
  Ok (theta_fc, theta_wp, theta_sp, b, psi_sat_mpa).

(** The test that guards the derivation of the Landsberg-Waring pairs. *)
Definition stress_params_unset (p : Params) : bool :=
  match ctheta_topsoil p, ntheta_topsoil p, ctheta_root p, ntheta_root p with
  | None, None, None, None => true
  | _, _, _, _ => false
  end.

(** The statements under [if self.control.calc_sw_params:]. *)
Definition derive_hydraulics (self : t) (topsoil_type rootsoil_type : string)
  : M unit :=
  calc <- gets (fun s => calc_sw_params (control s)) ;;
  if calc then
    fsoil_top <- reads (fun _ => get_soil_fracs self topsoil_type) ;;
    fsoil_root <- reads (fun _ => get_soil_fracs self rootsoil_type) ;;
    top <- reads (fun _ => calc_soil_params self fsoil_top) ;;
    let '(theta_fc_topsoil, theta_wp_topsoil, theta_sat, b, psi_sat) := top in
    modify (with_params (set_hydraulics_topsoil theta_sat b psi_sat)) ;;;
    modify (with_params (fun p =>
              set_wcapac_topsoil
                (topsoil_depth p * (theta_fc_topsoil - theta_wp_topsoil))
                p)) ;;;
    root <- reads (fun _ => calc_soil_params self fsoil_root) ;;
    let '(theta_fc_root, theta_wp_root, theta_sat, b, psi_sat) := root in
    modify (with_params (set_hydraulics_root theta_sat b psi_sat)) ;;;
    modify (with_params (fun p =>
              set_wcapac_root
                (rooting_depth p * (theta_fc_root - theta_wp_root)) p))
  else mret tt.

(** The statements under the test of the four attributes against [None]. *)
Definition derive_stress_params (self : t)
  (topsoil_type rootsoil_type : string) : M unit :=
  unset <- gets (fun s => stress_params_unset (params s)) ;;
  if unset then
    top <- reads (fun _ => get_soil_params self topsoil_type) ;;
    let '(c, n) := top in
    modify (with_params (set_stress_topsoil c n)) ;;;
    root <- reads (fun _ => get_soil_params self rootsoil_type) ;;
    let '(c, n) := root in
    modify (with_params (set_stress_root c n))
  else mret tt.

Definition initialise_parameters (self : t) : M unit :=
  topsoil_type <- gets (fun s => topsoil_type (params s)) ;;
  rootsoil_type <- gets (fun s => rootsoil_type (params s)) ;;
  derive_hydraulics self topsoil_type rootsoil_type ;;;
  derive_stress_params self topsoil_type rootsoil_type.

(** [1.0 / (1.0 + ((1.0 - theta) / c_theta)**n_theta)] *)
Definition calc_sw_modifier (self : t) (theta : R) (c_theta n_theta : option R)
  : result R :=
  c <~ as_float c_theta ;;
  q <~ div (1.0 - theta) c ;;
  n <~ as_float n_theta ;;
  p <~ pow q n ;;
  div 1.0 (1.0 + p).

(** Soil water potential of one layer under stress model 2. *)
Definition psi_swp (smc psi_sat theta_sat b : R) : result R :=
  if float_eq smc 0.0 default_tol then Ok (-1.5)
  else
    let arg1 := psi_sat in
    arg2 <~ div smc theta_sat ;;
    let arg3 := - b in
    p <~ pow arg2 arg3 ;;
    Ok (arg1 * p).

(** Returns [(wtfac_topsoil, wtfac_root)].  With [sw_stress_model] outside
    0, 1, 2 no branch binds the two names and the [return] raises. *)
Definition calculate_soil_water_fac (self : t) (s : Store)
  : result (R * R) :=
  let p := params s in
  smc_topsoil <~ div (pawater_topsoil (state s)) (wcapac_topsoil p) ;;
  smc_root <~ div (pawater_root (state s)) (wcapac_root p) ;;
  let model := sw_stress_model (control s) in
  if (model =? 0)%Z then
    wtfac_topsoil <~ pow smc_topsoil (qs p) ;;
    wtfac_root <~ pow smc_root (qs p) ;;
    Ok (wtfac_topsoil, wtfac_root)
  else if (model =? 1)%Z then
    wtfac_topsoil <~ calc_sw_modifier self smc_topsoil (ctheta_topsoil p)
                       (ntheta_topsoil p) ;;
    wtfac_root <~ calc_sw_modifier self smc_root (ctheta_root p)
                    (ntheta_root p) ;;
    Ok (wtfac_topsoil, wtfac_root)
  else if (model =? 2)%Z then
    psi_swp_topsoil <~ psi_swp smc_topsoil (psi_sat_topsoil p)
                         (theta_sat_topsoil p) (b_topsoil p) ;;
    psi_swp_root <~ psi_swp smc_root (psi_sat_root p) (theta_sat_root p)
                      (b_root p) ;;
    let b := 0.66 in
    Ok (exp (b * psi_swp_topsoil), exp (b * psi_swp_root))
  else Raise UnboundLocalError.

End SoilMoisture.

(** ** Concrete objects on which the code is run *)

Module Sample.

Definition mk_control (tm : Z) (am : string) (sw : Z) (calc : bool)
  : Control :=
  {| trans_model := tm; assim_model := am; sw_stress_model := sw;
     calc_sw_params := calc |}.

(** A parameter set with the given layer capacities and stress pairs. *)
Definition mk_params (wcapac_top wcapac_rt : R)
  (c_top n_top c_rt n_rt : option R) : Params :=
  {| albedo := 0.2; intercep_frac := 0.15; max_intercep_lai := 3.0;
     dz0v_dh := 0.1; displace_ratio := 0.67; z0h_z0m := 1.0; g1 := 4.0;
     fractup_soil := 0.5; qs := 0.5;
     topsoil_type := "clay_loam"; rootsoil_type := "clay";
     topsoil_depth := 350.0; rooting_depth := 750.0;
     wcapac_topsoil := wcapac_top; wcapac_root := wcapac_rt;
     theta_sat_topsoil := 0.45; theta_sat_root := 0.45;
     b_topsoil := 8.0; b_root := 8.0;
     psi_sat_topsoil := -0.003; psi_sat_root := -0.003;
     ctheta_topsoil := c_top; ntheta_topsoil := n_top;
     ctheta_root := c_rt; ntheta_root := n_rt |}.

Definition mk_state (top root wt_top wt_root lai_now : R) : State :=
  {| pawater_topsoil := top; pawater_root := root;
     wtfac_topsoil := wt_top; wtfac_root := wt_root;
     lai := lai_now; canht := 20.0; delta_sw_store := 0.0 |}.

(** Fluxes with [et] the sum of its three parts. *)
Definition mk_fluxes (trans evap intercep rain_eff : R) : Fluxes :=
  {| transpiration := trans; soil_evap := evap; interception := intercep;
     erain := rain_eff; et := trans + evap + intercep; runoff := 0.0;
     gs_mol_m2_sec := 0.0; ga_mol_m2_sec := 0.0; omega := 0.0;
     gpp_gCm2 := 0.0; gpp_am := 0.0; gpp_pm := 0.0; wue := 0.0 |}.

Definition mk_store (c : Control) (p : Params) (st : State) (f : Fluxes)
  : Store :=
  {| control := c; params := p; state := st; fluxes := f |}.

Definition control0 : Control := mk_control 0 "MATE" 0 false.

(** Values for the names read from module [constants]. *)
Definition constants0 : Constants :=
  {| DEG_TO_KELVIN := 273.15; MM_TO_M := 0.001; RGAS := 8.314;
     GRAMS_C_TO_MOL_C := 1 / 12; MOL_TO_UMOL := 1000000;
     WATT_HR_TO_MJ := 0.0036 |}.

Definition params0 : Params := mk_params 50.0 100.0 None None None None.

(** Only the topsoil [ctheta] is given. *)
Definition params_one_set : Params :=
  mk_params 50.0 100.0 (Some 0.5) None None None.

Definition one_stress_param_set : Store :=
  mk_store control0 params_one_set (mk_state 40.0 5.0 1.0 1.0 2.0)
    (mk_fluxes 3.0 2.0 1.0 0.0).

(** A water-balance object over an empty forcing dictionary, for the methods
    that read no forcing. *)
Definition wb0 : WaterBalance.t :=
  WaterBalance.init (mk_store control0 params0 (mk_state 0 0 1 1 0)
                       (mk_fluxes 0 0 0 0)) [].

(** Root store 5 mm, no rain, 3 mm transpired and 2 mm evaporated: the raw
    root-zone store is exactly 0. *)
Definition drained_to_zero : Store :=
  mk_store control0 params0 (mk_state 40.0 5.0 1.0 1.0 2.0)
    (mk_fluxes 3.0 2.0 1.0 0.0).

(** One day of forcing, with a pressure reading. *)
Definition met0 : MetData :=
  [("co2", Some [380.0]); ("tair", Some [20.0]); ("tam", Some [18.0]);
   ("tpm", Some [22.0]); ("sw_rad", Some [20.0]); ("sw_rad_am", Some [9.0]);
   ("sw_rad_pm", Some [11.0]); ("rain", Some [10.0]);
   ("vpd_avg", Some [1.0]); ("vpd_am", Some [0.8]); ("vpd_pm", Some [1.2]);
   ("wind_am", Some [2.0]); ("wind_pm", Some [2.0]); ("wind", Some [2.0]);
   ("atmos_press", Some [100.0])].

(** A configuration with [trans_model = 3]: stress pairs given, no
    derivation of soil parameters asked for; bare ground, a dry topsoil, 50 mm
    in the root zone and a transpiration of 9 mm left in [fluxes] by an
    earlier day. *)
Definition unknown_trans_model : Store :=
  mk_store (mk_control 3 "MATE" 0 false)
    (mk_params 50.0 100.0 (Some 0.5) (Some 5.0) (Some 0.5) (Some 5.0))
    (mk_state 0.0 50.0 0.0 1.0 0.0)
    (mk_fluxes 9.0 0.0 0.0 0.0).

(** The store [drained_to_zero] under other control flags. *)
Definition with_flags (tm : Z) (am : string) (sw : Z) (calc : bool)
  : Store :=
  mk_store (mk_control tm am sw calc) params0 (mk_state 40.0 5.0 1.0 1.0 2.0)
    (mk_fluxes 3.0 2.0 1.0 0.0).

(** Root store 95 mm of 100 and a net input of 10 mm. *)
Definition overflowing : Store :=
  mk_store control0 params0 (mk_state 40.0 95.0 1.0 1.0 0.0)
    (mk_fluxes 2.0 1.0 0.0 13.0).

End Sample.

(** ** Quantities named by the specification *)

(** The raw, unclipped root-zone store of the day. *)
Definition raw_root (s : Store) : R :=
  pawater_root (state s) +
  (erain (fluxes s) - transpiration (fluxes s) - soil_evap (fluxes s)).

(** The root-zone store once the overflow has been removed. *)
Definition root_after_overflow (s : Store) : R :=
  if gtb (raw_root s) (wcapac_root (params s))
  then raw_root s - (raw_root s - wcapac_root (params s))
  else raw_root s.

(** The temperatures at which the thermodynamic helpers are defined and
    positive: above -237.3 degC, where the saturation curve has its pole, and
    below the zero of the latent heat. *)
Definition temperature_domain (tavg : R) : Prop := -237.3 < tavg < 1059.

(** A pressure that resolves to a positive value: a positive reading, or no
    reading at an elevation where the standard atmosphere is positive. *)
Definition pressure_domain (self : PenmanMonteith.t) (press : option R)
  : Prop :=
  match press with
  | Some p => 0 < p
  | None => 0.0065 * PenmanMonteith.zele_sea self < 293.0
  end.

(** The value of the slope of the saturation vapour pressure curve. *)
Definition slope_value (tavg : R) : R :=
  4098.0 * (0.6108 * exp (17.27 * tavg / (tavg + 237.3))) /
  Rpower (tavg + 237.3) 2.

(** The value of the psychrometric constant. *)
Definition gamma_value (self : PenmanMonteith.t) (tavg p : R) : R :=
  PenmanMonteith.cp self * p /
  (PenmanMonteith.epsilon self *
   PenmanMonteith.calc_latent_heat_of_vapourisation self tavg).

(** The four Landsberg-Waring attributes of a parameter set. *)
Definition stress_params (p : Params)
  : option R * option R * option R * option R :=
  (ctheta_topsoil p, ntheta_topsoil p, ctheta_root p, ntheta_root p).

(** A control object whose flags select no transpiration branch. *)
Definition unrecognised_transpiration (c : Control) : Prop :=
  (trans_model c <> 0%Z /\ trans_model c <> 1%Z /\ trans_model c <> 2%Z) \/
  (trans_model c = 1%Z /\
   assim_model c <> "BEWDY" /\ assim_model c <> "MATE").

(** A control object whose flag selects no stress branch. *)
Definition unrecognised_stress (c : Control) : Prop :=
  sw_stress_model c <> 0%Z /\ sw_stress_model c <> 1%Z /\
  sw_stress_model c <> 2%Z.

(** [calculate_water_balance] with the branch on [trans_model] left out. *)
Definition water_balance_without_transpiration (const : Constants)
  (self : WaterBalance.t) (day : Z) (daylen : R) : M unit :=
  let half_day := daylen / 2.0 in
  md <- reads (fun _ => WaterBalance.get_met_data self day daylen) ;;
  net_rad_day <- reads (fun s =>
    WaterBalance.calc_radiation const self s (WaterBalance.tair_day md)
      (WaterBalance.sw_rad_day md) daylen) ;;
  net_rad_am <- reads (fun s =>
    WaterBalance.calc_radiation const self s (WaterBalance.tair_am md)
      (WaterBalance.sw_rad_am md) half_day) ;;
  net_rad_pm <- reads (fun s =>
    WaterBalance.calc_radiation const self s (WaterBalance.tair_pm md)
      (WaterBalance.sw_rad_pm md) half_day) ;;
  WaterBalance.soil_and_storage_step self md net_rad_day daylen.

(** The last [w] items of a list, or all of them when there are fewer. *)
Definition last_items (w : nat) (l : list R) : list R :=
  skipn (List.length l - w) l.

(** ** Proof tactics *)

(** Case analysis on every comparison left in the goal, innermost first. *)
Ltac no_cmp_inside x :=
  lazymatch x with
  | context [Rlt_dec _ _] => fail
  | context [Req_dec_T _ _] => fail
  | _ => idtac
  end.

Ltac cmp_cases :=
  unfold gtb, ltb, eqb in *; cbv zeta;
  repeat match goal with
         | |- context [Rlt_dec ?a ?b] =>
             no_cmp_inside a; no_cmp_inside b; destruct (Rlt_dec a b)
         | |- context [Req_dec_T ?a ?b] =>
             no_cmp_inside a; no_cmp_inside b; destruct (Req_dec_T a b)
         end.

(** Case analysis on the soil type compared by a lookup table. *)
Ltac soil_cases t :=
  repeat match goal with
         | |- context [String.eqb t ?k] =>
             let E := fresh "E" in
             destruct (String.eqb t k) eqn:E;
             [apply String.eqb_eq in E; subst t |]
         end.

(** Unfolds the combinators of the method monad. *)
Ltac unfold_method :=
  unfold mbind, gets, reads, modify, mret; cbv beta.

(** * Properties *)

(** ** Comparisons and Python arithmetic *)

Lemma ltb_true (x y : R) : x < y -> ltb x y = true.
Proof. intros H. unfold ltb. destruct (Rlt_dec x y); [reflexivity | contradiction]. Qed.

Lemma ltb_false (x y : R) : y <= x -> ltb x y = false.
Proof. intros H. unfold ltb. destruct (Rlt_dec x y); [lra | reflexivity]. Qed.

Lemma ltb_iff (x y : R) : ltb x y = true <-> x < y.
Proof.
  unfold ltb. destruct (Rlt_dec x y); split; intros; try assumption;
    try reflexivity; try discriminate; contradiction.
Qed.

Lemma eqb_true (x : R) : eqb x x = true.
Proof. unfold eqb. destruct (Req_dec_T x x); [reflexivity | contradiction]. Qed.

Lemma eqb_false (x y : R) : x <> y -> eqb x y = false.
Proof. intros H. unfold eqb. destruct (Req_dec_T x y); [contradiction | reflexivity]. Qed.

Lemma div_ok (x y : R) : y <> 0 -> div x y = Ok (x / y).
Proof. intros H. unfold div. now rewrite eqb_false. Qed.

Lemma div_zero (x : R) : div x 0 = Raise ZeroDivisionError.
Proof. unfold div. now rewrite eqb_true. Qed.

Lemma min_Rmin (a b : R) : Py.min a b = Rmin a b.
Proof. unfold Py.min, Rmin. destruct (Rle_dec a b); cmp_cases; lra. Qed.

Lemma max_Rmax (a b : R) : Py.max a b = Rmax a b.
Proof. unfold Py.max, Rmax. destruct (Rle_dec a b); cmp_cases; lra. Qed.

(** In exact arithmetic the tolerant comparisons against zero are the strict
    ones: the tolerance scales with the magnitude of the first argument. *)
Lemma float_lt_zero (x tol : R) :
  0 <= tol < 1 -> float_lt x 0.0 tol = ltb x 0.
Proof.
  intros Ht. unfold float_lt, gtb.
  destruct (Rlt_dec x 0) as [Hx | Hx].
  - rewrite (ltb_true x 0 Hx). apply ltb_true.
    rewrite Rabs_left by assumption. nra.
  - rewrite (ltb_false x 0) by lra. apply ltb_false.
    rewrite Rabs_right by lra. nra.
Qed.

Lemma float_le_zero (x tol : R) : float_le x 0.0 tol = ltb x 0.
Proof. unfold float_le. apply float_lt_zero. unfold default_tol. lra. Qed.

Lemma float_gt_zero (x : R) : float_gt x 0.0 default_tol = ltb 0 x.
Proof.
  unfold float_gt, gtb, default_tol.
  destruct (Rlt_dec 0 x) as [Hx | Hx].
  - rewrite (ltb_true 0 x Hx). apply ltb_true.
    rewrite Rabs_right by lra. nra.
  - rewrite (ltb_false 0 x) by lra. apply ltb_false.
    assert (0 <= Rabs x) by apply Rabs_pos. nra.
Qed.

Lemma clip_bounds (v w : R) :
  0 <= w -> 0 <= clip v (Some 0.0) (Some w) <= w.
Proof. intros Hw. unfold clip. cmp_cases; lra. Qed.

Lemma clip_inside (v w : R) :
  0 <= v <= w -> clip v (Some 0.0) (Some w) = v.
Proof. intros Hv. unfold clip. cmp_cases; lra. Qed.

(** ** The storage update *)

Lemma update_water_storage_runoff (self : WaterBalance.t) (tol : R)
  (s : Store) :
  fst (WaterBalance.update_water_storage self tol s) =
  if gtb (raw_root s) (wcapac_root (params s))
  then raw_root s - wcapac_root (params s) else 0.
Proof.
  unfold WaterBalance.update_water_storage, raw_root. cbn.
  destruct (gtb _ _); cbn; [reflexivity | lra].
Qed.

Lemma update_water_storage_fluxes (self : WaterBalance.t) (tol : R)
  (s : Store) :
  fluxes (snd (WaterBalance.update_water_storage self tol s)) =
  if ltb (root_after_overflow s) 0
  then set_et (interception (fluxes s))
         (set_soil_evap 0.0 (set_transpiration 0.0 (fluxes s)))
  else fluxes s.
Proof.
  rewrite <- (float_le_zero _ default_tol).
  unfold WaterBalance.update_water_storage, root_after_overflow, raw_root.
  cbn. destruct (gtb _ _); cbn; destruct (float_le _ _ _); reflexivity.
Qed.

Lemma update_water_storage_state (self : WaterBalance.t) (tol : R)
  (s : Store) :
  let s' := snd (WaterBalance.update_water_storage self tol s) in
  params s' = params s /\
  pawater_topsoil (state s') =
    clip (pawater_topsoil (state s) +
          (erain (fluxes s) -
           transpiration (fluxes s) *
             (fractup_soil (params s) * wtfac_topsoil (state s)) -
           soil_evap (fluxes s)))
      (Some 0.0) (Some (wcapac_topsoil (params s))) /\
  pawater_root (state s') =
    clip (root_after_overflow s) (Some 0.0) (Some (wcapac_root (params s))).
Proof.
  unfold WaterBalance.update_water_storage, root_after_overflow, raw_root.
  cbn. destruct (gtb _ _); cbn; destruct (float_le _ _ _); cbn; auto.
Qed.

(** When the store left after the overflow is strictly negative the drought
    correction is applied. *)
Lemma update_water_storage_drought_negative (self : WaterBalance.t)
  (tol : R) (s : Store) :
  root_after_overflow s < 0 ->
  let f' := fluxes (snd (WaterBalance.update_water_storage self tol s)) in
  transpiration f' = 0 /\ soil_evap f' = 0 /\ et f' = interception f'.
Proof.
  intros Hneg. cbv zeta. rewrite update_water_storage_fluxes.
  rewrite (ltb_true _ _ Hneg). cbn. repeat split; lra.
Qed.

Lemma float_le_zero_zero : float_le 0.0 0.0 default_tol = false.
Proof. rewrite float_le_zero. apply ltb_false. lra. Qed.

(** The same on binary64 numbers: the raw store 5 + (0 - 3 - 2) is exactly
    zero and [float_le] rejects it, while it accepts the least negative
    number. *)
Lemma binary64_float_le_zero_zero :
  (5 + (0 - 3 - 2))%float = 0%float /\
  Binary64.float_le (5 + (0 - 3 - 2))%float 0%float Binary64.default_tol =
    false /\
  Binary64.float_le (- 0x1p-1074)%float 0%float Binary64.default_tol = true.
Proof. repeat split; reflexivity. Qed.

(** C1: the drought rule at a root-zone store that lands exactly on zero.
    With 5 mm stored, no effective rain, 3 mm transpired and 2 mm evaporated
    the raw store is 0; [float_le 0.0 0.0] is false, so the fluxes are left as
    they were: transpiration 3, soil evaporation 2, and [et] 6 against an
    interception of 1. *)
Theorem update_water_storage_drought_at_zero :
  let s := Sample.drained_to_zero in
  let f' := fluxes (snd (WaterBalance.update_water_storage Sample.wb0 1E-08 s))
  in
  root_after_overflow s = 0 /\
  transpiration f' = 3 /\ soil_evap f' = 2 /\
  et f' = 6 /\ interception f' = 1 /\
  pawater_root
    (state (snd (WaterBalance.update_water_storage Sample.wb0 1E-08 s))) = 0.
Proof.
  cbv zeta.
  assert (Hraw : root_after_overflow Sample.drained_to_zero = 0).
  { unfold root_after_overflow, raw_root. cbn. cmp_cases; lra. }
  destruct (update_water_storage_state Sample.wb0 1E-08
              Sample.drained_to_zero) as (_ & _ & Hroot).
  rewrite Hroot, update_water_storage_fluxes, Hraw.
  rewrite (ltb_false 0 0) by lra. cbn.
  repeat split; try lra.
  unfold clip. cmp_cases; lra.
Qed.

(** C2: after [update_water_storage], with non-negative layer capacities,
    both stores lie between zero and the capacity of their layer. *)
Theorem update_water_storage_bounds (self : WaterBalance.t) (tol : R)
  (s : Store) :
  0 <= wcapac_topsoil (params s) ->
  0 <= wcapac_root (params s) ->
  let s' := snd (WaterBalance.update_water_storage self tol s) in
  0 <= pawater_topsoil (state s') <= wcapac_topsoil (params s') /\
  0 <= pawater_root (state s') <= wcapac_root (params s').
Proof.
  intros Htop Hroot s'.
  destruct (update_water_storage_state self tol s) as (Hp & Ht & Hr).
  fold s' in Hp, Ht, Hr. rewrite Hp, Ht, Hr.
  split; apply clip_bounds; assumption.
Qed.

Lemma update_water_storage_bounds_witness :
  let s' := snd (WaterBalance.update_water_storage Sample.wb0 1E-08
                   Sample.overflowing) in
  0 <= pawater_topsoil (state s') <= wcapac_topsoil (params s') /\
  0 <= pawater_root (state s') <= wcapac_root (params s').
Proof.
  apply (update_water_storage_bounds Sample.wb0 1E-08 Sample.overflowing);
    cbn; lra.
Defined.

(** C3: the returned runoff is non-negative and is the excess of the raw
    root-zone store over the root capacity; with a capacity of 100, a store of
    95 and a net input of 10 the runoff is 5 and the store is left at 100. *)
Theorem update_water_storage_runoff_max (self : WaterBalance.t) (tol : R)
  (s : Store) :
  let r := pawater_root (state s) + erain (fluxes s) -
           transpiration (fluxes s) - soil_evap (fluxes s) in
  let out := WaterBalance.update_water_storage self tol s in
  0 <= fst out /\
  fst out = Rmax 0 (r - wcapac_root (params s)) /\
  (wcapac_root (params s) = 100 ->
   pawater_root (state s) = 95 ->
   erain (fluxes s) - transpiration (fluxes s) - soil_evap (fluxes s) = 10 ->
   fst out = 5 /\ pawater_root (state (snd out)) = 100).
Proof.
  intros r out.
  assert (Hr : raw_root s = r) by (unfold raw_root, r; lra).
  assert (Hrun : fst out = Rmax 0 (r - wcapac_root (params s))).
  { unfold out. rewrite update_water_storage_runoff, Hr.
    unfold Rmax. destruct (Rle_dec 0 (r - wcapac_root (params s)));
      cmp_cases; lra. }
  split; [rewrite Hrun; apply Rmax_l | split; [exact Hrun |]].
  intros Hw Hp Hnet.
  assert (Hr105 : raw_root s = 105) by (unfold raw_root; lra).
  split.
  - rewrite Hrun, Hw, <- Hr, Hr105. unfold Rmax.
    destruct (Rle_dec 0 (105 - 100)); lra.
  - destruct (update_water_storage_state self tol s) as (_ & _ & Hroot).
    unfold out. rewrite Hroot. unfold root_after_overflow.
    rewrite Hr105, Hw. unfold clip. cmp_cases; lra.
Qed.

Lemma update_water_storage_runoff_max_witness :
  let out := WaterBalance.update_water_storage Sample.wb0 1E-08
               Sample.overflowing in
  fst out = 5 /\ pawater_root (state (snd out)) = 100.
Proof.
  apply (update_water_storage_runoff_max Sample.wb0 1E-08 Sample.overflowing);
    cbn; lra.
Defined.

(** ** The evaporation models *)

Lemma pow_positive_base (x y : R) :
  0 < x -> y <> 0 -> pow x y = Ok (Rpower x y).
Proof.
  intros Hx Hy. unfold pow.
  rewrite (eqb_false y 0 Hy), (eqb_false x 0) by lra.
  now rewrite (ltb_false x 0) by lra.
Qed.

Lemma Rpower_positive (x y : R) : 0 < Rpower x y.
Proof. unfold Rpower. apply exp_pos. Qed.

Section Thermodynamics.

Variable self : PenmanMonteith.t.
Hypothesis cp_pos : 0 < PenmanMonteith.cp self.
Hypothesis epsilon_pos : 0 < PenmanMonteith.epsilon self.

Variable tavg : R.
Hypothesis tavg_ok : temperature_domain tavg.

Let lambdax := PenmanMonteith.calc_latent_heat_of_vapourisation self tavg.

Lemma latent_heat_positive : 0 < lambdax.
Proof.
  unfold lambdax, PenmanMonteith.calc_latent_heat_of_vapourisation.
  unfold temperature_domain in tavg_ok. lra.
Qed.

Lemma slope_value_positive : 0 < slope_value tavg.
Proof.
  unfold slope_value. apply Rdiv_lt_0_compat; [| apply Rpower_positive].
  assert (0 < exp (17.27 * tavg / (tavg + 237.3))) by apply exp_pos. nra.
Qed.

Lemma calc_slope_value :
  PenmanMonteith.calc_slope_of_saturation_vapour_pressure_curve self tavg =
  Ok (slope_value tavg).
Proof.
  unfold PenmanMonteith.calc_slope_of_saturation_vapour_pressure_curve.
  cbv zeta. unfold temperature_domain in tavg_ok.
  rewrite div_ok by lra. cbn [bind].
  rewrite pow_positive_base by lra. cbn [bind].
  rewrite div_ok; [reflexivity |].
  apply Rgt_not_eq, Rpower_positive.
Qed.

Lemma gamma_value_positive (p : R) : 0 < p -> 0 < gamma_value self tavg p.
Proof.
  intros Hp. unfold gamma_value. fold lambdax.
  pose proof latent_heat_positive.
  apply Rdiv_lt_0_compat; nra.
Qed.

Lemma calc_gamma_value (p : R) :
  PenmanMonteith.calc_pyschrometric_constant self lambdax p =
  Ok (gamma_value self tavg p).
Proof.
  unfold PenmanMonteith.calc_pyschrometric_constant.
  pose proof latent_heat_positive.
  rewrite div_ok by nra. reflexivity.
Qed.

Lemma resolve_press_positive (press : option R) :
  pressure_domain self press ->
  exists p, PenmanMonteith.resolve_press self press = Ok p /\ 0 < p.
Proof.
  destruct press as [p |]; cbn; intros Hp.
  - exists p. split; [reflexivity | assumption].
  - unfold PenmanMonteith.calc_atmos_pressure.
    rewrite pow_positive_base by lra. cbn [bind].
    eexists. split; [reflexivity |].
    pose proof (Rpower_positive
                  ((293.0 - 0.0065 * PenmanMonteith.zele_sea self) / 293.0)
                  5.26).
    lra.
Qed.

(** The value returned by the equilibrium model. *)
Lemma penman_value (net_rad p : R) (press : option R) :
  PenmanMonteith.resolve_press self press = Ok p -> 0 < p ->
  Penman.calc_evaporation self net_rad tavg press =
  Ok (slope_value tavg / (slope_value tavg + gamma_value self tavg p) *
      net_rad / lambdax).
Proof.
  intros Hpress Hp. unfold Penman.calc_evaporation.
  rewrite Hpress. cbn [bind]. fold lambdax.
  rewrite calc_gamma_value. cbn [bind].
  rewrite calc_slope_value. cbn [bind].
  pose proof slope_value_positive. pose proof (gamma_value_positive p Hp).
  pose proof latent_heat_positive.
  rewrite div_ok by lra. cbn [bind].
  rewrite div_ok by lra. reflexivity.
Qed.

(** The value returned by the Priestley-Taylor model. *)
Lemma priestley_taylor_value (net_rad p pt_coeff : R) :
  0 < p ->
  PriestleyTaylor.calc_evaporation self net_rad tavg (Some p) pt_coeff =
  Ok (pt_coeff / lambdax *
      (slope_value tavg / (slope_value tavg + gamma_value self tavg p)) *
      net_rad).
Proof.
  intros Hp. unfold PriestleyTaylor.calc_evaporation. cbn [as_float bind].
  fold lambdax.
  rewrite calc_gamma_value. cbn [bind].
  rewrite calc_slope_value. cbn [bind].
  pose proof slope_value_positive. pose proof (gamma_value_positive p Hp).
  pose proof latent_heat_positive.
  rewrite div_ok by lra. cbn [bind].
  rewrite div_ok by lra. reflexivity.
Qed.

(** The evaporation returned by the full model with open stomata. *)
Lemma penman_monteith_value (vpd wind gs net_rad ga p : R)
  (press canht : option R) :
  PenmanMonteith.resolve_press self press = Ok p -> 0 < p ->
  0 < gs -> 0 <= ga ->
  exists om,
    PenmanMonteith.calc_evaporation self vpd wind gs net_rad tavg press canht
      (Some ga) =
    Ok ((slope_value tavg * net_rad +
         PenmanMonteith.calc_density_of_air self tavg *
           PenmanMonteith.cp self * vpd * ga) /
        (slope_value tavg + gamma_value self tavg p * (1.0 + ga / gs)) /
        lambdax, om).
Proof.
  intros Hpress Hp Hgs Hga. unfold PenmanMonteith.calc_evaporation.
  rewrite Hpress. cbn [bind]. fold lambdax.
  rewrite calc_gamma_value. cbn [bind].
  rewrite calc_slope_value. cbn [bind].
  rewrite float_gt_zero, (ltb_true 0 gs Hgs).
  pose proof slope_value_positive as Hs.
  pose proof (gamma_value_positive p Hp) as Hg.
  pose proof latent_heat_positive as Hl.
  assert (Hr : 0 <= ga / gs).
  { apply Rmult_le_pos; [assumption |]. left. now apply Rinv_0_lt_compat. }
  assert (He : 0 < slope_value tavg / gamma_value self tavg p)
    by now apply Rdiv_lt_0_compat.
  rewrite (div_ok (slope_value tavg)) by lra. cbn [bind].
  rewrite (div_ok ga gs) by lra. cbn [bind].
  rewrite div_ok by lra. cbn [bind].
  rewrite div_ok by nra. cbn [bind].
  rewrite div_ok by lra. cbn [bind].
  eexists. reflexivity.
Qed.

(** With closed stomata the full model returns zero, whatever the
    radiation. *)
Lemma penman_monteith_closed (vpd wind gs net_rad ga p : R)
  (press canht : option R) :
  PenmanMonteith.resolve_press self press = Ok p ->
  gs <= 0 ->
  PenmanMonteith.calc_evaporation self vpd wind gs net_rad tavg press canht
    (Some ga) = Ok (0.0, 0.0).
Proof.
  intros Hpress Hgs. unfold PenmanMonteith.calc_evaporation.
  rewrite Hpress. cbn [bind]. fold lambdax.
  rewrite calc_gamma_value. cbn [bind].
  rewrite calc_slope_value. cbn [bind].
  now rewrite float_gt_zero, (ltb_false 0 gs Hgs).
Qed.

End Thermodynamics.

(** The difference between the full and the equilibrium rate has the sign of
    [rho cp vpd gs (slope + gamma) - slope gamma net_rad]. *)
Lemma full_minus_equilibrium (s g l K nr ga gs : R) :
  0 < s -> 0 < g -> 0 < l -> 0 < gs -> 0 < ga ->
  s / (s + g) * nr / l <= (s * nr + K * ga) / (s + g * (1.0 + ga / gs)) / l
  <-> s * g * nr <= K * gs * (s + g).
Proof.
  intros Hs Hg Hl Hgs Hga.
  assert (HA : 0 < s * gs + g * gs + g * ga) by nra.
  assert (Hc : 0 < ga / ((s * gs + g * gs + g * ga) * (s + g) * l)).
  { apply Rdiv_lt_0_compat; [assumption |].
    repeat apply Rmult_lt_0_compat; lra. }
  assert (Hdiff :
    (s * nr + K * ga) / (s + g * (1.0 + ga / gs)) / l -
    s / (s + g) * nr / l =
    ga / ((s * gs + g * gs + g * ga) * (s + g) * l) *
    (K * gs * (s + g) - s * g * nr)).
  { replace 1.0 with 1 by lra. field. repeat split; lra. }
  split; intros H; nra.
Qed.

Lemma full_vs_equilibrium (self : PenmanMonteith.t)
  (vpd wind gs net_rad tavg ga : R) (press canht : option R) :
  0 < PenmanMonteith.cp self -> 0 < PenmanMonteith.epsilon self ->
  temperature_domain tavg -> pressure_domain self press ->
  0 < gs -> 0 < ga ->
  exists p e_pm om e_pen,
    PenmanMonteith.resolve_press self press = Ok p /\
    PenmanMonteith.calc_evaporation self vpd wind gs net_rad tavg press canht
      (Some ga) = Ok (e_pm, om) /\
    Penman.calc_evaporation self net_rad tavg press = Ok e_pen /\
    (e_pen <= e_pm <->
     slope_value tavg * gamma_value self tavg p * net_rad <=
     PenmanMonteith.calc_density_of_air self tavg * PenmanMonteith.cp self *
       vpd * gs * (slope_value tavg + gamma_value self tavg p)).
Proof.
  intros Hcp Heps Ht Hpress Hgs Hga.
  destruct (resolve_press_positive self press Hpress) as (p & Hp & Hppos).
  destruct (penman_monteith_value self Hcp Heps tavg Ht vpd wind gs net_rad
              ga p press canht Hp Hppos Hgs (Rlt_le _ _ Hga)) as (om & Hpm).
  exists p. eexists. exists om. eexists.
  split; [exact Hp |].
  split; [exact Hpm |].
  split; [exact (penman_value self Hcp Heps tavg Ht net_rad p press Hp Hppos) |].
  pose proof (full_minus_equilibrium (slope_value tavg)
                (gamma_value self tavg p)
                (PenmanMonteith.calc_latent_heat_of_vapourisation self tavg)
                (PenmanMonteith.calc_density_of_air self tavg *
                 PenmanMonteith.cp self * vpd)
                net_rad ga gs
                (slope_value_positive tavg)
                (gamma_value_positive self Hcp Heps tavg Ht p Hppos)
                (latent_heat_positive self tavg Ht) Hgs Hga) as Hiff.
  rewrite Hiff. split; intros H; nra.
Qed.

Lemma slope_value_at_zero : slope_value 0 = 4098.0 * 0.6108 / (237.3 * 237.3).
Proof.
  unfold slope_value.
  replace (17.27 * 0 / (0 + 237.3)) with 0 by lra.
  replace (0 + 237.3) with 237.3 by lra.
  replace 2 with (INR 2) by (simpl; lra).
  rewrite Rpower_pow by lra. rewrite exp_0. simpl. lra.
Qed.

(** C6, as the code has it: with open stomata, positive conductances and
    deficit, and temperature and pressure in their domain, both models return
    a rate, and the full rate is at least the equilibrium rate exactly when
    [slope * gamma * net_rad <= rho * cp * vpd * gs * (slope + gamma)]. *)
Theorem penman_monteith_vs_penman (self : PenmanMonteith.t)
  (vpd wind gs net_rad tavg ga : R) (press canht : option R) :
  0 < PenmanMonteith.cp self -> 0 < PenmanMonteith.epsilon self ->
  temperature_domain tavg -> pressure_domain self press ->
  0 < gs -> 0 < ga -> 0 < vpd ->
  exists p e_pm om e_pen,
    PenmanMonteith.resolve_press self press = Ok p /\
    PenmanMonteith.calc_evaporation self vpd wind gs net_rad tavg press canht
      (Some ga) = Ok (e_pm, om) /\
    Penman.calc_evaporation self net_rad tavg press = Ok e_pen /\
    (e_pen <= e_pm <->
     slope_value tavg * gamma_value self tavg p * net_rad <=
     PenmanMonteith.calc_density_of_air self tavg * PenmanMonteith.cp self *
       vpd * gs * (slope_value tavg + gamma_value self tavg p)).
Proof.
  intros Hcp Heps Ht Hpress Hgs Hga _.
  now apply full_vs_equilibrium.
Qed.

Lemma penman_monteith_vs_penman_witness :
  exists p e_pm om e_pen,
    PenmanMonteith.resolve_press PenmanMonteith.default (Some 100) = Ok p /\
    PenmanMonteith.calc_evaporation PenmanMonteith.default 1 2 0.005 0 20
      (Some 100) (Some 20) (Some 0.1) = Ok (e_pm, om) /\
    Penman.calc_evaporation PenmanMonteith.default 0 20 (Some 100) =
      Ok e_pen /\
    (e_pen <= e_pm <->
     slope_value 20 * gamma_value PenmanMonteith.default 20 p * 0 <=
     PenmanMonteith.calc_density_of_air PenmanMonteith.default 20 *
       PenmanMonteith.cp PenmanMonteith.default * 1 * 0.005 *
       (slope_value 20 + gamma_value PenmanMonteith.default 20 p)).
Proof.
  apply (penman_monteith_vs_penman PenmanMonteith.default 1 2 0.005 0 20 0.1
           (Some 100) (Some 20));
    unfold temperature_domain; cbn; lra.
Defined.

(** C6, as stated, fails: at 0 degC and 100 kPa, with a net radiation of
    0.0004 MJ m-2 s-1, a deficit of 0.1 kPa, gs = 0.005 and ga = 0.1 m s-1,
    the full rate is below the equilibrium rate. *)
Lemma penman_monteith_below_penman :
  exists e_pm om e_pen,
    PenmanMonteith.calc_evaporation PenmanMonteith.default 0.1 2 0.005 0.0004
      0 (Some 100) (Some 20) (Some 0.1) = Ok (e_pm, om) /\
    Penman.calc_evaporation PenmanMonteith.default 0.0004 0 (Some 100) =
      Ok e_pen /\
    e_pm < e_pen.
Proof.
  destruct (full_vs_equilibrium PenmanMonteith.default 0.1 2 0.005 0.0004 0
              0.1 (Some 100) (Some 20))
    as (p & e_pm & om & e_pen & Hp & Hpm & Hpen & Hiff);
    try (unfold temperature_domain; cbn; lra).
  exists e_pm, om, e_pen. split; [exact Hpm | split; [exact Hpen |]].
  cbn in Hp. injection Hp as <-.
  apply Rnot_le_lt. intros Hle. apply Hiff in Hle.
  rewrite slope_value_at_zero in Hle.
  unfold gamma_value, PenmanMonteith.calc_latent_heat_of_vapourisation,
    PenmanMonteith.calc_density_of_air in Hle.
  cbn in Hle. lra.
Qed.

Lemma scaled_increasing (c l a b : R) :
  0 < c -> 0 < l -> a < b -> c * a / l < c * b / l.
Proof.
  intros Hc Hl Hab. unfold Rdiv.
  apply Rmult_lt_compat_r; [now apply Rinv_0_lt_compat |].
  now apply Rmult_lt_compat_l.
Qed.

(** C7, as the code has it: for temperature and pressure in their domain, a
    larger net radiation gives a strictly larger rate in the equilibrium
    model, in the Priestley-Taylor model with a positive coefficient and a
    pressure reading, and in the full model when the stomata are open
    ([gs > 0], [ga >= 0]); with [gs <= 0] the full model returns zero at
    both radiations. *)
Theorem evaporation_increasing_in_net_rad (self : PenmanMonteith.t)
  (tavg nr1 nr2 : R) (press : option R) :
  0 < PenmanMonteith.cp self -> 0 < PenmanMonteith.epsilon self ->
  temperature_domain tavg -> pressure_domain self press ->
  nr1 < nr2 ->
  (exists e1 e2,
     Penman.calc_evaporation self nr1 tavg press = Ok e1 /\
     Penman.calc_evaporation self nr2 tavg press = Ok e2 /\ e1 < e2) /\
  (forall p pt_coeff, press = Some p -> 0 < pt_coeff ->
   exists e1 e2,
     PriestleyTaylor.calc_evaporation self nr1 tavg press pt_coeff = Ok e1 /\
     PriestleyTaylor.calc_evaporation self nr2 tavg press pt_coeff = Ok e2 /\
     e1 < e2) /\
  (forall vpd wind gs ga canht, 0 < gs -> 0 <= ga ->
   exists e1 o1 e2 o2,
     PenmanMonteith.calc_evaporation self vpd wind gs nr1 tavg press canht
       (Some ga) = Ok (e1, o1) /\
     PenmanMonteith.calc_evaporation self vpd wind gs nr2 tavg press canht
       (Some ga) = Ok (e2, o2) /\ e1 < e2) /\
  (forall vpd wind gs ga canht, gs <= 0 ->
     PenmanMonteith.calc_evaporation self vpd wind gs nr1 tavg press canht
       (Some ga) = Ok (0, 0) /\
     PenmanMonteith.calc_evaporation self vpd wind gs nr2 tavg press canht
       (Some ga) = Ok (0, 0)).
Proof.
  intros Hcp Heps Ht Hpress Hnr.
  destruct (resolve_press_positive self press Hpress) as (p & Hp & Hppos).
  pose proof (slope_value_positive tavg) as Hs.
  pose proof (gamma_value_positive self Hcp Heps tavg Ht p Hppos) as Hg.
  pose proof (latent_heat_positive self tavg Ht) as Hl.
  assert (Hf : 0 < slope_value tavg /
                   (slope_value tavg + gamma_value self tavg p))
    by (apply Rdiv_lt_0_compat; lra).
  repeat split.
  - do 2 eexists. split; [| split].
    + exact (penman_value self Hcp Heps tavg Ht nr1 p press Hp Hppos).
    + exact (penman_value self Hcp Heps tavg Ht nr2 p press Hp Hppos).
    + now apply scaled_increasing.
  - intros p' pt_coeff -> Hpt. cbn in Hp. injection Hp as ->.
    do 2 eexists. split; [| split].
    + exact (priestley_taylor_value self Hcp Heps tavg Ht nr1 p pt_coeff
               Hppos).
    + exact (priestley_taylor_value self Hcp Heps tavg Ht nr2 p pt_coeff
               Hppos).
    + apply Rmult_lt_compat_l; [| assumption].
      apply Rmult_lt_0_compat; [| assumption].
      apply Rdiv_lt_0_compat; assumption.
  - intros vpd wind gs ga canht Hgs Hga.
    destruct (penman_monteith_value self Hcp Heps tavg Ht vpd wind gs nr1 ga p
                press canht Hp Hppos Hgs Hga) as (o1 & H1).
    destruct (penman_monteith_value self Hcp Heps tavg Ht vpd wind gs nr2 ga p
                press canht Hp Hppos Hgs Hga) as (o2 & H2).
    eexists. exists o1. eexists. exists o2.
    split; [exact H1 | split; [exact H2 |]].
    assert (Hr : 0 <= ga / gs).
    { apply Rmult_le_pos; [assumption |]. left.
      now apply Rinv_0_lt_compat. }
    unfold Rdiv at 1 3.
    apply Rmult_lt_compat_r; [now apply Rinv_0_lt_compat |].
    unfold Rdiv at 1 3.
    apply Rmult_lt_compat_r; [apply Rinv_0_lt_compat; nra | nra].
  - replace 0 with 0.0 by lra.
    eapply penman_monteith_closed; eassumption.
  - replace 0 with 0.0 by lra.
    eapply penman_monteith_closed; eassumption.
Qed.

Lemma evaporation_increasing_in_net_rad_witness :
  exists e1 e2,
    Penman.calc_evaporation PenmanMonteith.default 0.0001 20 (Some 100) =
      Ok e1 /\
    Penman.calc_evaporation PenmanMonteith.default 0.0002 20 (Some 100) =
      Ok e2 /\ e1 < e2.
Proof.
  apply (evaporation_increasing_in_net_rad PenmanMonteith.default 20 0.0001
           0.0002 (Some 100));
    unfold temperature_domain; cbn; lra.
Defined.

(** C7, as stated, fails for the full model: with [gs = 0] the rate is zero
    at a net radiation of 0.0001 and at 0.0002 MJ m-2 s-1. *)
Lemma penman_monteith_flat_when_closed :
  exists e1 o1 e2 o2,
    PenmanMonteith.calc_evaporation PenmanMonteith.default 1 2 0 0.0001 20
      (Some 100) (Some 20) (Some 0.1) = Ok (e1, o1) /\
    PenmanMonteith.calc_evaporation PenmanMonteith.default 1 2 0 0.0002 20
      (Some 100) (Some 20) (Some 0.1) = Ok (e2, o2) /\
    0.0001 < 0.0002 /\ ~ e1 < e2.
Proof.
  exists 0.0, 0.0, 0.0, 0.0.
  split; [| split; [| split; lra]];
    eapply penman_monteith_closed;
    try reflexivity; unfold temperature_domain; cbn; lra.
Qed.

(** ** Infiltration *)

(** C8: with a canopy ([lai > 0]) the interception is
    [rain * intercep_frac * min(1, lai / max_intercep_lai)] and the effective
    rain is the rest; without one the effective rain is [max(0, rain)] and the
    interception is zero.  The quotient needs [max_intercep_lai] non-zero. *)
Theorem calc_infiltration_rule (self : WaterBalance.t) (rain : R)
  (s : Store) :
  (0 < lai (state s) -> max_intercep_lai (params s) <> 0 ->
   exists s',
     WaterBalance.calc_infiltration self rain s = (Ok tt, s') /\
     interception (fluxes s') =
       rain * intercep_frac (params s) *
       Rmin 1 (lai (state s) / max_intercep_lai (params s)) /\
     erain (fluxes s') = rain - interception (fluxes s')) /\
  (lai (state s) <= 0 ->
   exists s',
     WaterBalance.calc_infiltration self rain s = (Ok tt, s') /\
     erain (fluxes s') = Rmax 0 rain /\
     interception (fluxes s') = 0).
Proof.
  split.
  - intros Hlai Hmax.
    unfold WaterBalance.calc_infiltration, mbind, gets, reads, modify.
    cbv beta iota. unfold gtb.
    rewrite (ltb_true 0.0 (lai (state s))) by lra.
    rewrite div_ok by assumption.
    eexists. split; [reflexivity |]. cbn.
    rewrite min_Rmin. split; [| reflexivity].
    replace 1.0 with 1 by lra. reflexivity.
  - intros Hlai.
    unfold WaterBalance.calc_infiltration, mbind, gets, reads, modify.
    cbv beta iota. unfold gtb.
    rewrite (ltb_false 0.0 (lai (state s))) by lra.
    eexists. split; [reflexivity |]. cbn.
    rewrite max_Rmax. split; [| lra].
    replace 0.0 with 0 by lra. reflexivity.
Qed.

Lemma calc_infiltration_rule_witness :
  exists s',
    WaterBalance.calc_infiltration Sample.wb0 10 Sample.drained_to_zero =
      (Ok tt, s') /\
    interception (fluxes s') =
      10 * intercep_frac (params Sample.drained_to_zero) *
      Rmin 1 (lai (state Sample.drained_to_zero) /
              max_intercep_lai (params Sample.drained_to_zero)) /\
    erain (fluxes s') = 10 - interception (fluxes s').
Proof.
  apply (calc_infiltration_rule Sample.wb0 10 Sample.drained_to_zero);
    cbn; lra.
Defined.

(** ** Soil water stress factors *)

Lemma pow_zero_base (y : R) : 0 < y -> pow 0 y = Ok 0.
Proof.
  intros Hy. unfold pow.
  rewrite (eqb_false y 0) by lra. rewrite eqb_true.
  now rewrite (ltb_false y 0) by lra.
Qed.

Lemma Rpower_le_one (x y : R) : 0 < x <= 1 -> 0 < y -> Rpower x y <= 1.
Proof.
  intros [Hx0 Hx1] Hy. unfold Rpower.
  destruct (Req_dec_T x 1) as [-> | Hne].
  - rewrite ln_1, Rmult_0_r, exp_0. lra.
  - assert (Hln : ln x < 0) by (rewrite <- ln_1; apply ln_increasing; lra).
    left. rewrite <- exp_0. apply exp_increasing. nra.
Qed.

Lemma pow_nonneg (x y : R) :
  0 <= x -> 0 < y -> exists v, pow x y = Ok v /\ 0 <= v.
Proof.
  intros Hx Hy. destruct (Req_dec_T x 0) as [-> | Hne].
  - exists 0. split; [now apply pow_zero_base | lra].
  - exists (Rpower x y). split; [apply pow_positive_base; lra |].
    left. apply Rpower_positive.
Qed.

Lemma pow_unit_interval (x y : R) :
  0 <= x <= 1 -> 0 < y -> exists v, pow x y = Ok v /\ 0 <= v <= 1.
Proof.
  intros Hx Hy. destruct (Req_dec_T x 0) as [-> | Hne].
  - exists 0. split; [now apply pow_zero_base | lra].
  - exists (Rpower x y). split; [apply pow_positive_base; lra |].
    split; [left; apply Rpower_positive | apply Rpower_le_one; lra].
Qed.

Lemma calc_sw_modifier_bounds (self : SoilMoisture.t) (theta c n : R) :
  0 <= theta <= 1 -> 0 < c -> 0 < n ->
  exists w,
    SoilMoisture.calc_sw_modifier self theta (Some c) (Some n) = Ok w /\
    0 <= w <= 1.
Proof.
  intros Ht Hc Hn. unfold SoilMoisture.calc_sw_modifier. cbn [as_float bind].
  rewrite div_ok by lra. cbn [as_float bind].
  assert (Hq : 0 <= (1.0 - theta) / c).
  { apply Rmult_le_pos; [lra |]. left. now apply Rinv_0_lt_compat. }
  destruct (pow_nonneg _ n Hq Hn) as (v & Hv & Hv0).
  rewrite Hv. cbn [bind]. rewrite div_ok by lra.
  eexists. split; [reflexivity |].
  assert (Hinv : 0 < / (1.0 + v)) by (apply Rinv_0_lt_compat; lra).
  split; [unfold Rdiv; lra |].
  apply (Rmult_le_reg_r (1.0 + v)); [lra |].
  unfold Rdiv. rewrite Rmult_assoc, Rinv_l by lra. lra.
Qed.

(** C9: with both relative saturations in [0, 1], stress model 0 with a
    positive exponent [qs] and stress model 1 with positive [ctheta] and
    [ntheta] return factors in [0, 1] for the topsoil and for the root
    zone. *)
Theorem calculate_soil_water_fac_bounds (self : SoilMoisture.t) (s : Store) :
  wcapac_topsoil (params s) <> 0 -> wcapac_root (params s) <> 0 ->
  0 <= pawater_topsoil (state s) / wcapac_topsoil (params s) <= 1 ->
  0 <= pawater_root (state s) / wcapac_root (params s) <= 1 ->
  (sw_stress_model (control s) = 0%Z /\ 0 < qs (params s)) \/
  (sw_stress_model (control s) = 1%Z /\
   exists ct nt cr nr,
     ctheta_topsoil (params s) = Some ct /\
     ntheta_topsoil (params s) = Some nt /\
     ctheta_root (params s) = Some cr /\ ntheta_root (params s) = Some nr /\
     0 < ct /\ 0 < nt /\ 0 < cr /\ 0 < nr) ->
  exists wtfac_top wtfac_rt,
    SoilMoisture.calculate_soil_water_fac self s = Ok (wtfac_top, wtfac_rt) /\
    0 <= wtfac_top <= 1 /\ 0 <= wtfac_rt <= 1.
Proof.
  intros Hwt Hwr Htop Hroot Hmodel.
  unfold SoilMoisture.calculate_soil_water_fac. cbv zeta.
  rewrite !div_ok by assumption. cbn [bind].
  destruct Hmodel as [[-> Hqs] |
                      [-> (ct & nt & cr & nr & -> & -> & -> & -> &
                             Hct & Hnt & Hcr & Hnr)]]; cbn [Z.eqb].
  - destruct (pow_unit_interval _ _ Htop Hqs) as (wt & -> & Hwt01).
    destruct (pow_unit_interval _ _ Hroot Hqs) as (wr & -> & Hwr01).
    cbn [bind]. exists wt, wr. auto.
  - destruct (calc_sw_modifier_bounds self _ ct nt Htop Hct Hnt)
      as (wt & -> & Hwt01).
    destruct (calc_sw_modifier_bounds self _ cr nr Hroot Hcr Hnr)
      as (wr & -> & Hwr01).
    cbn [bind]. exists wt, wr. auto.
Qed.

Lemma calculate_soil_water_fac_bounds_witness :
  exists wtfac_top wtfac_rt,
    SoilMoisture.calculate_soil_water_fac
      (SoilMoisture.init Sample.drained_to_zero) Sample.drained_to_zero =
      Ok (wtfac_top, wtfac_rt) /\
    0 <= wtfac_top <= 1 /\ 0 <= wtfac_rt <= 1.
Proof.
  apply (calculate_soil_water_fac_bounds
           (SoilMoisture.init Sample.drained_to_zero) Sample.drained_to_zero);
    try (cbn; lra).
  left. split; [reflexivity | cbn; lra].
Defined.

(** ** Degenerate inputs *)

Lemma sqrt_negative (x : R) : x < 0 -> Py.sqrt x = Raise ValueError.
Proof. intros Hx. unfold Py.sqrt. now rewrite ltb_true. Qed.

Lemma sqrt_zero : Py.sqrt 0 = Ok 0.
Proof. unfold Py.sqrt. rewrite ltb_false by lra. now rewrite sqrt_0. Qed.

(** C5: [calc_stomatal_conductance] raises when [vpd <= 0] and when [ca] is
    zero, and [calculate_soil_water_fac] raises when the capacity of a layer
    is zero; no value is returned.  The exception is the one Python raises
    for the square root of a negative number or for a division by zero. *)
Theorem degenerate_inputs_raise (const : Constants) :
  (forall self s vpd ca daylen gpp press temp,
     vpd <= 0 \/ ca = 0 ->
     exists e,
       WaterBalance.calc_stomatal_conductance const self s vpd ca daylen gpp
         press temp = Raise e) /\
  (forall self s,
     wcapac_topsoil (params s) = 0 \/ wcapac_root (params s) = 0 ->
     exists e, SoilMoisture.calculate_soil_water_fac self s = Raise e).
Proof.
  split.
  - intros self s vpd ca daylen gpp press temp Hdeg.
    unfold WaterBalance.calc_stomatal_conductance.
    destruct (div 1.0 (60.0 * 60.0 * daylen)) as [d2s | e];
      [cbn [bind] | now exists e].
    destruct Hdeg as [Hvpd | Hca].
    + destruct (Rlt_dec vpd 0) as [Hneg | Hnn].
      * rewrite (sqrt_negative vpd Hneg). now eexists.
      * replace vpd with 0 by lra. rewrite sqrt_zero. cbn [bind].
        rewrite div_zero. now eexists.
    + subst ca. destruct (Py.sqrt vpd) as [root | e];
        [cbn [bind] | now exists e].
      destruct (div _ root) as [q | e]; [cbn [bind] | now exists e].
      rewrite div_zero. now eexists.
  - intros self s Hdeg.
    unfold SoilMoisture.calculate_soil_water_fac. cbv zeta.
    destruct Hdeg as [-> | ->].
    + rewrite div_zero. now eexists.
    + destruct (div _ (wcapac_topsoil (params s))) as [smc | e];
        [cbn [bind] | now exists e].
      rewrite div_zero. now eexists.
Qed.

Lemma degenerate_inputs_raise_witness :
  exists e,
    WaterBalance.calc_stomatal_conductance Sample.constants0
      Sample.wb0 Sample.drained_to_zero 0 380 12 5 (Some 100) 20 = Raise e.
Proof.
  apply degenerate_inputs_raise. left. lra.
Defined.

(** ** Derivation of the Landsberg-Waring parameters *)

Lemma stress_params_unset_true (p : Params) :
  SoilMoisture.stress_params_unset p = true <->
  stress_params p = (None, None, None, None).
Proof.
  unfold SoilMoisture.stress_params_unset, stress_params.
  destruct (ctheta_topsoil p), (ntheta_topsoil p), (ctheta_root p),
    (ntheta_root p); split; intros H; try discriminate; reflexivity.
Qed.

(** The statements under [if self.control.calc_sw_params] leave the four
    attributes as they are, whether they finish or raise. *)
Lemma derive_hydraulics_stress_params (self : SoilMoisture.t)
  (tt_type rt_type : string) (s : Store) :
  stress_params
    (params (snd (SoilMoisture.derive_hydraulics self tt_type rt_type s))) =
  stress_params (params s).
Proof.
  unfold SoilMoisture.derive_hydraulics. unfold_method.
  destruct (calc_sw_params (control s)); [| reflexivity].
  destruct (SoilMoisture.get_soil_fracs self tt_type) as [ft | e];
    [| reflexivity].
  destruct (SoilMoisture.get_soil_fracs self rt_type) as [fr | e];
    [| reflexivity].
  destruct (SoilMoisture.calc_soil_params self ft)
    as [[[[[fc wp] sat] b] psi] | e]; [| reflexivity].
  destruct (SoilMoisture.calc_soil_params self fr)
    as [[[[[fc' wp'] sat'] b'] psi'] | e]; reflexivity.
Qed.

Lemma derive_hydraulics_off (self : SoilMoisture.t)
  (tt_type rt_type : string) (s : Store) :
  calc_sw_params (control s) = false ->
  SoilMoisture.derive_hydraulics self tt_type rt_type s = (Ok tt, s).
Proof.
  intros Hoff. unfold SoilMoisture.derive_hydraulics. unfold_method.
  now rewrite Hoff.
Qed.

Lemma derive_stress_params_set (self : SoilMoisture.t)
  (tt_type rt_type : string) (s : Store) :
  stress_params (params s) <> (None, None, None, None) ->
  SoilMoisture.derive_stress_params self tt_type rt_type s = (Ok tt, s).
Proof.
  intros Hset. unfold SoilMoisture.derive_stress_params. unfold_method.
  destruct (SoilMoisture.stress_params_unset (params s)) eqn:E;
    [| reflexivity].
  apply stress_params_unset_true in E. contradiction.
Qed.

Lemma derive_stress_params_unset (self : SoilMoisture.t)
  (tt_type rt_type : string) (s : Store) :
  stress_params (params s) = (None, None, None, None) ->
  SoilMoisture.derive_stress_params self tt_type rt_type s =
  match SoilMoisture.get_soil_params self tt_type with
  | Raise e => (Raise e, s)
  | Ok (ct, nt) =>
      match SoilMoisture.get_soil_params self rt_type with
      | Raise e => (Raise e, with_params (set_stress_topsoil ct nt) s)
      | Ok (cr, nr) =>
          (Ok tt,
           with_params (set_stress_root cr nr)
             (with_params (set_stress_topsoil ct nt) s))
      end
  end.
Proof.
  intros Hnone. apply stress_params_unset_true in Hnone.
  unfold SoilMoisture.derive_stress_params. unfold_method.
  rewrite Hnone.
  destruct (SoilMoisture.get_soil_params self tt_type) as [[ct nt] | e];
    [| reflexivity].
  destruct (SoilMoisture.get_soil_params self rt_type) as [[cr nr] | e];
    reflexivity.
Qed.

Lemma initialise_parameters_steps (self : SoilMoisture.t) (s : Store) :
  SoilMoisture.initialise_parameters self s =
  match SoilMoisture.derive_hydraulics self (topsoil_type (params s))
          (rootsoil_type (params s)) s with
  | (Ok _, s1) =>
      SoilMoisture.derive_stress_params self (topsoil_type (params s))
        (rootsoil_type (params s)) s1
  | (Raise e, s1) => (Raise e, s1)
  end.
Proof. reflexivity. Qed.

(** C10: the Landsberg-Waring pairs are derived only when the four
    attributes are all [None].  If one of them is set, all four are left as
    they were, whatever else the method does; if none is set and the method
    returns, all four hold the pairs looked up for the two soil types.  With
    [calc_sw_params] off the method returns unless a lookup exits. *)
Theorem initialise_parameters_all_or_nothing (self : SoilMoisture.t)
  (s : Store) :
  let out := SoilMoisture.initialise_parameters self s in
  (stress_params (params s) <> (None, None, None, None) ->
   stress_params (params (snd out)) = stress_params (params s) /\
   (calc_sw_params (control s) = false -> out = (Ok tt, s))) /\
  (stress_params (params s) = (None, None, None, None) ->
   (fst out = Ok tt ->
    exists ct nt cr nr,
      SoilMoisture.get_soil_params self (topsoil_type (params s)) =
        Ok (ct, nt) /\
      SoilMoisture.get_soil_params self (rootsoil_type (params s)) =
        Ok (cr, nr) /\
      stress_params (params (snd out)) =
        (Some ct, Some nt, Some cr, Some nr)) /\
   (calc_sw_params (control s) = false ->
    forall ct nt cr nr,
      SoilMoisture.get_soil_params self (topsoil_type (params s)) =
        Ok (ct, nt) ->
      SoilMoisture.get_soil_params self (rootsoil_type (params s)) =
        Ok (cr, nr) ->
      out =
        (Ok tt,
         with_params (set_stress_root cr nr)
           (with_params (set_stress_topsoil ct nt) s)))).
Proof.
  cbv zeta. rewrite initialise_parameters_steps.
  pose proof (derive_hydraulics_stress_params self (topsoil_type (params s))
                (rootsoil_type (params s)) s) as Hkeep.
  pose proof (derive_hydraulics_off self (topsoil_type (params s))
                (rootsoil_type (params s)) s) as Hoff.
  destruct (SoilMoisture.derive_hydraulics self (topsoil_type (params s))
              (rootsoil_type (params s)) s) as [[u | e] s1];
    cbn [snd] in Hkeep.
  - split.
    + intros Hset. split.
      * rewrite derive_stress_params_set by now rewrite Hkeep.
        exact Hkeep.
      * intros Hcalc. specialize (Hoff Hcalc). injection Hoff as _ ->.
        now apply derive_stress_params_set.
    + intros Hnone. split.
      * rewrite derive_stress_params_unset by now rewrite Hkeep.
        destruct (SoilMoisture.get_soil_params self (topsoil_type (params s)))
          as [[ct nt] | e]; [| discriminate].
        destruct (SoilMoisture.get_soil_params self (rootsoil_type (params s)))
          as [[cr nr] | e]; [| discriminate].
        intros _. exists ct, nt, cr, nr. repeat split.
      * intros Hcalc ct nt cr nr Htop Hroot.
        specialize (Hoff Hcalc). injection Hoff as _ ->.
        rewrite derive_stress_params_unset by assumption.
        now rewrite Htop, Hroot.
  - split.
    + intros Hset. split; [exact Hkeep |].
      intros Hcalc. specialize (Hoff Hcalc). discriminate.
    + intros Hnone. split; [discriminate |].
      intros Hcalc. specialize (Hoff Hcalc). discriminate.
Qed.

Lemma initialise_parameters_all_or_nothing_witness :
  let s := Sample.one_stress_param_set in
  let out :=
    SoilMoisture.initialise_parameters (SoilMoisture.init s) s in
  stress_params (params (snd out)) = (Some 0.5, None, None, None) /\
  (calc_sw_params (control s) = false -> out = (Ok tt, s)).
Proof.
  apply (initialise_parameters_all_or_nothing
           (SoilMoisture.init Sample.one_stress_param_set)
           Sample.one_stress_param_set).
  discriminate.
Defined.

(** ** Control flags outside the values the code knows *)

Lemma transpiration_step_unrecognised (const : Constants)
  (self : WaterBalance.t) (md : WaterBalance.MetDay)
  (net_rad_day net_rad_am net_rad_pm daylen : R) (s : Store) :
  unrecognised_transpiration (control s) ->
  WaterBalance.transpiration_step const self md net_rad_day net_rad_am
    net_rad_pm daylen s = (Ok tt, s).
Proof.
  intros Hun. unfold WaterBalance.transpiration_step. unfold_method.
  destruct Hun as [(H0 & H1 & H2) | (H1 & Hb & Hm)].
  - apply Z.eqb_neq in H0, H1, H2. now rewrite H0, H1, H2.
  - rewrite H1. apply String.eqb_neq in Hb, Hm.
    change ((1 =? 0)%Z) with false. change ((1 =? 1)%Z) with true.
    cbv beta iota. now rewrite Hb, Hm.
Qed.

Lemma calculate_water_balance_unrecognised (const : Constants)
  (self : WaterBalance.t) (day : Z) (daylen : R) (s : Store) :
  unrecognised_transpiration (control s) ->
  WaterBalance.calculate_water_balance const self day daylen s =
  water_balance_without_transpiration const self day daylen s.
Proof.
  intros Hun.
  unfold WaterBalance.calculate_water_balance,
    water_balance_without_transpiration.
  cbv zeta. unfold mbind, reads. 
  destruct (WaterBalance.get_met_data self day daylen) as [md | e];
    [| reflexivity].
  destruct (WaterBalance.calc_radiation const self s _ _ daylen)
    as [nrd | e]; [| reflexivity].
  destruct (WaterBalance.calc_radiation const self s (WaterBalance.tair_am md)
              _ _) as [nra | e]; [| reflexivity].
  destruct (WaterBalance.calc_radiation const self s (WaterBalance.tair_pm md)
              _ _) as [nrp | e]; [| reflexivity].
  now rewrite transpiration_step_unrecognised.
Qed.

Lemma soil_water_fac_unrecognised (self : SoilMoisture.t) (s : Store) :
  unrecognised_stress (control s) ->
  exists e, SoilMoisture.calculate_soil_water_fac self s = Raise e.
Proof.
  intros (H0 & H1 & H2). apply Z.eqb_neq in H0, H1, H2.
  unfold SoilMoisture.calculate_soil_water_fac. cbv zeta.
  rewrite H0, H1, H2.
  destruct (div _ (wcapac_topsoil (params s))) as [a | e];
    [cbn [bind] | now exists e].
  destruct (div _ (wcapac_root (params s))) as [b | e];
    [cbn [bind] | now exists e].
  now eexists.
Qed.

Lemma derive_hydraulics_ignores_flags (self : SoilMoisture.t)
  (tt_type rt_type : string) (s : Store) (c : Control) :
  calc_sw_params c = calc_sw_params (control s) ->
  SoilMoisture.derive_hydraulics self tt_type rt_type (set_control c s) =
  (fst (SoilMoisture.derive_hydraulics self tt_type rt_type s),
   set_control c (snd (SoilMoisture.derive_hydraulics self tt_type rt_type s))).
Proof.
  intros Hc. unfold SoilMoisture.derive_hydraulics. unfold_method.
  cbn [control set_control]. rewrite Hc.
  destruct (calc_sw_params (control s)); [| reflexivity].
  destruct (SoilMoisture.get_soil_fracs self tt_type) as [ft | e];
    [| reflexivity].
  destruct (SoilMoisture.get_soil_fracs self rt_type) as [fr | e];
    [| reflexivity].
  destruct (SoilMoisture.calc_soil_params self ft)
    as [[[[[fc wp] sat] b] psi] | e]; [| reflexivity].
  destruct (SoilMoisture.calc_soil_params self fr)
    as [[[[[fc' wp'] sat'] b'] psi'] | e]; reflexivity.
Qed.

Lemma derive_stress_params_ignores_flags (self : SoilMoisture.t)
  (tt_type rt_type : string) (s : Store) (c : Control) :
  SoilMoisture.derive_stress_params self tt_type rt_type (set_control c s) =
  (fst (SoilMoisture.derive_stress_params self tt_type rt_type s),
   set_control c
     (snd (SoilMoisture.derive_stress_params self tt_type rt_type s))).
Proof.
  unfold SoilMoisture.derive_stress_params. unfold_method.
  cbn [params set_control].
  destruct (SoilMoisture.stress_params_unset (params s)); [| reflexivity].
  destruct (SoilMoisture.get_soil_params self tt_type) as [[ct nt] | e];
    [| reflexivity].
  destruct (SoilMoisture.get_soil_params self rt_type) as [[cr nr] | e];
    reflexivity.
Qed.

Lemma initialise_parameters_ignores_flags (self : SoilMoisture.t) (s : Store)
  (c : Control) :
  calc_sw_params c = calc_sw_params (control s) ->
  SoilMoisture.initialise_parameters self (set_control c s) =
  (fst (SoilMoisture.initialise_parameters self s),
   set_control c (snd (SoilMoisture.initialise_parameters self s))).
Proof.
  intros Hc. rewrite !initialise_parameters_steps.
  cbn [params set_control].
  rewrite (derive_hydraulics_ignores_flags self _ _ s c Hc).
  destruct (SoilMoisture.derive_hydraulics self _ _ s) as [[u | e] s1];
    cbn [fst snd]; [| reflexivity].
  apply derive_stress_params_ignores_flags.
Qed.

Lemma calc_infiltration_bare (self : WaterBalance.t) (rain : R) (s : Store) :
  lai (state s) <= 0 ->
  WaterBalance.calc_infiltration self rain s =
  (Ok tt,
   with_fluxes (set_interception 0.0)
     (with_fluxes (set_erain (Py.max 0.0 rain)) s)).
Proof.
  intros Hlai. unfold WaterBalance.calc_infiltration. unfold_method.
  unfold gtb. now rewrite (ltb_false 0.0 (lai (state s))) by lra.
Qed.

Lemma calc_soil_evaporation_dry (self : WaterBalance.t) (s : Store)
  (tavg net_rad daylen sw_rad : R) (press : option R) :
  temperature_domain tavg ->
  pressure_domain PenmanMonteith.default press ->
  wtfac_topsoil (state s) = 0 ->
  WaterBalance.calc_soil_evaporation self s tavg net_rad press daylen sw_rad =
  Ok 0.
Proof.
  intros Ht Hpress Hdry.
  destruct (resolve_press_positive PenmanMonteith.default press Hpress)
    as (p & Hp & Hppos).
  unfold WaterBalance.calc_soil_evaporation. cbv zeta.
  rewrite (penman_value PenmanMonteith.default) with (p := p);
    try assumption; try (cbn; lra).
  cbn [bind]. f_equal. rewrite Hdry. ring.
Qed.

Lemma soil_and_storage_step_dry_bare (self : WaterBalance.t)
  (md : WaterBalance.MetDay) (net_rad_day daylen : R) (s : Store) :
  temperature_domain (WaterBalance.tair_day md) ->
  pressure_domain PenmanMonteith.default (WaterBalance.press md) ->
  lai (state s) <= 0 -> wtfac_topsoil (state s) = 0 ->
  WaterBalance.soil_and_storage_step self md net_rad_day daylen s =
  let s1 := with_fluxes (set_interception 0.0)
              (with_fluxes (set_erain (Py.max 0.0 (WaterBalance.rain md))) s)
  in
  let s2 := with_fluxes
              (fun f => set_et (transpiration f + soil_evap f + interception f)
                          f)
              (with_fluxes (set_soil_evap 0) s1) in
  let out := WaterBalance.update_water_storage self 1E-08 s2 in
  (Ok tt, with_fluxes (set_runoff (fst out)) (snd out)).
Proof.
  intros Ht Hpress Hlai Hdry.
  unfold WaterBalance.soil_and_storage_step.
  unfold mbind at 1. rewrite calc_infiltration_bare by assumption.
  unfold mbind at 1. unfold reads.
  rewrite calc_soil_evaporation_dry by assumption.
  unfold_method. cbv zeta.
  destruct (WaterBalance.update_water_storage self 1E-08 _) as [r s3].
  reflexivity.
Qed.

Lemma calc_radiation_returns (const : Constants) (self : WaterBalance.t)
  (s : Store) (tavg sw_rad daylen : R) :
  daylen <> 0 ->
  exists nr, WaterBalance.calc_radiation const self s tavg sw_rad daylen =
             Ok nr.
Proof.
  intros Hd. unfold WaterBalance.calc_radiation. cbv zeta.
  rewrite div_ok by lra. now eexists.
Qed.

Lemma met0_day0 (self : WaterBalance.t) (daylen : R) :
  WaterBalance.met_data self = Sample.met0 ->
  exists md, WaterBalance.get_met_data self 0 daylen = Ok md /\
    WaterBalance.tair_day md = 20.0 /\ WaterBalance.rain md = 10.0 /\
    WaterBalance.press md = Some 100.0.
Proof.
  intros Hmd. unfold WaterBalance.get_met_data. rewrite Hmd.
  eexists. split; [reflexivity |]. repeat split.
Qed.

(** C4, as stated, fails: with [trans_model = 3] the setup method returns
    normally, and the daily call returns normally too, leaving in [fluxes] the
    9 mm of transpiration it found there, adding them to [et] and taking them
    from the root zone (50 + 10 - 9 = 51 mm). *)
Lemma unknown_trans_model_falls_through :
  let s := Sample.unknown_trans_model in
  let wb := WaterBalance.init s Sample.met0 in
  SoilMoisture.initialise_parameters (SoilMoisture.init s) s = (Ok tt, s) /\
  exists s',
    WaterBalance.calculate_water_balance Sample.constants0 wb 0 12 s =
      (Ok tt, s') /\
    transpiration (fluxes s') = 9 /\ et (fluxes s') = 9 /\
    pawater_root (state s') = 51.
Proof.
  cbv zeta. split; [reflexivity |].
  rewrite calculate_water_balance_unrecognised
    by (left; cbn; repeat split; discriminate).
  unfold water_balance_without_transpiration. cbv zeta.
  destruct (met0_day0 (WaterBalance.init Sample.unknown_trans_model Sample.met0)
              12 eq_refl) as (md & Hmd & Htair & Hrain & Hpress).
  unfold mbind at 1. unfold reads at 1. rewrite Hmd.
  destruct (calc_radiation_returns Sample.constants0
              (WaterBalance.init Sample.unknown_trans_model Sample.met0)
              Sample.unknown_trans_model (WaterBalance.tair_day md)
              (WaterBalance.sw_rad_day md) 12) as (nrd & Hnrd); [lra |].
  destruct (calc_radiation_returns Sample.constants0
              (WaterBalance.init Sample.unknown_trans_model Sample.met0)
              Sample.unknown_trans_model (WaterBalance.tair_am md)
              (WaterBalance.sw_rad_am md) (12 / 2.0)) as (nra & Hnra); [lra |].
  destruct (calc_radiation_returns Sample.constants0
              (WaterBalance.init Sample.unknown_trans_model Sample.met0)
              Sample.unknown_trans_model (WaterBalance.tair_pm md)
              (WaterBalance.sw_rad_pm md) (12 / 2.0)) as (nrp & Hnrp); [lra |].
  unfold mbind, reads. rewrite Hnrd, Hnra, Hnrp.
  rewrite soil_and_storage_step_dry_bare;
    try (rewrite ?Htair, ?Hpress; unfold temperature_domain; cbn; lra).
  cbv zeta. eexists. split; [reflexivity |].
  rewrite Hrain.
  set (wb := WaterBalance.init Sample.unknown_trans_model Sample.met0).
  set (s2 := with_fluxes _ (with_fluxes (set_soil_evap 0) _)).
  assert (Hraw : root_after_overflow s2 = 51).
  { unfold root_after_overflow, raw_root, s2, Py.max. cbn. cmp_cases; lra. }
  destruct (update_water_storage_state wb 1E-08 s2) as (_ & _ & Hroot).
  cbn [fluxes state with_fluxes set_runoff transpiration et].
  rewrite update_water_storage_fluxes, Hroot, Hraw.
  rewrite (ltb_false 51 0) by lra.
  repeat split.
  - cbn. lra.
  - unfold s2, Py.max. cbn. cmp_cases; lra.
  - unfold clip. cbn. cmp_cases; lra.
Qed.

(** C4, as the code has it: the outcome of the setup method does not depend
    on [trans_model], [assim_model] or [sw_stress_model]; a daily call under
    flags that select no transpiration branch runs the branch as a no-op on
    the store and is the daily call without that branch; under a
    [sw_stress_model] that selects no stress branch
    [calculate_soil_water_fac] returns no value, it raises when called. *)
Theorem unrecognised_flags_at_run_time (const : Constants) :
  (forall self s c,
     calc_sw_params c = calc_sw_params (control s) ->
     fst (SoilMoisture.initialise_parameters self (set_control c s)) =
     fst (SoilMoisture.initialise_parameters self s)) /\
  (forall self md net_rad_day net_rad_am net_rad_pm daylen s,
     unrecognised_transpiration (control s) ->
     WaterBalance.transpiration_step const self md net_rad_day net_rad_am
       net_rad_pm daylen s = (Ok tt, s)) /\
  (forall self day daylen s,
     unrecognised_transpiration (control s) ->
     WaterBalance.calculate_water_balance const self day daylen s =
     water_balance_without_transpiration const self day daylen s) /\
  (forall self s,
     unrecognised_stress (control s) ->
     exists e, SoilMoisture.calculate_soil_water_fac self s = Raise e).
Proof.
  repeat split.
  - intros self s c Hc.
    now rewrite initialise_parameters_ignores_flags.
  - intros. now apply transpiration_step_unrecognised.
  - intros. now apply calculate_water_balance_unrecognised.
  - intros. now apply soil_water_fac_unrecognised.
Qed.

Lemma unrecognised_flags_at_run_time_witness :
  WaterBalance.calculate_water_balance Sample.constants0
    (WaterBalance.init Sample.unknown_trans_model Sample.met0) 0 12
    Sample.unknown_trans_model =
  water_balance_without_transpiration Sample.constants0
    (WaterBalance.init Sample.unknown_trans_model Sample.met0) 0 12
    Sample.unknown_trans_model.
Proof.
  apply (unrecognised_flags_at_run_time Sample.constants0).
  left. cbn. repeat split; discriminate.
Defined.

(** * Further properties *)

(** ** utilities.py: comparisons and clip *)

(** X1: [float_le] and [float_ge] are the strict comparisons: both are false
    on equal arguments, for which [float_eq] is true. *)
Theorem float_le_ge_irreflexive (x tol : R) :
  float_le x x tol = false /\ float_ge x x tol = false /\
  float_eq x x default_tol = true.
Proof.
  unfold float_le, float_ge, float_lt, float_gt, float_eq, default_tol.
  pose proof (Rabs_pos x) as Hx.
  repeat split.
  - unfold gtb. apply ltb_false. nra.
  - unfold gtb. apply ltb_false. nra.
  - apply ltb_true. replace (x - x) with 0 by lra. rewrite Rabs_R0. nra.
Qed.

(** X2: with a non-negative tolerance, [float_lt] holds only below and
    [float_gt] only above, so the two never hold together. *)
Theorem float_lt_gt_strict (a b tol : R) :
  0 <= tol ->
  (float_lt a b tol = true -> a < b) /\
  (float_gt a b tol = true -> b < a) /\
  (float_lt a b tol = true -> float_gt a b tol = false).
Proof.
  intros Ht. unfold float_lt, float_gt, gtb.
  pose proof (Rabs_pos a) as Ha.
  assert (Hlt : ltb (Rabs a * tol) (b - a) = true -> a < b).
  { intros H. apply ltb_iff in H. nra. }
  repeat split.
  - exact Hlt.
  - intros H. apply ltb_iff in H. nra.
  - intros H. apply Hlt in H. apply ltb_false. nra.
Qed.

Lemma float_lt_gt_strict_witness :
  (float_lt 1 2 default_tol = true -> 1 < 2) /\
  (float_gt 1 2 default_tol = true -> 2 < 1) /\
  (float_lt 1 2 default_tol = true -> float_gt 1 2 default_tol = false).
Proof. apply float_lt_gt_strict. unfold default_tol. lra. Defined.

(** X3: clipping twice with the same bounds is clipping once, whichever
    bounds are given. *)
Theorem clip_idempotent (v : R) (lo hi : option R) :
  clip (clip v lo hi) lo hi = clip v lo hi.
Proof.
  unfold clip. destruct lo as [lo |], hi as [hi |]; cmp_cases; lra.
Qed.

(** X4: with [min <= max] the result lies between the bounds and a value
    between them is returned as it is; with [max < min] the result is [max],
    whatever the value. *)
Theorem clip_range (v lo hi : R) :
  (lo <= hi ->
   lo <= clip v (Some lo) (Some hi) <= hi /\
   (lo <= v <= hi -> clip v (Some lo) (Some hi) = v)) /\
  (hi < lo -> clip v (Some lo) (Some hi) = hi).
Proof.
  unfold clip. repeat split; intros; cmp_cases; lra.
Qed.

Lemma clip_range_witness :
  clip 7 (Some 5) (Some 3) = 3.
Proof. apply clip_range. lra. Defined.

(** ** utilities.py: uniq and str2boolean *)

Section UniqFacts.

Context {A : Type} (eq_dec : forall x y : A, {x = y} + {x <> y}).

Lemma uniq_fold_invariant (l acc : list A) :
  NoDup acc ->
  NoDup (fold_left (uniq_step eq_dec) l acc) /\
  (forall x, In x (fold_left (uniq_step eq_dec) l acc) <->
             In x acc \/ In x l).
Proof.
  revert acc. induction l as [| a l IH]; intros acc Hnd; cbn [fold_left].
  - split; [assumption |]. intros x. cbn. tauto.
  - assert (Hstep : NoDup (uniq_step eq_dec acc a) /\
                    (forall x, In x (uniq_step eq_dec acc a) <->
                               In x acc \/ x = a)).
    { unfold uniq_step. destruct (in_dec eq_dec a acc) as [Hin | Hnin].
      - split; [assumption |]. intros x. split; [tauto |].
        intros [H | ->]; assumption.
      - split.
        + apply NoDup_app; [assumption | repeat constructor; cbn; tauto |].
          intros x Hx [-> | []]. contradiction.
        + intros x. rewrite in_app_iff. cbn. intuition congruence. }
    destruct Hstep as [Hnd' Hin'].
    destruct (IH _ Hnd') as [IH1 IH2].
    split; [assumption |].
    intros x. rewrite IH2, Hin'. cbn. intuition congruence.
Qed.

Lemma uniq_fold_fresh (l acc : list A) :
  NoDup l -> (forall x, In x l -> ~ In x acc) ->
  fold_left (uniq_step eq_dec) l acc = (acc ++ l)%list.
Proof.
  revert acc. induction l as [| a l IH]; intros acc Hnd Hfresh;
    cbn [fold_left].
  - now rewrite app_nil_r.
  - inversion Hnd as [| ? ? Hna Hnd']; subst.
    unfold uniq_step at 2.
    destruct (in_dec eq_dec a acc) as [Hin | Hnin].
    + exfalso. apply (Hfresh a); [now left | assumption].
    + rewrite IH; [now rewrite <- app_assoc | assumption |].
      intros x Hx Hacc. apply in_app_iff in Hacc.
      destruct Hacc as [Hacc | [-> | []]].
      * apply (Hfresh x); [now right | assumption].
      * contradiction.
Qed.

(** X5: [uniq] returns a list without repetition that has the items of its
    input; it changes nothing in a list without repetition, so applying it
    twice is applying it once. *)
Theorem uniq_spec (l : list A) :
  NoDup (uniq eq_dec l) /\
  (forall x, In x (uniq eq_dec l) <-> In x l) /\
  uniq eq_dec (uniq eq_dec l) = uniq eq_dec l /\
  (NoDup l -> uniq eq_dec l = l).
Proof.
  destruct (uniq_fold_invariant l [] (NoDup_nil A)) as [Hnd Hin].
  repeat split.
  - exact Hnd.
  - intros H. apply Hin in H. destruct H as [[] | H]. exact H.
  - intros H. apply Hin. now right.
  - unfold uniq at 1. now rewrite uniq_fold_fresh.
  - intros Hl. unfold uniq. now rewrite uniq_fold_fresh.
Qed.

End UniqFacts.

Lemma uniq_spec_witness :
  uniq Z.eq_dec [3; 1; 2]%Z = [3; 1; 2]%Z.
Proof.
  apply uniq_spec. repeat constructor; cbn; intuition discriminate.
Defined.

Lemma lower_ascii_idempotent (c : Ascii.ascii) :
  lower_ascii (lower_ascii c) = lower_ascii c.
Proof.
  destruct c as [[] [] [] [] [] [] [] []]; reflexivity.
Qed.

Lemma lower_idempotent (s : string) : lower (lower s) = lower s.
Proof.
  induction s as [| c s IH]; cbn; [reflexivity |].
  now rewrite lower_ascii_idempotent, IH.
Qed.

(** X6: on a non-empty string [str2boolean] never raises and does not look
    at the case of the letters; it returns [None], not a boolean, exactly
    when the lowered string is none of the six spellings.  The empty string
    raises [ValueError]. *)
Theorem str2boolean_strings (c : Ascii.ascii) (s : string) :
  let v := VStr (String c s) in
  str2boolean v = str2boolean (VStr (lower (String c s))) /\
  (str2boolean v = Ok (VBool true) \/ str2boolean v = Ok (VBool false) \/
   str2boolean v = Ok VNone) /\
  (str2boolean v = Ok VNone <->
   str_in (lower (String c s)) ["true"; "t"; "1"; "false"; "f"; "0"] =
     false) /\
  str2boolean (VStr "") = Raise ValueError.
Proof.
  cbv zeta. split; [| split; [| split; [| reflexivity]]].
  - cbn [lower]. unfold str2boolean.
    change (String (lower_ascii c) (lower s)) with (lower (String c s)).
    now rewrite lower_idempotent.
  - unfold str2boolean.
    destruct (str_in _ ["true"; "t"; "1"]); [now left |].
    destruct (str_in _ ["false"; "f"; "0"]); [right; now left |].
    right. now right.
  - unfold str2boolean. cbn [str_in].
    destruct (String.eqb _ "true"), (String.eqb _ "t"),
      (String.eqb _ "1"), (String.eqb _ "false"), (String.eqb _ "f"),
      (String.eqb _ "0"); cbn; split; intros H;
      try discriminate; reflexivity.
Qed.

(** ** utilities.py: SimpleMovingAverage *)

Lemma sma_call_step (o : SimpleMovingAverage.t) (n : R) :
  (0 < SimpleMovingAverage.window_size o)%Z ->
  (List.length (SimpleMovingAverage.data o) <=
   Z.to_nat (SimpleMovingAverage.window_size o))%nat ->
  let o' := snd (SimpleMovingAverage.call o n) in
  SimpleMovingAverage.window_size o' = SimpleMovingAverage.window_size o /\
  SimpleMovingAverage.data o' =
    last_items (Z.to_nat (SimpleMovingAverage.window_size o))
      (SimpleMovingAverage.data o ++ [n])%list /\
  (1 <= List.length (SimpleMovingAverage.data o') <=
   Z.to_nat (SimpleMovingAverage.window_size o))%nat.
Proof.
  intros Hw Hlen. unfold SimpleMovingAverage.call, last_items.
  set (d := (SimpleMovingAverage.data o ++ [n])%list).
  assert (Hd : List.length d = S (List.length (SimpleMovingAverage.data o))).
  { unfold d. rewrite length_app. cbn. lia. }
  destruct (SimpleMovingAverage.window_size o <? Z.of_nat (List.length d))%Z
    eqn:E.
  - apply Z.ltb_lt in E.
    cbn [snd fst SimpleMovingAverage.data SimpleMovingAverage.window_size].
    replace (List.length d - Z.to_nat (SimpleMovingAverage.window_size o))%nat
      with 1%nat by lia.
    assert (Htl : List.length (tl d) =
                  Z.to_nat (SimpleMovingAverage.window_size o)).
    { destruct d; cbn in *; lia. }
    split; [reflexivity |].
    split; [destruct d; reflexivity |].
    rewrite Htl. lia.
  - apply Z.ltb_ge in E.
    cbn [snd fst SimpleMovingAverage.data SimpleMovingAverage.window_size].
    replace (List.length d - Z.to_nat (SimpleMovingAverage.window_size o))%nat
      with 0%nat by lia.
    split; [reflexivity |].
    split; [reflexivity |].
    lia.
Qed.


(** X7: a call on an object that holds at most [window_size] items leaves
    the last [window_size] items of the old items followed by the new one,
    at least one and at most [window_size] of them, and returns their mean:
    the branch that returns 0.0 for an empty deque is never taken. *)
Theorem sma_call_window (o : SimpleMovingAverage.t) (n : R) :
  (0 < SimpleMovingAverage.window_size o)%Z ->
  (List.length (SimpleMovingAverage.data o) <=
   Z.to_nat (SimpleMovingAverage.window_size o))%nat ->
  let o' := snd (SimpleMovingAverage.call o n) in
  SimpleMovingAverage.data o' =
    last_items (Z.to_nat (SimpleMovingAverage.window_size o))
      (SimpleMovingAverage.data o ++ [n])%list /\
  (1 <= List.length (SimpleMovingAverage.data o') <=
   Z.to_nat (SimpleMovingAverage.window_size o))%nat /\
  fst (SimpleMovingAverage.call o n) =
    SimpleMovingAverage.sum (SimpleMovingAverage.data o') /
    INR (List.length (SimpleMovingAverage.data o')).
Proof.
  intros Hw Hlen.
  destruct (sma_call_step o n Hw Hlen) as (_ & Hdata & Hbound).
  split; [exact Hdata | split; [exact Hbound |]].
  clear Hdata. revert Hbound. unfold SimpleMovingAverage.call.
  set (d := (SimpleMovingAverage.data o ++ [n])%list).
  destruct (SimpleMovingAverage.window_size o <? Z.of_nat (List.length d))%Z;
    cbn [snd fst SimpleMovingAverage.data]; intros Hb.
  - assert (Htl : List.length (tl d) = (List.length d - 1)%nat)
      by (destruct d; cbn; lia).
    replace (Z.of_nat (List.length d) - 1 =? 0)%Z with false
      by (symmetry; apply Z.eqb_neq; lia).
    f_equal. rewrite INR_IZR_INZ. f_equal. lia.
  - replace (Z.of_nat (List.length d) =? 0)%Z with false
      by (symmetry; apply Z.eqb_neq; lia).
    now rewrite INR_IZR_INZ.
Qed.

Lemma sma_call_window_witness :
  let o := {| SimpleMovingAverage.window_size := 2;
              SimpleMovingAverage.data := [1; 2] |} in
  let o' := snd (SimpleMovingAverage.call o 3) in
  SimpleMovingAverage.data o' = last_items 2 ([1; 2] ++ [3])%list /\
  (1 <= List.length (SimpleMovingAverage.data o') <= 2)%nat /\
  fst (SimpleMovingAverage.call o 3) =
    SimpleMovingAverage.sum (SimpleMovingAverage.data o') /
    INR (List.length (SimpleMovingAverage.data o')).
Proof.
  apply (sma_call_window
           {| SimpleMovingAverage.window_size := 2;
              SimpleMovingAverage.data := [1; 2] |} 3);
    cbn; lia.
Defined.

Lemma last_items_step (w : nat) (l : list R) (n : R) (ns : list R) :
  last_items w (last_items w (l ++ [n]) ++ ns) =
  last_items w (l ++ n :: ns).
Proof.
  unfold last_items.
  replace (l ++ n :: ns)%list with ((l ++ [n]) ++ ns)%list
    by (rewrite <- app_assoc; reflexivity).
  set (m := (l ++ [n])%list).
  set (k := (List.length m - w)%nat).
  assert (Hcat : (skipn k m ++ ns)%list = skipn k (m ++ ns)%list).
  { rewrite skipn_app. replace (k - List.length m)%nat with 0%nat
      by (unfold k; lia). reflexivity. }
  rewrite Hcat, skipn_skipn. f_equal.
  rewrite length_skipn, !length_app. unfold k. lia.
Qed.

(** X8: after any stream of calls the deque holds the last [window_size]
    items of the old items followed by the stream, so once [window_size]
    values have been fed the earlier contents play no part. *)
Theorem sma_feed_window (o : SimpleMovingAverage.t) (ns : list R) :
  (0 < SimpleMovingAverage.window_size o)%Z ->
  (List.length (SimpleMovingAverage.data o) <=
   Z.to_nat (SimpleMovingAverage.window_size o))%nat ->
  SimpleMovingAverage.data (SimpleMovingAverage.feed o ns) =
  last_items (Z.to_nat (SimpleMovingAverage.window_size o))
    (SimpleMovingAverage.data o ++ ns)%list.
Proof.
  revert o. induction ns as [| n ns IH]; intros o Hw Hlen.
  - cbn. rewrite app_nil_r. unfold last_items.
    replace (_ - _)%nat with 0%nat by lia. reflexivity.
  - unfold SimpleMovingAverage.feed. cbn [fold_left].
    fold (SimpleMovingAverage.feed (snd (SimpleMovingAverage.call o n)) ns).
    destruct (sma_call_step o n Hw Hlen) as (Hws & Hdata & Hbound).
    rewrite IH; rewrite ?Hws; try assumption; try lia.
    rewrite Hdata. apply last_items_step.
Qed.

Lemma sma_feed_window_witness :
  SimpleMovingAverage.data
    (SimpleMovingAverage.feed
       {| SimpleMovingAverage.window_size := 3;
          SimpleMovingAverage.data := [5; 5; 5] |} [1; 2; 3; 4]) =
  last_items 3 ([5; 5; 5] ++ [1; 2; 3; 4])%list.
Proof.
  apply (sma_feed_window
           {| SimpleMovingAverage.window_size := 3;
              SimpleMovingAverage.data := [5; 5; 5] |} [1; 2; 3; 4]);
    cbn; lia.
Defined.

(** ** utilities.py: day_length and calculate_daylength *)

Lemma asin_in_range (x : R) : -1 <= x <= 1 -> Py.asin x = Ok (Ratan.asin x).
Proof.
  intros Hx. unfold Py.asin.
  rewrite (ltb_false x (-1)), (ltb_false 1 x) by lra. reflexivity.
Qed.

Lemma asin_out_of_range (x : R) :
  x < -1 \/ 1 < x -> Py.asin x = Raise ValueError.
Proof.
  intros [Hx | Hx]; unfold Py.asin.
  - now rewrite (ltb_true x (-1)).
  - rewrite (ltb_true 1 x) by assumption. now rewrite orb_true_r.
Qed.

Lemma sin_obliquity_bound : 0 < sin (23.5 * (PI / 180.0)) < 1.
Proof.
  pose proof PI_RGT_0 as Hpi.
  assert (H0 : 0 < 23.5 * (PI / 180.0)) by lra.
  assert (H1 : 23.5 * (PI / 180.0) < PI / 2) by lra.
  split.
  - apply sin_gt_0; lra.
  - assert (Hc : 0 < cos (23.5 * (PI / 180.0))) by (apply cos_gt_0; lra).
    pose proof (sin2_cos2 (23.5 * (PI / 180.0))) as Hsc.
    unfold Rsqr in Hsc.
    pose proof (SIN_bound (23.5 * (PI / 180.0))) as [_ Hle].
    destruct (Rle_lt_or_eq_dec _ _ Hle) as [Hlt | Heq]; [assumption |].
    rewrite Heq in Hsc. nra.
Qed.

Lemma declination_bound (q : R) :
  -1 < - sin (23.5 * (PI / 180.0)) * cos q < 1.
Proof.
  pose proof sin_obliquity_bound as [Hs0 Hs1].
  pose proof (COS_bound q) as [Hc0 Hc1]. nra.
Qed.

Lemma cos_asin_positive (x : R) : -1 < x < 1 -> 0 < cos (Ratan.asin x).
Proof.
  intros Hx. rewrite cos_asin by lra. apply sqrt_lt_R0.
  unfold Rsqr. nra.
Qed.

Lemma day_length_at_equator (doy yr_days : Z) :
  yr_days <> 0%Z -> day_length doy yr_days 0 = Ok 12.
Proof.
  intros Hy. unfold day_length. cbv zeta.
  rewrite div_ok by (now apply not_0_IZR). cbn [bind].
  set (q := 2.0 * PI * (IZR doy + 10.0) / IZR yr_days).
  pose proof (declination_bound q) as Hd.
  rewrite asin_in_range by lra. cbn [bind].
  pose proof (cos_asin_positive _ Hd) as Hc.
  replace (0 * (PI / 180.0)) with 0 by lra.
  rewrite sin_0, cos_0.
  rewrite div_ok by lra. cbn [bind].
  replace (0 * (- sin (23.5 * (PI / 180.0)) * cos q) /
           (1 * cos (Ratan.asin (- sin (23.5 * (PI / 180.0)) * cos q))))
    with 0 by (unfold Rdiv; ring).
  rewrite asin_in_range by lra. cbn [bind].
  rewrite asin_0. f_equal. lra.
Qed.

Lemma day_length_mirror (doy yr_days : Z) (latitude h : R) :
  day_length doy yr_days latitude = Ok h ->
  day_length doy yr_days (- latitude) = Ok (24 - h) /\ 0 <= h <= 24.
Proof.
  unfold day_length. cbv zeta.
  destruct (div _ (IZR yr_days)) as [q | e]; [cbn [bind] | discriminate].
  pose proof (declination_bound q) as Hd.
  rewrite asin_in_range by lra. cbn [bind].
  set (sindec := - sin (23.5 * (PI / 180.0)) * cos q) in *.
  set (b := cos (latitude * (PI / 180.0)) * cos (Ratan.asin sindec)).
  replace (- latitude * (PI / 180.0)) with (- (latitude * (PI / 180.0)))
    by lra.
  rewrite sin_neg, cos_neg. fold b.
  unfold div. destruct (eqb b 0); [discriminate |]. cbn [bind].
  replace (- sin (latitude * (PI / 180.0)) * sindec / b)
    with (- (sin (latitude * (PI / 180.0)) * sindec / b))
    by (unfold Rdiv; ring).
  set (r := sin (latitude * (PI / 180.0)) * sindec / b).
  unfold Py.asin.
  destruct (Rlt_dec r (-1)) as [Hlo | Hlo].
  { rewrite (ltb_true r (-1) Hlo). discriminate. }
  destruct (Rlt_dec 1 r) as [Hhi | Hhi].
  { rewrite (ltb_true 1 r Hhi), orb_true_r. discriminate. }
  rewrite (ltb_false r (-1)), (ltb_false 1 r) by lra.
  rewrite (ltb_false (- r) (-1)), (ltb_false 1 (- r)) by lra.
  cbn [orb bind]. intros H. injection H as <-.
  rewrite asin_opp.
  pose proof PI_RGT_0 as Hpi.
  pose proof (asin_bound r) as [Hb0 Hb1].
  split.
  - f_equal. rewrite Ropp_mult_distr_r_reverse. lra.
  - assert (Hx : -1 <= 2.0 / PI * Ratan.asin r <= 1).
    { split.
      - apply (Rmult_le_reg_r PI); [lra |].
        replace (2.0 / PI * Ratan.asin r * PI) with (2 * Ratan.asin r)
          by (replace 2.0 with 2 by lra; field; lra). lra.
      - apply (Rmult_le_reg_r PI); [lra |].
        replace (2.0 / PI * Ratan.asin r * PI) with (2 * Ratan.asin r)
          by (replace 2.0 with 2 by lra; field; lra). lra. }
    lra.
Qed.

Lemma day_length_mirror_error (doy yr_days : Z) (latitude : R) (e : exn) :
  day_length doy yr_days latitude = Raise e ->
  day_length doy yr_days (- latitude) = Raise e.
Proof.
  unfold day_length. cbv zeta.
  destruct (div _ (IZR yr_days)) as [q | e']; [cbn [bind] | trivial].
  pose proof (declination_bound q) as Hd.
  rewrite asin_in_range by lra. cbn [bind].
  set (sindec := - sin (23.5 * (PI / 180.0)) * cos q) in *.
  set (b := cos (latitude * (PI / 180.0)) * cos (Ratan.asin sindec)).
  replace (- latitude * (PI / 180.0)) with (- (latitude * (PI / 180.0)))
    by lra.
  rewrite sin_neg, cos_neg. fold b.
  unfold div. destruct (eqb b 0); [trivial |]. cbn [bind].
  replace (- sin (latitude * (PI / 180.0)) * sindec / b)
    with (- (sin (latitude * (PI / 180.0)) * sindec / b))
    by (unfold Rdiv; ring).
  set (r := sin (latitude * (PI / 180.0)) * sindec / b).
  unfold Py.asin.
  destruct (Rlt_dec r (-1)) as [Hlo | Hlo].
  { rewrite (ltb_true r (-1) Hlo).
    rewrite (ltb_true 1 (- r)) by lra. now rewrite orb_true_r. }
  destruct (Rlt_dec 1 r) as [Hhi | Hhi].
  { rewrite (ltb_true 1 r Hhi), orb_true_r.
    now rewrite (ltb_true (- r) (-1)) by lra. }
  rewrite (ltb_false r (-1)), (ltb_false 1 r) by lra.
  cbn [orb bind]. discriminate.
Qed.

(** X9: at the equator the day is 12 hours long on every day of a year of
    non-zero length; at opposite latitudes the day lengths add up to 24
    hours, each between 0 and 24, and an exception at one latitude is the
    same exception at the other. *)
Theorem day_length_symmetry (doy yr_days : Z) (latitude : R) :
  (yr_days <> 0%Z -> day_length doy yr_days 0 = Ok 12) /\
  match day_length doy yr_days latitude with
  | Ok h =>
      day_length doy yr_days (- latitude) = Ok (24 - h) /\ 0 <= h <= 24
  | Raise e => day_length doy yr_days (- latitude) = Raise e
  end.
Proof.
  split; [apply day_length_at_equator |].
  destruct (day_length doy yr_days latitude) as [h | e] eqn:E.
  - now apply day_length_mirror.
  - now apply day_length_mirror_error.
Qed.

Lemma day_length_symmetry_witness : day_length 172 365 0 = Ok 12.
Proof. apply (day_length_symmetry 172 365 0). discriminate. Defined.

Lemma comprehension_entries {A : Type} (f : Z -> result A) (ds : list Z)
  (l : list A) :
  comprehension f ds = Ok l ->
  List.length l = List.length ds /\
  forall i d, nth_error ds i = Some d ->
              exists v, nth_error l i = Some v /\ f d = Ok v.
Proof.
  revert l. induction ds as [| d ds IH]; intros l; cbn [comprehension].
  - intros H. injection H as <-. split; [reflexivity |].
    intros [| i] d H; discriminate.
  - destruct (f d) as [v | e] eqn:Hf; [cbn [bind] | discriminate].
    destruct (comprehension f ds) as [vs | e]; [cbn [bind] | discriminate].
    intros H. injection H as <-.
    destruct (IH vs eq_refl) as [Hlen Hnth].
    split; [cbn; now rewrite Hlen |].
    intros [| i] d' Hd; cbn in Hd |- *.
    + injection Hd as <-. now exists v.
    + now apply Hnth.
Qed.

Lemma comprehension_constant {A : Type} (f : Z -> result A) (ds : list Z)
  (v : A) :
  (forall d, In d ds -> f d = Ok v) ->
  comprehension f ds = Ok (List.repeat v (List.length ds)).
Proof.
  induction ds as [| d ds IH]; intros Hf; cbn; [reflexivity |].
  rewrite (Hf d) by now left. cbn [bind].
  rewrite IH by (intros; apply Hf; now right). reflexivity.
Qed.

Lemma xrange_length (n : Z) : List.length (xrange n) = Z.to_nat n.
Proof. unfold xrange. now rewrite length_map, length_seq. Qed.

Lemma xrange_nth (n d : Z) :
  (0 <= d < n)%Z -> nth_error (xrange n) (Z.to_nat d) = Some d.
Proof.
  intros Hd. unfold xrange.
  rewrite nth_error_map, nth_error_seq.
  replace (Z.to_nat d <? Z.to_nat n)%nat with true
    by (symmetry; apply Nat.ltb_lt; lia).
  cbn. f_equal. lia.
Qed.

(** X10: [calculate_daylength] returns one entry per day of the year, entry
    [d] being [day_length(d + 1, ...)]; a year length of zero or less gives
    the empty list without any call to [day_length]; at the equator every
    entry is 12. *)
Theorem calculate_daylength_entries (yr_days : Z) (latitude : R) :
  ((yr_days <= 0)%Z -> calculate_daylength yr_days latitude = Ok []) /\
  calculate_daylength yr_days 0 = Ok (List.repeat 12 (Z.to_nat yr_days)) /\
  (forall l, calculate_daylength yr_days latitude = Ok l ->
     List.length l = Z.to_nat yr_days /\
     forall d, (0 <= d < yr_days)%Z ->
       exists h, nth_error l (Z.to_nat d) = Some h /\
                 day_length (d + 1) yr_days latitude = Ok h).
Proof.
  unfold calculate_daylength. repeat split.
  - intros Hy. unfold xrange.
    replace (Z.to_nat yr_days) with 0%nat by lia. reflexivity.
  - rewrite <- xrange_length. apply comprehension_constant.
    intros d Hd. apply day_length_at_equator.
    intros ->. cbn in Hd. contradiction.
  - apply comprehension_entries in H. destruct H as [Hlen _].
    now rewrite Hlen, xrange_length.
  - intros d Hd. apply comprehension_entries in H. destruct H as [_ Hnth].
    exact (Hnth _ _ (xrange_nth yr_days d Hd)).
Qed.

Lemma calculate_daylength_entries_witness :
  calculate_daylength (-1) 45 = Ok [].
Proof. apply (proj1 (calculate_daylength_entries (-1) 45)). lia. Defined.

(** ** water_balance.py: the evaporation models *)

Lemma penman_monteith_open (self : PenmanMonteith.t)
  (vpd wind gs net_rad tavg ga p : R) (press canht : option R) :
  0 < PenmanMonteith.cp self -> 0 < PenmanMonteith.epsilon self ->
  temperature_domain tavg ->
  PenmanMonteith.resolve_press self press = Ok p -> 0 < p ->
  0 < gs -> 0 <= ga ->
  PenmanMonteith.calc_evaporation self vpd wind gs net_rad tavg press canht
    (Some ga) =
  Ok ((slope_value tavg * net_rad +
       PenmanMonteith.calc_density_of_air self tavg *
         PenmanMonteith.cp self * vpd * ga) /
      (slope_value tavg + gamma_value self tavg p * (1.0 + ga / gs)) /
      PenmanMonteith.calc_latent_heat_of_vapourisation self tavg,
      (slope_value tavg / gamma_value self tavg p + 1.0) /
      (slope_value tavg / gamma_value self tavg p + 1.0 + ga / gs)).
Proof.
  intros Hcp Heps Ht Hpress Hp Hgs Hga.
  unfold PenmanMonteith.calc_evaporation.
  rewrite Hpress. cbn [bind].
  rewrite (calc_gamma_value self Heps tavg Ht). cbn [bind].
  rewrite (calc_slope_value self tavg Ht). cbn [bind].
  rewrite float_gt_zero, (ltb_true 0 gs Hgs).
  pose proof (slope_value_positive tavg) as Hs.
  pose proof (gamma_value_positive self Hcp Heps tavg Ht p Hp) as Hg.
  pose proof (latent_heat_positive self tavg Ht) as Hl.
  assert (Hr : 0 <= ga / gs).
  { apply Rmult_le_pos; [assumption |]. left. now apply Rinv_0_lt_compat. }
  assert (He : 0 < slope_value tavg / gamma_value self tavg p)
    by now apply Rdiv_lt_0_compat.
  rewrite (div_ok (slope_value tavg)) by lra. cbn [bind].
  rewrite (div_ok ga gs) by lra. cbn [bind].
  rewrite div_ok by lra. cbn [bind].
  rewrite div_ok by nra. cbn [bind].
  rewrite div_ok by lra. reflexivity.
Qed.

(** X11: with open stomata and a zero aerodynamic conductance the full model
    returns the equilibrium rate of [Penman], with a decoupling coefficient
    of 1. *)
Theorem penman_monteith_calm_is_equilibrium (self : PenmanMonteith.t)
  (vpd wind gs net_rad tavg : R) (press canht : option R) :
  0 < PenmanMonteith.cp self -> 0 < PenmanMonteith.epsilon self ->
  temperature_domain tavg -> pressure_domain self press -> 0 < gs ->
  exists e,
    Penman.calc_evaporation self net_rad tavg press = Ok e /\
    PenmanMonteith.calc_evaporation self vpd wind gs net_rad tavg press canht
      (Some 0) = Ok (e, 1).
Proof.
  intros Hcp Heps Ht Hpress Hgs.
  destruct (resolve_press_positive self press Hpress) as (p & Hp & Hppos).
  pose proof (slope_value_positive tavg) as Hs.
  pose proof (gamma_value_positive self Hcp Heps tavg Ht p Hppos) as Hg.
  pose proof (latent_heat_positive self tavg Ht) as Hl.
  eexists. split.
  - exact (penman_value self Hcp Heps tavg Ht net_rad p press Hp Hppos).
  - rewrite (penman_monteith_open self vpd wind gs net_rad tavg 0 p press
               canht Hcp Heps Ht Hp Hppos Hgs (Rle_refl 0)).
    assert (He : 0 < slope_value tavg / gamma_value self tavg p)
      by now apply Rdiv_lt_0_compat.
    f_equal. f_equal.
    + replace 1.0 with 1 by lra. field. repeat split; nra.
    + replace (0 / gs) with 0 by (unfold Rdiv; ring).
      rewrite Rplus_0_r. unfold Rdiv at 1. apply Rinv_r. lra.
Qed.

(** X12: with open stomata and [ga >= 0] the decoupling coefficient lies in
    (0, 1], and the rate is not negative when net radiation and deficit are
    not negative and the air density term is not (up to 301 degC). *)
Theorem penman_monteith_decoupling_bounds (self : PenmanMonteith.t)
  (vpd wind gs net_rad tavg ga : R) (press canht : option R) :
  0 < PenmanMonteith.cp self -> 0 < PenmanMonteith.epsilon self ->
  temperature_domain tavg -> pressure_domain self press ->
  0 < gs -> 0 <= ga ->
  exists et om,
    PenmanMonteith.calc_evaporation self vpd wind gs net_rad tavg press canht
      (Some ga) = Ok (et, om) /\
    0 < om <= 1 /\
    (0 <= net_rad -> 0 <= vpd -> tavg <= 301 -> 0 <= et).
Proof.
  intros Hcp Heps Ht Hpress Hgs Hga.
  destruct (resolve_press_positive self press Hpress) as (p & Hp & Hppos).
  pose proof (slope_value_positive tavg) as Hs.
  pose proof (gamma_value_positive self Hcp Heps tavg Ht p Hppos) as Hg.
  pose proof (latent_heat_positive self tavg Ht) as Hl.
  assert (Hr : 0 <= ga / gs).
  { apply Rmult_le_pos; [assumption |]. left. now apply Rinv_0_lt_compat. }
  assert (He : 0 < slope_value tavg / gamma_value self tavg p)
    by now apply Rdiv_lt_0_compat.
  do 2 eexists. split.
  - exact (penman_monteith_open self vpd wind gs net_rad tavg ga p press
             canht Hcp Heps Ht Hp Hppos Hgs Hga).
  - split.
    + split.
      * apply Rdiv_lt_0_compat; lra.
      * apply (Rmult_le_reg_r
                 (slope_value tavg / gamma_value self tavg p + 1.0 + ga / gs));
          [lra |].
        unfold Rdiv at 1. rewrite Rmult_assoc, Rinv_l by lra. lra.
    + intros Hnr Hvpd Htav.
      assert (Hrho : 0 <= PenmanMonteith.calc_density_of_air self tavg)
        by (unfold PenmanMonteith.calc_density_of_air; lra).
      apply Rmult_le_pos; [| left; now apply Rinv_0_lt_compat].
      apply Rmult_le_pos; [| left; apply Rinv_0_lt_compat; nra].
      assert (0 <= PenmanMonteith.calc_density_of_air self tavg *
                   PenmanMonteith.cp self * vpd * ga).
      { repeat apply Rmult_le_pos; lra. }
      nra.
Qed.

(** X13: [invert_penman] undoes [calc_evaporation]: given the rate computed
    for a conductance [gs > 0], with [ga > 0] and a non-zero numerator, it
    returns [gs]. *)
Theorem invert_penman_round_trip (self : PenmanMonteith.t)
  (vpd wind gs net_rad tavg ga : R) (press canht : option R) :
  0 < PenmanMonteith.cp self -> 0 < PenmanMonteith.epsilon self ->
  temperature_domain tavg -> pressure_domain self press ->
  0 < gs -> 0 < ga ->
  slope_value tavg * net_rad +
  PenmanMonteith.calc_density_of_air self tavg * PenmanMonteith.cp self *
    vpd * ga <> 0 ->
  exists et om,
    PenmanMonteith.calc_evaporation self vpd wind gs net_rad tavg press canht
      (Some ga) = Ok (et, om) /\
    PenmanMonteith.invert_penman self vpd wind net_rad tavg press et ga =
      Ok gs.
Proof.
  intros Hcp Heps Ht Hpress Hgs Hga Hnum.
  destruct (resolve_press_positive self press Hpress) as (p & Hp & Hppos).
  pose proof (slope_value_positive tavg) as Hs.
  pose proof (gamma_value_positive self Hcp Heps tavg Ht p Hppos) as Hg.
  pose proof (latent_heat_positive self tavg Ht) as Hl.
  do 2 eexists. split.
  - exact (penman_monteith_open self vpd wind gs net_rad tavg ga p press
             canht Hcp Heps Ht Hp Hppos Hgs (Rlt_le _ _ Hga)).
  - unfold PenmanMonteith.invert_penman. rewrite Hp. cbn [bind].
    rewrite (calc_gamma_value self Heps tavg Ht). cbn [bind].
    rewrite (calc_slope_value self tavg Ht). cbn [bind].
    set (s := slope_value tavg) in *.
    set (g := gamma_value self tavg p) in *.
    set (l := PenmanMonteith.calc_latent_heat_of_vapourisation self tavg) in *.
    set (rho := PenmanMonteith.calc_density_of_air self tavg) in *.
    set (cp := PenmanMonteith.cp self) in *.
    set (N := s * net_rad + rho * cp * vpd * ga) in *.
    assert (HA : 0 < s * gs + g * gs + g * ga) by nra.
    replace 1.0 with 1 by lra.
    assert (Harg2 :
      s * net_rad - (s + g) * (N / (s + g * (1 + ga / gs)) / l * l) +
      ga * rho * cp * vpd =
      N * g * ga / (s * gs + g * gs + g * ga)).
    { unfold N. field. repeat split; lra. }
    rewrite Harg2.
    assert (Hnz : N * g * ga / (s * gs + g * gs + g * ga) <> 0).
    { apply Rmult_integral_contrapositive_currified.
      - apply Rmult_integral_contrapositive_currified; [| lra].
        apply Rmult_integral_contrapositive_currified; [exact Hnum | lra].
      - apply Rinv_neq_0_compat. lra. }
    rewrite div_ok by exact Hnz.
    f_equal. field. repeat split; try lra.
Qed.

Lemma penman_monteith_calm_is_equilibrium_witness :
  exists e,
    Penman.calc_evaporation PenmanMonteith.default 0.0004 20 (Some 100) =
      Ok e /\
    PenmanMonteith.calc_evaporation PenmanMonteith.default 1 2 0.005 0.0004 20
      (Some 100) (Some 20) (Some 0) = Ok (e, 1).
Proof.
  apply (penman_monteith_calm_is_equilibrium PenmanMonteith.default 1 2 0.005
           0.0004 20 (Some 100) (Some 20));
    unfold temperature_domain; cbn; lra.
Defined.

Lemma penman_monteith_decoupling_bounds_witness :
  exists et om,
    PenmanMonteith.calc_evaporation PenmanMonteith.default 1 2 0.005 0.0004 20
      (Some 100) (Some 20) (Some 0.1) = Ok (et, om) /\
    0 < om <= 1 /\
    (0 <= 0.0004 -> 0 <= 1 -> 20 <= 301 -> 0 <= et).
Proof.
  apply (penman_monteith_decoupling_bounds PenmanMonteith.default 1 2 0.005
           0.0004 20 0.1 (Some 100) (Some 20));
    unfold temperature_domain; cbn; lra.
Defined.

Lemma invert_penman_round_trip_witness :
  exists et om,
    PenmanMonteith.calc_evaporation PenmanMonteith.default 1 2 0.005 0 20
      (Some 100) (Some 20) (Some 0.1) = Ok (et, om) /\
    PenmanMonteith.invert_penman PenmanMonteith.default 1 2 0 20 (Some 100)
      et 0.1 = Ok 0.005.
Proof.
  apply (invert_penman_round_trip PenmanMonteith.default 1 2 0.005 0 20 0.1
           (Some 100) (Some 20));
    unfold temperature_domain, PenmanMonteith.calc_density_of_air;
    cbn; lra.
Defined.

(** X14: for the same radiation, temperature and pressure reading the
    Priestley-Taylor rate is the coefficient times the equilibrium rate of
    [Penman]. *)
Theorem priestley_taylor_scales_penman (self : PenmanMonteith.t)
  (net_rad tavg p pt_coeff : R) :
  0 < PenmanMonteith.cp self -> 0 < PenmanMonteith.epsilon self ->
  temperature_domain tavg -> 0 < p ->
  exists e,
    Penman.calc_evaporation self net_rad tavg (Some p) = Ok e /\
    PriestleyTaylor.calc_evaporation self net_rad tavg (Some p) pt_coeff =
      Ok (pt_coeff * e).
Proof.
  intros Hcp Heps Ht Hp.
  pose proof (slope_value_positive tavg) as Hs.
  pose proof (gamma_value_positive self Hcp Heps tavg Ht p Hp) as Hg.
  pose proof (latent_heat_positive self tavg Ht) as Hl.
  eexists. split.
  - exact (penman_value self Hcp Heps tavg Ht net_rad p (Some p) eq_refl Hp).
  - rewrite (priestley_taylor_value self Hcp Heps tavg Ht net_rad p pt_coeff
               Hp).
    f_equal. field. split; lra.
Qed.

Lemma priestley_taylor_scales_penman_witness :
  exists e,
    Penman.calc_evaporation PenmanMonteith.default 0.0004 20 (Some 100) =
      Ok e /\
    PriestleyTaylor.calc_evaporation PenmanMonteith.default 0.0004 20
      (Some 100) 1.26 = Ok (1.26 * e).
Proof.
  apply (priestley_taylor_scales_penman PenmanMonteith.default 0.0004 20 100
           1.26);
    unfold temperature_domain; cbn; lra.
Defined.

Lemma priestley_taylor_no_pressure (self : PenmanMonteith.t)
  (net_rad tavg pt_coeff : R) :
  PriestleyTaylor.calc_evaporation self net_rad tavg None pt_coeff =
  Raise TypeError.
Proof. reflexivity. Qed.




Lemma canopy_conductance_same_height (self : PenmanMonteith.t)
  (wind c1 c2 : R) :
  c1 <> 0 -> c2 <> 0 ->
  PenmanMonteith.canopy_boundary_layer_conductance self wind (Some c1) =
  PenmanMonteith.canopy_boundary_layer_conductance self wind (Some c2).
Proof.
  intros H1 H2. unfold PenmanMonteith.canopy_boundary_layer_conductance.
  cbn [as_float bind]. cbv zeta.
  destruct (pow (PenmanMonteith.vk self) 2) as [v2 | e];
    [cbn [bind] | reflexivity].
  assert (Hm : forall c, c <> 0 ->
    div (c - PenmanMonteith.displace_ratio self * c)
        (PenmanMonteith.dz0v_dh self * c) =
    div (1 - PenmanMonteith.displace_ratio self)
        (PenmanMonteith.dz0v_dh self)).
  { intros c Hc. unfold div.
    destruct (Req_dec_T (PenmanMonteith.dz0v_dh self) 0) as [Hz | Hz].
    - rewrite Hz, Rmult_0_l. now rewrite eqb_true.
    - rewrite !eqb_false by (try assumption; nra).
      f_equal. field. split; assumption. }
  assert (Hh : forall c, c <> 0 ->
    div (c - PenmanMonteith.displace_ratio self * c)
        (PenmanMonteith.z0h_z0m self * (PenmanMonteith.dz0v_dh self * c)) =
    div (1 - PenmanMonteith.displace_ratio self)
        (PenmanMonteith.z0h_z0m self * PenmanMonteith.dz0v_dh self)).
  { intros c Hc. unfold div.
    destruct (Req_dec_T (PenmanMonteith.z0h_z0m self *
                         PenmanMonteith.dz0v_dh self) 0) as [Hz | Hz].
    - replace (PenmanMonteith.z0h_z0m self *
               (PenmanMonteith.dz0v_dh self * c))
        with (PenmanMonteith.z0h_z0m self * PenmanMonteith.dz0v_dh self * c)
        by ring.
      rewrite Hz, Rmult_0_l. now rewrite eqb_true.
    - assert (Hzh : PenmanMonteith.z0h_z0m self <> 0)
        by (intros H0; apply Hz; rewrite H0; ring).
      assert (Hdz : PenmanMonteith.dz0v_dh self <> 0)
        by (intros H0; apply Hz; rewrite H0; ring).
      rewrite (eqb_false _ 0 Hz).
      rewrite eqb_false
        by (repeat apply Rmult_integral_contrapositive_currified;
            assumption).
      f_equal. field. repeat split; assumption. }
  now rewrite (Hm c1 H1), (Hm c2 H2), (Hh c1 H1), (Hh c2 H2).
Qed.

Lemma Int_part_two : Int_part 2 = 2%Z.
Proof. symmetry. apply Int_part_spec. lra. Qed.

Lemma pow_square (x : R) : pow x 2 = Ok (x * x).
Proof.
  unfold pow. rewrite (eqb_false 2 0) by lra.
  destruct (Req_dec_T x 0) as [-> | Hx].
  - rewrite eqb_true, (ltb_false 2 0) by lra. f_equal. ring.
  - rewrite (eqb_false x 0 Hx).
    destruct (Rlt_dec x 0) as [Hneg | Hpos].
    + rewrite (ltb_true x 0 Hneg). unfold is_integer.
      rewrite Int_part_two, eqb_true. f_equal. simpl. ring.
    + rewrite (ltb_false x 0) by lra. f_equal.
      replace 2 with (INR 2) by (simpl; lra).
      rewrite Rpower_pow by lra. simpl. ring.
Qed.

Lemma canopy_conductance_no_height (self : PenmanMonteith.t) (wind : R) :
  PenmanMonteith.canopy_boundary_layer_conductance self wind None =
    Raise TypeError /\
  PenmanMonteith.canopy_boundary_layer_conductance self wind (Some 0) =
    Raise ZeroDivisionError.
Proof.
  split; [reflexivity |].
  unfold PenmanMonteith.canopy_boundary_layer_conductance.
  cbn [as_float bind]. cbv zeta. rewrite pow_square. cbn [bind].
  unfold div at 1.
  replace (PenmanMonteith.dz0v_dh self * 0) with 0 by ring.
  now rewrite eqb_true.
Qed.

Lemma canopy_conductance_wind (self : PenmanMonteith.t) (wind k : R)
  (canht : option R) :
  match PenmanMonteith.canopy_boundary_layer_conductance self wind canht with
  | Ok g =>
      PenmanMonteith.canopy_boundary_layer_conductance self (k * wind) canht =
      Ok (k * g)
  | Raise e =>
      PenmanMonteith.canopy_boundary_layer_conductance self (k * wind) canht =
      Raise e
  end.
Proof.
  unfold PenmanMonteith.canopy_boundary_layer_conductance.
  destruct canht as [c |]; [cbn [as_float bind] | reflexivity]. cbv zeta.
  rewrite pow_square. cbn [bind].
  destruct (div _ (PenmanMonteith.dz0v_dh self * c)) as [q2 | e];
    [cbn [bind] | reflexivity].
  destruct (log q2) as [a2 | e]; [cbn [bind] | reflexivity].
  destruct (div _ (PenmanMonteith.z0h_z0m self * _)) as [q3 | e];
    [cbn [bind] | reflexivity].
  destruct (log q3) as [a3 | e]; [cbn [bind] | reflexivity].
  unfold div. destruct (eqb (a2 * a3) 0) eqn:E; [reflexivity |].
  f_equal. unfold Rdiv. ring.
Qed.


(** X16: the boundary-layer conductance is the same for every non-zero canopy
    height, since the roughness lengths and the displacement are all
    proportional to it; it is proportional to the wind speed, and an
    exception does not depend on the wind; a zero height raises
    [ZeroDivisionError] and a missing one [TypeError]. *)
Theorem canopy_conductance_height_and_wind (self : PenmanMonteith.t)
  (wind k c1 c2 : R) (canht : option R) :
  (c1 <> 0 -> c2 <> 0 ->
   PenmanMonteith.canopy_boundary_layer_conductance self wind (Some c1) =
   PenmanMonteith.canopy_boundary_layer_conductance self wind (Some c2)) /\
  match PenmanMonteith.canopy_boundary_layer_conductance self wind canht with
  | Ok g =>
      PenmanMonteith.canopy_boundary_layer_conductance self (k * wind) canht =
      Ok (k * g)
  | Raise e =>
      PenmanMonteith.canopy_boundary_layer_conductance self (k * wind) canht =
      Raise e
  end /\
  PenmanMonteith.canopy_boundary_layer_conductance self wind None =
    Raise TypeError /\
  PenmanMonteith.canopy_boundary_layer_conductance self wind (Some 0) =
    Raise ZeroDivisionError.
Proof.
  split; [apply canopy_conductance_same_height |].
  split; [apply canopy_conductance_wind |].
  apply canopy_conductance_no_height.
Qed.

Lemma canopy_conductance_height_and_wind_witness :
  PenmanMonteith.canopy_boundary_layer_conductance PenmanMonteith.default 2
    (Some 10) =
  PenmanMonteith.canopy_boundary_layer_conductance PenmanMonteith.default 2
    (Some 20).
Proof.
  apply (proj1 (canopy_conductance_height_and_wind PenmanMonteith.default 2 1
                  10 20 None)); lra.
Defined.

Lemma atmos_pressure_profile (self : PenmanMonteith.t) :
  let z := PenmanMonteith.zele_sea self in
  (z = 0 -> PenmanMonteith.calc_atmos_pressure self = Ok 101.3) /\
  (0.0065 * z < 293.0 ->
   exists p, PenmanMonteith.calc_atmos_pressure self = Ok p /\ 0 < p /\
             (0 < z -> p < 101.3)) /\
  (293.0 < 0.0065 * z ->
   PenmanMonteith.calc_atmos_pressure self = Raise ValueError).
Proof.
  cbv zeta. unfold PenmanMonteith.calc_atmos_pressure.
  set (z := PenmanMonteith.zele_sea self).
  repeat split.
  - intros Hz. rewrite Hz.
    replace ((293.0 - 0.0065 * 0) / 293.0) with 1 by lra.
    rewrite pow_positive_base by lra. cbn [bind].
    unfold Rpower. rewrite ln_1, Rmult_0_r, exp_0. f_equal. lra.
  - intros Hz. rewrite pow_positive_base by lra. cbn [bind].
    eexists. split; [reflexivity |].
    pose proof (Rpower_positive ((293.0 - 0.0065 * z) / 293.0) 5.26) as Hp.
    split; [lra |].
    intros Hpos.
    assert (Hlt : Rpower ((293.0 - 0.0065 * z) / 293.0) 5.26 < Rpower 1 5.26)
      by (apply Rlt_Rpower_l; lra).
    unfold Rpower at 2 in Hlt. rewrite ln_1, Rmult_0_r, exp_0 in Hlt. lra.
  - intros Hz. unfold pow.
    rewrite (eqb_false 5.26 0) by lra.
    rewrite eqb_false by lra. rewrite ltb_true by lra.
    unfold is_integer.
    replace (Int_part 5.26) with 5%Z
      by (apply Int_part_spec; lra).
    rewrite eqb_false by lra. reflexivity.
Qed.

Lemma pressure_decreases (s1 s2 : PenmanMonteith.t) (p1 p2 : R) :
  PenmanMonteith.zele_sea s1 < PenmanMonteith.zele_sea s2 ->
  0.0065 * PenmanMonteith.zele_sea s2 < 293.0 ->
  PenmanMonteith.calc_atmos_pressure s1 = Ok p1 ->
  PenmanMonteith.calc_atmos_pressure s2 = Ok p2 ->
  p2 < p1.
Proof.
  intros Hz Hdom. unfold PenmanMonteith.calc_atmos_pressure.
  rewrite !pow_positive_base by lra. cbn [bind].
  intros H1 H2. injection H1 as <-. injection H2 as <-.
  assert (Rpower ((293.0 - 0.0065 * PenmanMonteith.zele_sea s2) / 293.0) 5.26
          < Rpower ((293.0 - 0.0065 * PenmanMonteith.zele_sea s1) / 293.0)
              5.26)
    by (apply Rlt_Rpower_l; lra).
  lra.
Qed.

(** X17: the standard pressure is 101.3 kPa at sea level, positive and
    below 101.3 above it up to 293 / 0.0065 m, and strictly lower at a higher
    elevation; above that height the call raises [ValueError], a negative
    number to a fractional power. *)
Theorem calc_atmos_pressure_profile (self higher : PenmanMonteith.t) :
  let z := PenmanMonteith.zele_sea self in
  (z = 0 -> PenmanMonteith.calc_atmos_pressure self = Ok 101.3) /\
  (0.0065 * z < 293.0 ->
   exists p, PenmanMonteith.calc_atmos_pressure self = Ok p /\ 0 < p /\
             (0 < z -> p < 101.3)) /\
  (293.0 < 0.0065 * z ->
   PenmanMonteith.calc_atmos_pressure self = Raise ValueError) /\
  (z < PenmanMonteith.zele_sea higher ->
   0.0065 * PenmanMonteith.zele_sea higher < 293.0 ->
   exists p p',
     PenmanMonteith.calc_atmos_pressure self = Ok p /\
     PenmanMonteith.calc_atmos_pressure higher = Ok p' /\ p' < p).
Proof.
  cbv zeta.
  destruct (atmos_pressure_profile self) as (H0 & Hdom & Hhigh).
  split; [exact H0 | split; [exact Hdom | split; [exact Hhigh |]]].
  intros Hz Hd.
  destruct (Hdom ltac:(lra)) as (p & Hp & _).
  destruct (atmos_pressure_profile higher) as (_ & Hdom' & _).
  destruct (Hdom' Hd) as (p' & Hp' & _).
  exists p, p'. split; [exact Hp | split; [exact Hp' |]].
  exact (pressure_decreases self higher p p' Hz Hd Hp Hp').
Qed.

Lemma calc_atmos_pressure_profile_witness :
  exists p,
    PenmanMonteith.calc_atmos_pressure PenmanMonteith.default = Ok p /\
    0 < p /\
    (0 < PenmanMonteith.zele_sea PenmanMonteith.default -> p < 101.3).
Proof.
  apply (calc_atmos_pressure_profile PenmanMonteith.default
           PenmanMonteith.default).
  cbn. lra.
Defined.

(** X18: the net radiation is never negative for a positive day length, and
    is zero when the absorbed shortwave does not exceed the longwave loss; a
    day length of zero raises [ZeroDivisionError]. *)
Theorem calc_radiation_sign (const : Constants) (self : WaterBalance.t)
  (s : Store) (tavg sw_rad daylen : R) :
  (daylen = 0 ->
   WaterBalance.calc_radiation const self s tavg sw_rad daylen =
   Raise ZeroDivisionError) /\
  (0 < daylen ->
   exists nr,
     WaterBalance.calc_radiation const self s tavg sw_rad daylen = Ok nr /\
     0 <= nr /\
     (sw_rad * (1.0 - albedo (params s)) <=
      (107.0 - 0.3 * tavg) * daylen * WATT_HR_TO_MJ const -> nr = 0)).
Proof.
  unfold WaterBalance.calc_radiation. cbv zeta. split.
  - intros ->. replace (60.0 * 60.0 * 0) with 0 by lra.
    now rewrite div_zero.
  - intros Hd. rewrite div_ok by lra. cbn [bind].
    eexists. split; [reflexivity |].
    rewrite max_Rmax.
    assert (Hc : 0 < 1.0 / (60.0 * 60.0 * daylen))
      by (apply Rdiv_lt_0_compat; lra).
    split.
    + apply Rmult_le_pos; [| lra].
      replace 0 with 0.0 at 1 by lra. apply Rmax_l.
    + intros Hle. rewrite Rmax_left by lra. lra.
Qed.

Lemma calc_radiation_sign_witness :
  exists nr,
    WaterBalance.calc_radiation Sample.constants0 Sample.wb0
      Sample.drained_to_zero 20 20 12 = Ok nr /\
    0 <= nr /\
    (20 * (1.0 - albedo (params Sample.drained_to_zero)) <=
     (107.0 - 0.3 * 20) * 12 * WATT_HR_TO_MJ Sample.constants0 -> nr = 0).
Proof.
  apply (calc_radiation_sign Sample.constants0 Sample.wb0
           Sample.drained_to_zero 20 20 12).
  lra.
Defined.

(** X19: the water-use-efficiency transpiration never raises: it is
    [gpp_gCm2 / wue] for a positive [wue] and zero otherwise, and nothing but
    the fluxes is written. *)
Theorem calc_transpiration_guarded (self : WaterBalance.t) (s : Store) :
  exists s',
    WaterBalance.calc_transpiration self s = (Ok tt, s') /\
    state s' = state s /\ params s' = params s /\
    (0 < wue (fluxes s) ->
     transpiration (fluxes s') = gpp_gCm2 (fluxes s) / wue (fluxes s)) /\
    (wue (fluxes s) <= 0 -> transpiration (fluxes s') = 0).
Proof.
  unfold WaterBalance.calc_transpiration. unfold_method.
  rewrite float_gt_zero.
  destruct (Rlt_dec 0 (wue (fluxes s))) as [Hw | Hw].
  - rewrite (ltb_true _ _ Hw). rewrite div_ok by lra.
    eexists. split; [reflexivity |]. cbn.
    repeat split; intros; try reflexivity; lra.
  - rewrite ltb_false by lra.
    eexists. split; [reflexivity |]. cbn.
    repeat split; intros; try reflexivity; lra.
Qed.

Lemma calc_transpiration_guarded_witness :
  exists s',
    WaterBalance.calc_transpiration Sample.wb0 Sample.drained_to_zero =
      (Ok tt, s') /\
    transpiration (fluxes s') = 0.
Proof.
  destruct (calc_transpiration_guarded Sample.wb0 Sample.drained_to_zero)
    as (s' & Hs' & _ & _ & _ & Hzero).
  exists s'. split; [exact Hs' |]. apply Hzero. cbn. lra.
Defined.

(** ** water_balance.py: the daily call *)

Lemma calc_transpiration_penmon_raises (const : Constants)
  (self : WaterBalance.t) (vpd net_rad tavg wind ca daylen : R)
  (press : option R) (s : Store) :
  exists e,
    WaterBalance.calc_transpiration_penmon const self vpd net_rad tavg wind ca
      daylen press s = (Raise e, s).
Proof.
  unfold WaterBalance.calc_transpiration_penmon. cbv zeta.
  unfold mbind, reads.
  destruct (div 1.0 _) as [d2s | e]; [| now exists e].
  destruct (WaterBalance.calc_stomatal_conductance _ _ _ _ _ _ _ _ _)
    as [gs | e]; [| now exists e].
  destruct (WaterBalance.mol_sec_2_m_per_sec _ _ _) as [m | e];
    [| now exists e].
  destruct (div 1.0 m) as [m' | e]; [| now exists e].
  now exists TypeError.
Qed.

(** X20: a daily call under [trans_model = 1] and [assim_model = "BEWDY"]
    never returns: [calc_transpiration_penmon] calls
    [canopy_boundary_layer_conductance] with one argument too few, so every
    input ends in an exception, raised before anything is written. *)
Theorem bewdy_path_always_raises (const : Constants) (self : WaterBalance.t)
  (day : Z) (daylen : R) (s : Store) :
  trans_model (control s) = 1%Z -> assim_model (control s) = "BEWDY" ->
  exists e,
    WaterBalance.calculate_water_balance const self day daylen s =
    (Raise e, s).
Proof.
  intros Htm Ham.
  unfold WaterBalance.calculate_water_balance. cbv zeta.
  unfold mbind, reads.
  destruct (WaterBalance.get_met_data self day daylen) as [md | e];
    [| now exists e].
  destruct (WaterBalance.calc_radiation const self s _ _ daylen)
    as [nrd | e]; [| now exists e].
  destruct (WaterBalance.calc_radiation const self s (WaterBalance.tair_am md)
              _ _) as [nra | e]; [| now exists e].
  destruct (WaterBalance.calc_radiation const self s (WaterBalance.tair_pm md)
              _ _) as [nrp | e]; [| now exists e].
  unfold WaterBalance.transpiration_step. unfold_method.
  rewrite Htm. change ((1 =? 0)%Z) with false.
  change ((1 =? 1)%Z) with true. cbv beta iota.
  rewrite Ham. change ("BEWDY" =? "BEWDY")%string with true. cbv iota.
  destruct (calc_transpiration_penmon_raises const self
              (WaterBalance.vpd_day md) nrd (WaterBalance.tair_day md)
              (WaterBalance.wind_day md) (WaterBalance.ca md) daylen
              (WaterBalance.press md) s) as (e & He).
  rewrite He. now exists e.
Qed.

Lemma bewdy_path_always_raises_witness :
  exists e,
    WaterBalance.calculate_water_balance Sample.constants0
      (WaterBalance.init (Sample.with_flags 1 "BEWDY" 0 false) Sample.met0)
      0 12 (Sample.with_flags 1 "BEWDY" 0 false) =
    (Raise e, Sample.with_flags 1 "BEWDY" 0 false).
Proof.
  apply (bewdy_path_always_raises Sample.constants0
           (WaterBalance.init (Sample.with_flags 1 "BEWDY" 0 false)
              Sample.met0)
           0 12 (Sample.with_flags 1 "BEWDY" 0 false));
    reflexivity.
Defined.

(** X21: for a non-negative net radiation and day length and a topsoil
    factor in [0, 1], the soil evaporation lies between zero and the
    equilibrium rate over the day, and is zero for a dry topsoil. *)
Theorem calc_soil_evaporation_bounds (self : WaterBalance.t) (s : Store)
  (tavg net_rad daylen sw_rad : R) (press : option R) :
  temperature_domain tavg ->
  pressure_domain PenmanMonteith.default press ->
  0 <= net_rad -> 0 <= daylen -> 0 <= wtfac_topsoil (state s) <= 1 ->
  exists pot e,
    Penman.calc_evaporation PenmanMonteith.default net_rad tavg press =
      Ok pot /\
    WaterBalance.calc_soil_evaporation self s tavg net_rad press daylen
      sw_rad = Ok e /\
    0 <= e <= pot * (60.0 * 60.0 * daylen) /\
    (wtfac_topsoil (state s) = 0 -> e = 0).
Proof.
  intros Ht Hpress Hnr Hd Hw.
  destruct (resolve_press_positive PenmanMonteith.default press Hpress)
    as (p & Hp & Hppos).
  assert (Hcp : 0 < PenmanMonteith.cp PenmanMonteith.default) by (cbn; lra).
  assert (Heps : 0 < PenmanMonteith.epsilon PenmanMonteith.default)
    by (cbn; lra).
  pose proof (penman_value PenmanMonteith.default Hcp Heps tavg Ht net_rad p
                press Hp Hppos) as Hpen.
  pose proof (slope_value_positive tavg) as Hs.
  pose proof (gamma_value_positive PenmanMonteith.default Hcp Heps tavg Ht p
                Hppos) as Hg.
  pose proof (latent_heat_positive PenmanMonteith.default tavg Ht) as Hl.
  set (pot := slope_value tavg /
              (slope_value tavg + gamma_value PenmanMonteith.default tavg p) *
              net_rad /
              PenmanMonteith.calc_latent_heat_of_vapourisation
                PenmanMonteith.default tavg) in *.
  assert (Hpot : 0 <= pot).
  { unfold pot. apply Rmult_le_pos; [| left; now apply Rinv_0_lt_compat].
    apply Rmult_le_pos; [| assumption].
    left. apply Rdiv_lt_0_compat; lra. }
  exists pot. eexists. split; [exact Hpen |].
  unfold WaterBalance.calc_soil_evaporation. cbv zeta.
  rewrite Hpen. cbn [bind]. split; [reflexivity |].
  rewrite float_gt_zero.
  set (c := if ltb 0 (lai (state s))
            then pot * exp (-0.398 * lai (state s)) else pot).
  assert (Hc : 0 <= c <= pot).
  { unfold c. destruct (Rlt_dec 0 (lai (state s))) as [Hlai | Hlai].
    - rewrite (ltb_true _ _ Hlai).
      pose proof (exp_pos (-0.398 * lai (state s))) as He0.
      assert (He1 : exp (-0.398 * lai (state s)) < 1)
        by (rewrite <- exp_0; apply exp_increasing; lra).
      nra.
    - rewrite ltb_false by lra. lra. }
  assert (Ht0 : 0 <= 60.0 * 60.0 * daylen) by lra.
  split; [| intros H0; rewrite H0; ring].
  split.
  - apply Rmult_le_pos; [apply Rmult_le_pos; lra | lra].
  - apply Rmult_le_compat_r; [assumption |]. nra.
Qed.

Lemma calc_soil_evaporation_bounds_witness :
  exists pot e,
    Penman.calc_evaporation PenmanMonteith.default 0.0004 20 (Some 100) =
      Ok pot /\
    WaterBalance.calc_soil_evaporation Sample.wb0 Sample.drained_to_zero 20
      0.0004 (Some 100) 12 20 = Ok e /\
    0 <= e <= pot * (60.0 * 60.0 * 12) /\
    (wtfac_topsoil (state Sample.drained_to_zero) = 0 -> e = 0).
Proof.
  apply (calc_soil_evaporation_bounds Sample.wb0 Sample.drained_to_zero 20
           0.0004 12 20 (Some 100));
    unfold temperature_domain; cbn; lra.
Defined.

(** X22: the storage update writes the two stores, [delta_sw_store] and, in
    a drought, three fluxes; it leaves the control flags, the parameters, the
    stress factors, the leaf area, the canopy height, the effective rain, the
    interception and the runoff flux as they were, and [delta_sw_store] is
    the change of the root-zone store. *)
Theorem update_water_storage_frame (self : WaterBalance.t) (tol : R)
  (s : Store) :
  let s' := snd (WaterBalance.update_water_storage self tol s) in
  control s' = control s /\ params s' = params s /\
  wtfac_topsoil (state s') = wtfac_topsoil (state s) /\
  wtfac_root (state s') = wtfac_root (state s) /\
  lai (state s') = lai (state s) /\ canht (state s') = canht (state s) /\
  erain (fluxes s') = erain (fluxes s) /\
  interception (fluxes s') = interception (fluxes s) /\
  runoff (fluxes s') = runoff (fluxes s) /\
  delta_sw_store (state s') = pawater_root (state s') - pawater_root (state s).
Proof.
  unfold WaterBalance.update_water_storage. cbn.
  destruct (gtb _ _); cbn; destruct (float_le _ _ _); cbn;
    repeat split; reflexivity.
Qed.

(** X23: with a non-negative root capacity, when the raw root-zone store is
    not negative the new store and the runoff add up to it and the fluxes are
    untouched; when it is negative the store is set to zero with no runoff,
    so the missing water is written off. *)
Theorem update_water_storage_mass_balance (self : WaterBalance.t) (tol : R)
  (s : Store) :
  0 <= wcapac_root (params s) ->
  let out := WaterBalance.update_water_storage self tol s in
  (0 <= raw_root s ->
   pawater_root (state (snd out)) + fst out = raw_root s /\
   fluxes (snd out) = fluxes s) /\
  (raw_root s < 0 ->
   pawater_root (state (snd out)) = 0 /\ fst out = 0).
Proof.
  intros Hw out.
  destruct (update_water_storage_state self tol s) as (_ & _ & Hroot).
  pose proof (update_water_storage_runoff self tol s) as Hrun.
  pose proof (update_water_storage_fluxes self tol s) as Hfl.
  fold out in Hroot, Hrun, Hfl.
  rewrite Hroot, Hrun, Hfl. unfold root_after_overflow, clip.
  split; intros Hraw; (split; [cmp_cases; lra |]).
  - cmp_cases; try reflexivity; lra.
  - cmp_cases; lra.
Qed.

Lemma soil_and_storage_step_outcome (self : WaterBalance.t)
  (md : WaterBalance.MetDay) (net_rad_day daylen : R) (s s' : Store) :
  WaterBalance.soil_and_storage_step self md net_rad_day daylen s =
    (Ok tt, s') ->
  et (fluxes s') =
    transpiration (fluxes s') + soil_evap (fluxes s') +
    interception (fluxes s') /\
  0 <= runoff (fluxes s') /\
  params s' = params s /\
  (0 <= wcapac_topsoil (params s) ->
   0 <= pawater_topsoil (state s') <= wcapac_topsoil (params s)) /\
  (0 <= wcapac_root (params s) ->
   0 <= pawater_root (state s') <= wcapac_root (params s)).
Proof.
  unfold WaterBalance.soil_and_storage_step.
  unfold mbind at 1.
  destruct (WaterBalance.calc_infiltration self (WaterBalance.rain md) s)
    as [[u | e] s1] eqn:Hinf; [| discriminate].
  assert (Hp1 : params s1 = params s).
  { revert Hinf. unfold WaterBalance.calc_infiltration. unfold_method.
    destruct (gtb _ _).
    - destruct (div _ _); intros H; inversion H; reflexivity.
    - intros H; inversion H; reflexivity. }
  unfold mbind at 1. unfold reads.
  destruct (WaterBalance.calc_soil_evaporation self s1 _ _ _ _ _)
    as [se | e]; [| discriminate].
  unfold_method.
  set (s2 := with_fluxes _ (with_fluxes (set_soil_evap se) s1)).
  pose proof (update_water_storage_fluxes self 1E-08 s2) as Hfl.
  pose proof (update_water_storage_runoff self 1E-08 s2) as Hrun.
  pose proof (update_water_storage_state self 1E-08 s2) as (Hpar & Htop & Hroot).
  destruct (WaterBalance.update_water_storage self 1E-08 s2) as [r s3].
  cbn [fst snd] in *. intros H. injection H as <-.
  cbn [fluxes with_fluxes params state].
  assert (Hp2 : params s2 = params s) by (unfold s2; cbn; exact Hp1).
  rewrite Hfl, Hrun, Hpar, Hp2.
  split; [| split; [| split; [reflexivity | split]]].
  - destruct (ltb (root_after_overflow s2) 0); unfold s2; cbn; lra.
  - cbn. cmp_cases; lra.
  - intros Hw. rewrite Htop, Hp2. now apply clip_bounds.
  - intros Hw. rewrite Hroot, Hp2. now apply clip_bounds.
Qed.

Lemma transpiration_step_params (const : Constants) (self : WaterBalance.t)
  (md : WaterBalance.MetDay) (nrd nra nrp daylen : R) (s : Store) :
  params (snd (WaterBalance.transpiration_step const self md nrd nra nrp
                 daylen s)) = params s.
Proof.
  unfold WaterBalance.transpiration_step. unfold_method.
  destruct (trans_model (control s) =? 0)%Z.
  { unfold WaterBalance.calc_transpiration. unfold_method.
    destruct (float_gt _ _ _); [destruct (div _ _) |]; reflexivity. }
  destruct (trans_model (control s) =? 1)%Z.
  { destruct (String.eqb _ "BEWDY").
    - destruct (calc_transpiration_penmon_raises const self
                  (WaterBalance.vpd_day md) nrd (WaterBalance.tair_day md)
                  (WaterBalance.wind_day md) (WaterBalance.ca md) daylen
                  (WaterBalance.press md) s) as (e & ->). reflexivity.
    - destruct (String.eqb _ "MATE"); [| reflexivity].
      unfold WaterBalance.transpiration_mate. unfold_method.
      destruct (WaterBalance.calc_transpiration_penmon_am_pm _ _ _ _ _ _ _ _
                  _ _ _) as [[[[a b] c] d] | e]; [| reflexivity].
      destruct (WaterBalance.calc_transpiration_penmon_am_pm _ _ _ _ _ _ _ _
                  _ _ _) as [[[[a' b'] c'] d'] | e]; [| reflexivity].
      destruct (div _ _); reflexivity. }
  destruct (trans_model (control s) =? 2)%Z; [| reflexivity].
  unfold WaterBalance.calc_transpiration_priestay. unfold_method.
  destruct (PriestleyTaylor.calc_evaporation _ _ _ _ _); reflexivity.
Qed.

Lemma calc_transpiration_total (self : WaterBalance.t) (s : Store) :
  exists s',
    WaterBalance.calc_transpiration self s = (Ok tt, s') /\
    state s' = state s /\ params s' = params s.
Proof.
  unfold WaterBalance.calc_transpiration. unfold_method.
  rewrite float_gt_zero.
  destruct (Rlt_dec 0 (wue (fluxes s))) as [Hw | Hw].
  - rewrite (ltb_true _ _ Hw). rewrite div_ok by lra.
    eexists. split; [reflexivity |]. split; reflexivity.
  - rewrite ltb_false by lra.
    eexists. split; [reflexivity |]. split; reflexivity.
Qed.

Lemma calc_infiltration_total (self : WaterBalance.t) (rain : R) (s : Store) :
  lai (state s) <= 0 \/ max_intercep_lai (params s) <> 0 ->
  exists s',
    WaterBalance.calc_infiltration self rain s = (Ok tt, s') /\
    state s' = state s.
Proof.
  intros Hc. unfold WaterBalance.calc_infiltration. unfold_method.
  unfold gtb. destruct (Rlt_dec 0.0 (lai (state s))) as [Hl | Hl].
  - rewrite (ltb_true _ _ Hl).
    destruct Hc as [Hc | Hc]; [lra |].
    rewrite div_ok by assumption.
    eexists. split; reflexivity.
  - rewrite ltb_false by lra. eexists. split; reflexivity.
Qed.

Lemma soil_and_storage_step_total (self : WaterBalance.t)
  (md : WaterBalance.MetDay) (net_rad_day daylen : R) (s : Store) :
  temperature_domain (WaterBalance.tair_day md) ->
  pressure_domain PenmanMonteith.default (WaterBalance.press md) ->
  lai (state s) <= 0 \/ max_intercep_lai (params s) <> 0 ->
  exists s',
    WaterBalance.soil_and_storage_step self md net_rad_day daylen s =
    (Ok tt, s').
Proof.
  intros Ht Hpress Hc.
  destruct (calc_infiltration_total self (WaterBalance.rain md) s Hc)
    as (s1 & Hinf & Hst).
  destruct (resolve_press_positive PenmanMonteith.default _ Hpress)
    as (p & Hp & Hppos).
  unfold WaterBalance.soil_and_storage_step.
  unfold mbind at 1. rewrite Hinf.
  unfold mbind at 1. unfold reads.
  unfold WaterBalance.calc_soil_evaporation. cbv zeta.
  rewrite (penman_value PenmanMonteith.default) with (p := p);
    try assumption; try (cbn; lra).
  cbn [bind]. unfold_method.
  destruct (WaterBalance.update_water_storage self 1E-08 _) as [r s3].
  now eexists.
Qed.

Lemma update_water_storage_mass_balance_witness :
  let out := WaterBalance.update_water_storage Sample.wb0 1E-08
               Sample.overflowing in
  pawater_root (state (snd out)) + fst out = raw_root Sample.overflowing /\
  fluxes (snd out) = fluxes Sample.overflowing.
Proof.
  apply (update_water_storage_mass_balance Sample.wb0 1E-08
           Sample.overflowing);
    unfold raw_root; cbn; lra.
Defined.

(** X25: under [trans_model = 0] the daily call returns when the day's
    forcing is present, the day length is not zero, temperature and pressure
    are in their domain and the canopy is absent or [max_intercep_lai] is not
    zero. *)
Theorem calculate_water_balance_wue_returns (const : Constants)
  (self : WaterBalance.t) (day : Z) (daylen : R) (s : Store)
  (md : WaterBalance.MetDay) :
  trans_model (control s) = 0%Z ->
  WaterBalance.get_met_data self day daylen = Ok md ->
  daylen <> 0 ->
  temperature_domain (WaterBalance.tair_day md) ->
  pressure_domain PenmanMonteith.default (WaterBalance.press md) ->
  lai (state s) <= 0 \/ max_intercep_lai (params s) <> 0 ->
  exists s',
    WaterBalance.calculate_water_balance const self day daylen s =
    (Ok tt, s').
Proof.
  intros Htm Hmd Hd Ht Hpress Hc.
  unfold WaterBalance.calculate_water_balance. cbv zeta.
  unfold mbind at 1. unfold reads at 1. rewrite Hmd.
  destruct (calc_radiation_returns const self s (WaterBalance.tair_day md)
              (WaterBalance.sw_rad_day md) daylen Hd) as (nrd & Hnrd).
  destruct (calc_radiation_returns const self s (WaterBalance.tair_am md)
              (WaterBalance.sw_rad_am md) (daylen / 2.0)) as (nra & Hnra);
    [lra |].
  destruct (calc_radiation_returns const self s (WaterBalance.tair_pm md)
              (WaterBalance.sw_rad_pm md) (daylen / 2.0)) as (nrp & Hnrp);
    [lra |].
  unfold mbind at 1. unfold reads at 1. rewrite Hnrd.
  unfold mbind at 1. unfold reads at 1. rewrite Hnra.
  unfold mbind at 1. unfold reads at 1. rewrite Hnrp.
  unfold mbind at 1.
  unfold WaterBalance.transpiration_step at 1. unfold_method.
  rewrite Htm. cbn [Z.eqb].
  destruct (calc_transpiration_total self s) as (s1 & Hs1 & Hst & Hpar).
  rewrite Hs1.
  apply soil_and_storage_step_total; try assumption.
  now rewrite Hst, Hpar.
Qed.

Lemma calculate_water_balance_wue_returns_witness :
  exists s',
    WaterBalance.calculate_water_balance Sample.constants0
      (WaterBalance.init Sample.overflowing Sample.met0) 0 12
      Sample.overflowing = (Ok tt, s').
Proof.
  destruct (met0_day0 (WaterBalance.init Sample.overflowing Sample.met0)
              12 eq_refl) as (md & Hmd & Htair & Hrain & Hpress).
  assert (Htd : temperature_domain (WaterBalance.tair_day md))
    by (rewrite Htair; unfold temperature_domain; lra).
  assert (Hpd : pressure_domain PenmanMonteith.default
                  (WaterBalance.press md))
    by (rewrite Hpress; cbn; lra).
  assert (Hd : 12 <> 0) by lra.
  assert (Hc : lai (state Sample.overflowing) <= 0 \/
               max_intercep_lai (params Sample.overflowing) <> 0)
    by (right; cbn; lra).
  exact (calculate_water_balance_wue_returns Sample.constants0
           (WaterBalance.init Sample.overflowing Sample.met0) 0 12
           Sample.overflowing md eq_refl Hmd Hd Htd Hpd Hc).
Defined.

(** X24: whenever a daily call returns, whatever the transpiration model,
    [et] is the sum of transpiration, soil evaporation and interception as
    left in the fluxes (also after the drought correction), the runoff is not
    negative, the parameters are unchanged and each store lies within its
    non-negative capacity. *)
Theorem daily_call_outcome (const : Constants) (self : WaterBalance.t)
  (day : Z) (daylen : R) (s s' : Store) :
  WaterBalance.calculate_water_balance const self day daylen s =
    (Ok tt, s') ->
  et (fluxes s') =
    transpiration (fluxes s') + soil_evap (fluxes s') +
    interception (fluxes s') /\
  0 <= runoff (fluxes s') /\
  params s' = params s /\
  (0 <= wcapac_topsoil (params s) ->
   0 <= pawater_topsoil (state s') <= wcapac_topsoil (params s)) /\
  (0 <= wcapac_root (params s) ->
   0 <= pawater_root (state s') <= wcapac_root (params s)).
Proof.
  unfold WaterBalance.calculate_water_balance. cbv zeta.
  unfold mbind at 1. unfold reads at 1.
  destruct (WaterBalance.get_met_data self day daylen) as [md | e];
    [| discriminate].
  unfold mbind at 1. unfold reads at 1.
  destruct (WaterBalance.calc_radiation const self s _ _ daylen)
    as [nrd | e]; [| discriminate].
  unfold mbind at 1. unfold reads at 1.
  destruct (WaterBalance.calc_radiation const self s (WaterBalance.tair_am md)
              _ _) as [nra | e]; [| discriminate].
  unfold mbind at 1. unfold reads at 1.
  destruct (WaterBalance.calc_radiation const self s (WaterBalance.tair_pm md)
              _ _) as [nrp | e]; [| discriminate].
  unfold mbind at 1.
  pose proof (transpiration_step_params const self md nrd nra nrp daylen s)
    as Hpar.
  destruct (WaterBalance.transpiration_step const self md nrd nra nrp daylen
              s) as [[u | e] s1]; [| discriminate].
  cbn [snd] in Hpar. intros Hstep.
  apply soil_and_storage_step_outcome in Hstep. rewrite Hpar in Hstep.
  exact Hstep.
Qed.

Lemma daily_call_outcome_witness :
  exists s',
    WaterBalance.calculate_water_balance Sample.constants0
      (WaterBalance.init Sample.drained_to_zero Sample.met0) 0 12
      Sample.drained_to_zero = (Ok tt, s') /\
    et (fluxes s') =
      transpiration (fluxes s') + soil_evap (fluxes s') +
      interception (fluxes s').
Proof.
  set (wb := WaterBalance.init Sample.drained_to_zero Sample.met0).
  set (s := Sample.drained_to_zero).
  destruct (met0_day0 wb 12 eq_refl) as (md & Hmd & Htair & Hrain & Hpress).
  assert (Htd : temperature_domain (WaterBalance.tair_day md))
    by (rewrite Htair; unfold temperature_domain; lra).
  assert (Hpd : pressure_domain PenmanMonteith.default
                  (WaterBalance.press md))
    by (rewrite Hpress; cbn; lra).
  destruct (calc_radiation_returns Sample.constants0 wb s
              (WaterBalance.tair_day md) (WaterBalance.sw_rad_day md) 12)
    as (nrd & Hnrd); [lra |].
  destruct (calc_radiation_returns Sample.constants0 wb s
              (WaterBalance.tair_am md) (WaterBalance.sw_rad_am md)
              (12 / 2.0)) as (nra & Hnra); [lra |].
  destruct (calc_radiation_returns Sample.constants0 wb s
              (WaterBalance.tair_pm md) (WaterBalance.sw_rad_pm md)
              (12 / 2.0)) as (nrp & Hnrp); [lra |].
  destruct (calc_transpiration_total wb s) as (s1 & Hs1 & Hst & Hpar).
  destruct (soil_and_storage_step_total wb md nrd 12 s1 Htd Hpd)
    as (s' & Hs'); [right; rewrite Hpar; cbn; lra |].
  assert (Hrun : WaterBalance.calculate_water_balance Sample.constants0 wb 0
                   12 s = (Ok tt, s')).
  { unfold WaterBalance.calculate_water_balance. cbv zeta.
    unfold mbind at 1. unfold reads at 1. rewrite Hmd.
    unfold mbind at 1. unfold reads at 1. rewrite Hnrd.
    unfold mbind at 1. unfold reads at 1. rewrite Hnra.
    unfold mbind at 1. unfold reads at 1. rewrite Hnrp.
    unfold mbind at 1.
    unfold WaterBalance.transpiration_step at 1. unfold_method.
    change (trans_model (control s) =? 0)%Z with true. cbv iota.
    rewrite Hs1. exact Hs'. }
  exists s'. split; [exact Hrun |].
  apply (daily_call_outcome _ _ _ _ _ _ Hrun).
Defined.

(** ** water_balance.py: soil parameters and stress model 2 *)

Lemma get_soil_fracs_shape (self : SoilMoisture.t) (soil_type : string)
  (l : list R) :
  SoilMoisture.get_soil_fracs self soil_type = Ok l ->
  exists silt sand clay,
    l = [silt; sand; clay] /\ silt + sand + clay = 1 /\
    0 < silt < 1 /\ 0 < sand < 1 /\ 0 < clay < 1.
Proof.
  unfold SoilMoisture.get_soil_fracs.
  soil_cases soil_type; try discriminate;
    intros H; injection H as <-;
    do 3 eexists; (split; [reflexivity |]); lra.
Qed.

Lemma get_soil_fracs_known (self : SoilMoisture.t) (soil_type : string)
  (l : list R) :
  SoilMoisture.get_soil_fracs self soil_type = Ok l ->
  exists c n,
    SoilMoisture.get_soil_params self soil_type = Ok (c, n) /\
    0.4 <= c <= 0.7 /\ 3 <= n <= 9.
Proof.
  unfold SoilMoisture.get_soil_fracs.
  soil_cases soil_type; try discriminate;
    intros _; do 2 eexists; (split; [reflexivity |]); lra.
Qed.

Lemma get_soil_params_range (self : SoilMoisture.t) (soil_type : string)
  (c n : R) :
  SoilMoisture.get_soil_params self soil_type = Ok (c, n) ->
  0.4 <= c <= 0.7 /\ 3 <= n <= 9.
Proof.
  unfold SoilMoisture.get_soil_params.
  soil_cases soil_type; try discriminate;
    intros H; injection H as <- <-; lra.
Qed.

(** X26: a soil type known to [get_soil_fracs] gives three fractions, each
    strictly between 0 and 1, that add up to 1, and is known to
    [get_soil_params] too, with [c_theta] in [0.4, 0.7] and [n_theta] in
    [3, 9]; "silt" is known to [get_soil_params] only, so asking for derived
    hydraulic parameters on a silt soil exits. *)
Theorem soil_tables_consistent (self : SoilMoisture.t) (soil_type : string)
  (l : list R) :
  (SoilMoisture.get_soil_fracs self soil_type = Ok l ->
   (exists silt sand clay,
      l = [silt; sand; clay] /\ silt + sand + clay = 1 /\
      0 < silt < 1 /\ 0 < sand < 1 /\ 0 < clay < 1) /\
   exists c n,
     SoilMoisture.get_soil_params self soil_type = Ok (c, n) /\
     0.4 <= c <= 0.7 /\ 3 <= n <= 9) /\
  SoilMoisture.get_soil_params self "silt" = Ok (0.625, 7.5) /\
  SoilMoisture.get_soil_fracs self "silt" = Raise SystemExit.
Proof.
  split; [| split; reflexivity].
  intros H. split.
  - exact (get_soil_fracs_shape self soil_type l H).
  - exact (get_soil_fracs_known self soil_type l H).
Qed.

Lemma soil_tables_consistent_witness :
  (exists silt sand clay,
     [0.05; 0.92; 0.03] = [silt; sand; clay] /\ silt + sand + clay = 1 /\
     0 < silt < 1 /\ 0 < sand < 1 /\ 0 < clay < 1) /\
  exists c n,
    SoilMoisture.get_soil_params (SoilMoisture.init Sample.overflowing)
      "sand" = Ok (c, n) /\
    0.4 <= c <= 0.7 /\ 3 <= n <= 9.
Proof.
  apply (proj1 (soil_tables_consistent (SoilMoisture.init Sample.overflowing)
                  "sand" [0.05; 0.92; 0.03])).
  reflexivity.
Defined.

Lemma Rpower_ten_bound (x : R) : x <= 2.5 -> Rpower 10 x < 336.4.
Proof.
  intros Hx.
  apply Rle_lt_trans with (Rpower 10 2.5).
  - apply Rle_Rpower; lra.
  - replace 2.5 with (INR 2 + / 2) by (simpl; lra).
    rewrite Rpower_plus, Rpower_pow, Rpower_sqrt by lra.
    assert (Hs : R_sqrt.sqrt 10 < 3.2).
    { replace 3.2 with (R_sqrt.sqrt (3.2 * 3.2)) by (apply sqrt_square; lra).
      apply sqrt_lt_1; lra. }
    simpl. lra.
Qed.

Lemma calc_soil_params_capacity (s0 : Store) (silt sand clay : R) :
  0 <= silt <= 1 -> 0 <= sand <= 1 -> 0 <= clay <= 1 ->
  exists theta_fc theta_wp theta_sp b psi_sat_mpa,
    SoilMoisture.calc_soil_params (SoilMoisture.init s0) [silt; sand; clay] =
      Ok (theta_fc, theta_wp, theta_sp, b, psi_sat_mpa) /\
    2.8 <= b /\ psi_sat_mpa < 0 /\ 0 < theta_sp /\ theta_wp < theta_fc.
Proof.
  intros Hsilt Hsand Hclay.
  unfold SoilMoisture.calc_soil_params. cbv zeta.
  change (getitem [silt; sand; clay]
            (SoilMoisture.clay_index (SoilMoisture.init s0)))
    with (Ok clay).
  change (getitem [silt; sand; clay]
            (SoilMoisture.sand_index (SoilMoisture.init s0)))
    with (Ok sand).
  change (getitem [silt; sand; clay]
            (SoilMoisture.silt_index (SoilMoisture.init s0)))
    with (Ok silt).
  cbn [bind].
  rewrite (pow_positive_base 10.0) by lra. cbn [bind].
  rewrite div_ok by lra. cbn [bind].
  set (p10 := Rpower 10.0 (1.54 - 0.95 * sand + 0.63 * silt)).
  pose proof (Rpower_positive 10.0 (1.54 - 0.95 * sand + 0.63 * silt))
    as Hp0.
  fold p10 in Hp0.
  set (b := 3.1 + 15.7 * clay - 0.3 * sand).
  assert (Hb : 2.8 <= b) by (unfold b; lra).
  assert (He : 0 < 1.0 / b) by (apply Rdiv_lt_0_compat; lra).
  rewrite !pow_positive_base by lra. cbn [bind].
  do 5 eexists. split; [reflexivity |].
  assert (Hlt : Rpower (0.01 * - p10 / -152.9) (1.0 / b) <
                Rpower (0.01 * - p10 / -3.364) (1.0 / b))
    by (apply Rlt_Rpower_l; lra).
  repeat split; try lra; nra.
Qed.

(** X27: for texture fractions in [0, 1] [calc_soil_params] returns, with a
    Clapp-Hornberger exponent of at least 2.8, a negative saturated
    potential, and water contents ordered wilting point < field capacity <
    saturation, the wilting point being positive. *)
Theorem calc_soil_params_ordering (s0 : Store) (silt sand clay : R) :
  0 <= silt <= 1 -> 0 <= sand <= 1 -> 0 <= clay <= 1 ->
  exists theta_fc theta_wp theta_sp b psi_sat_mpa,
    SoilMoisture.calc_soil_params (SoilMoisture.init s0) [silt; sand; clay] =
      Ok (theta_fc, theta_wp, theta_sp, b, psi_sat_mpa) /\
    b = 3.1 + 15.7 * clay - 0.3 * sand /\ 2.8 <= b /\
    psi_sat_mpa < 0 /\
    theta_sp = 0.505 - 0.037 * clay - 0.142 * sand /\
    0 < theta_wp /\ theta_wp < theta_fc /\ theta_fc < theta_sp.
Proof.
  intros Hsilt Hsand Hclay.
  unfold SoilMoisture.calc_soil_params. cbv zeta.
  change (getitem [silt; sand; clay]
            (SoilMoisture.clay_index (SoilMoisture.init s0)))
    with (Ok clay).
  change (getitem [silt; sand; clay]
            (SoilMoisture.sand_index (SoilMoisture.init s0)))
    with (Ok sand).
  change (getitem [silt; sand; clay]
            (SoilMoisture.silt_index (SoilMoisture.init s0)))
    with (Ok silt).
  cbn [bind].
  set (x := 1.54 - 0.95 * sand + 0.63 * silt).
  assert (Hx : 0.59 <= x <= 2.17) by (unfold x; lra).
  rewrite (pow_positive_base 10.0 x) by lra. cbn [bind].
  set (b := 3.1 + 15.7 * clay - 0.3 * sand).
  assert (Hb : 2.8 <= b) by (unfold b; lra).
  rewrite div_ok by lra. cbn [bind].
  pose proof (Rpower_positive 10.0 x) as Hp0.
  assert (Hp1 : Rpower 10.0 x < 336.4).
  { replace 10.0 with 10 by lra. apply Rpower_ten_bound. lra. }
  set (p10 := Rpower 10.0 x) in *.
  assert (He : 0 < 1.0 / b) by (apply Rdiv_lt_0_compat; lra).
  assert (Hw : 0 < 0.01 * - p10 / -152.9) by lra.
  assert (Hc : 0 < 0.01 * - p10 / -3.364 < 1) by lra.
  rewrite !pow_positive_base by lra. cbn [bind].
  do 5 eexists. split; [reflexivity |].
  set (sp := 0.505 - 0.037 * clay - 0.142 * sand).
  assert (Hsp : 0.326 <= sp) by (unfold sp; lra).
  pose proof (Rpower_positive (0.01 * - p10 / -152.9) (1.0 / b)) as Hwp.
  assert (Hlt : Rpower (0.01 * - p10 / -152.9) (1.0 / b) <
                Rpower (0.01 * - p10 / -3.364) (1.0 / b))
    by (apply Rlt_Rpower_l; lra).
  assert (Hfc : Rpower (0.01 * - p10 / -3.364) (1.0 / b) < 1).
  { assert (H1 : Rpower 1 (1.0 / b) = 1)
      by (unfold Rpower; rewrite ln_1, Rmult_0_r; apply exp_0).
    rewrite <- H1. apply Rlt_Rpower_l; lra. }
  repeat split; try lra; nra.
Qed.

Lemma calc_soil_params_ordering_witness :
  exists theta_fc theta_wp theta_sp b psi_sat_mpa,
    SoilMoisture.calc_soil_params (SoilMoisture.init Sample.overflowing)
      [0.05; 0.92; 0.03] =
      Ok (theta_fc, theta_wp, theta_sp, b, psi_sat_mpa) /\
    b = 3.1 + 15.7 * 0.03 - 0.3 * 0.92 /\ 2.8 <= b /\
    psi_sat_mpa < 0 /\
    theta_sp = 0.505 - 0.037 * 0.03 - 0.142 * 0.92 /\
    0 < theta_wp /\ theta_wp < theta_fc /\ theta_fc < theta_sp.
Proof.
  apply (calc_soil_params_ordering Sample.overflowing 0.05 0.92 0.03); lra.
Defined.

Lemma derive_hydraulics_on (s0 : Store) (tt_type rt_type : string)
  (s : Store) (ft fr : list R) :
  calc_sw_params (control s) = true ->
  SoilMoisture.get_soil_fracs (SoilMoisture.init s0) tt_type = Ok ft ->
  SoilMoisture.get_soil_fracs (SoilMoisture.init s0) rt_type = Ok fr ->
  0 < topsoil_depth (params s) -> 0 < rooting_depth (params s) ->
  exists s1,
    SoilMoisture.derive_hydraulics (SoilMoisture.init s0) tt_type rt_type s =
      (Ok tt, s1) /\
    0 < wcapac_topsoil (params s1) /\ 0 < wcapac_root (params s1) /\
    psi_sat_topsoil (params s1) < 0 /\ psi_sat_root (params s1) < 0 /\
    0 < theta_sat_topsoil (params s1) /\ 0 < theta_sat_root (params s1) /\
    2.8 <= b_topsoil (params s1) /\ 2.8 <= b_root (params s1) /\
    stress_params (params s1) = stress_params (params s) /\
    state s1 = state s /\ fluxes s1 = fluxes s /\ control s1 = control s.
Proof.
  intros Hcalc Hft Hfr Htd Hrd.
  destruct (get_soil_fracs_shape _ _ _ Hft)
    as (si & sa & cl & -> & _ & Hsi & Hsa & Hcl).
  destruct (get_soil_fracs_shape _ _ _ Hfr)
    as (si' & sa' & cl' & -> & _ & Hsi' & Hsa' & Hcl').
  destruct (calc_soil_params_capacity s0 si sa cl)
    as (fc & wp & sp & b & psi & Hcs & Hb & Hpsi & Hsp & Hfc); try lra.
  destruct (calc_soil_params_capacity s0 si' sa' cl')
    as (fc' & wp' & sp' & b' & psi' & Hcs' & Hb' & Hpsi' & Hsp' & Hfc');
    try lra.
  unfold SoilMoisture.derive_hydraulics. unfold_method.
  rewrite Hcalc, Hft, Hfr, Hcs, Hcs'.
  eexists. split; [reflexivity |]. cbn.
  repeat split; try assumption; try reflexivity; try nra.
Qed.

(** X28: with [calc_sw_params] on, soil types known to [get_soil_fracs] and
    positive layer depths, [initialise_parameters] returns, the derived
    capacities and saturation contents are positive and the saturated
    potentials negative, and state, fluxes and control are left as they
    were. *)
Theorem initialise_parameters_derives (s0 s : Store) (ft fr : list R) :
  calc_sw_params (control s) = true ->
  SoilMoisture.get_soil_fracs (SoilMoisture.init s0)
    (topsoil_type (params s)) = Ok ft ->
  SoilMoisture.get_soil_fracs (SoilMoisture.init s0)
    (rootsoil_type (params s)) = Ok fr ->
  0 < topsoil_depth (params s) -> 0 < rooting_depth (params s) ->
  exists s',
    SoilMoisture.initialise_parameters (SoilMoisture.init s0) s =
      (Ok tt, s') /\
    0 < wcapac_topsoil (params s') /\ 0 < wcapac_root (params s') /\
    psi_sat_topsoil (params s') < 0 /\ psi_sat_root (params s') < 0 /\
    0 < theta_sat_topsoil (params s') /\ 0 < theta_sat_root (params s') /\
    state s' = state s /\ fluxes s' = fluxes s /\ control s' = control s.
Proof.
  intros Hcalc Hft Hfr Htd Hrd.
  destruct (derive_hydraulics_on s0 _ _ s ft fr Hcalc Hft Hfr Htd Hrd)
    as (s1 & Hs1 & Hwt & Hwr & Hpt & Hpr & Htt & Htr & _ & _ & Hstress &
        Hst & Hfl & Hco).
  destruct (get_soil_fracs_known _ _ _ Hft) as (ct & nt & Hct & _).
  destruct (get_soil_fracs_known _ _ _ Hfr) as (cr & nr & Hcr & _).
  rewrite initialise_parameters_steps, Hs1.
  destruct (SoilMoisture.stress_params_unset (params s1)) eqn:E.
  - apply stress_params_unset_true in E.
    rewrite derive_stress_params_unset by assumption.
    rewrite Hct, Hcr.
    eexists. split; [reflexivity |]. cbn.
    repeat split; assumption.
  - rewrite derive_stress_params_set.
    + exists s1. repeat split; assumption.
    + intros H. apply stress_params_unset_true in H. congruence.
Qed.

Lemma initialise_parameters_derives_witness :
  exists s',
    SoilMoisture.initialise_parameters
      (SoilMoisture.init (Sample.with_flags 0 "MATE" 0 true))
      (Sample.with_flags 0 "MATE" 0 true) = (Ok tt, s') /\
    0 < wcapac_topsoil (params s') /\ 0 < wcapac_root (params s') /\
    psi_sat_topsoil (params s') < 0 /\ psi_sat_root (params s') < 0 /\
    0 < theta_sat_topsoil (params s') /\ 0 < theta_sat_root (params s') /\
    state s' = state (Sample.with_flags 0 "MATE" 0 true) /\
    fluxes s' = fluxes (Sample.with_flags 0 "MATE" 0 true) /\
    control s' = control (Sample.with_flags 0 "MATE" 0 true).
Proof.
  apply (initialise_parameters_derives (Sample.with_flags 0 "MATE" 0 true)
           (Sample.with_flags 0 "MATE" 0 true)
           [0.34; 0.32; 0.34] [0.2; 0.22; 0.58]);
    try reflexivity; cbn; lra.
Defined.




(** X30: for a positive deficit and non-zero [ca] and day length the
    stomatal conductance is returned, is proportional to the assimilation
    [gpp], and is zero when [gpp] is zero. *)
Theorem calc_stomatal_conductance_linear (const : Constants)
  (self : WaterBalance.t) (s : Store) (vpd ca daylen gpp : R)
  (press : option R) (temp : R) :
  0 < vpd -> ca <> 0 -> daylen <> 0 ->
  exists g,
    WaterBalance.calc_stomatal_conductance const self s vpd ca daylen gpp
      press temp = Ok g /\
    (forall k,
       WaterBalance.calc_stomatal_conductance const self s vpd ca daylen
         (k * gpp) press temp = Ok (k * g)) /\
    (gpp = 0 -> g = 0).
Proof.
  intros Hvpd Hca Hd. unfold WaterBalance.calc_stomatal_conductance.
  cbv zeta. rewrite div_ok by lra. cbn [bind].
  unfold Py.sqrt. rewrite (ltb_false vpd 0) by lra. cbn [bind].
  pose proof (sqrt_lt_R0 vpd Hvpd) as Hs.
  rewrite div_ok by lra. cbn [bind].
  rewrite div_ok by assumption. cbn [bind].
  eexists. split; [reflexivity |]. split.
  - intros k. rewrite div_ok by assumption. cbn [bind].
    f_equal. unfold Rdiv. ring.
  - intros ->. unfold Rdiv. ring.
Qed.

Lemma calc_stomatal_conductance_linear_witness :
  exists g,
    WaterBalance.calc_stomatal_conductance Sample.constants0 Sample.wb0
      Sample.drained_to_zero 1 380 12 5 (Some 100) 20 = Ok g /\
    (forall k,
       WaterBalance.calc_stomatal_conductance Sample.constants0 Sample.wb0
         Sample.drained_to_zero 1 380 12 (k * 5) (Some 100) 20 =
       Ok (k * g)) /\
    (5 = 0 -> g = 0).
Proof.
  apply (calc_stomatal_conductance_linear Sample.constants0 Sample.wb0
           Sample.drained_to_zero 1 380 12 5 (Some 100) 20); lra.
Defined.
